(** * A shallow embedding of the [log] pattern engine (log.go)

    The development follows the reading half of the package: the rune
    cursor the extractors share ([bytes.Reader]), the primitive scanners
    ([parseInt], [parseString], [peek]), the time and host sub-compilers,
    the entry pattern compiler with its alternation groups, and the stream
    reader ([Reader.Read]).

    Conventions.
    - A Go [string] or [[]byte] is a Rocq [string] (a sequence of bytes);
      a [rune] and an [int] are [Z].  Every integer the scanners store comes
      out of [strconv.ParseInt], so it fits 64 bits and no wrap-around is
      reachable in the arithmetic modelled here.
    - A Go [error] is [option Err]; [None] is [nil].
    - A call through a pointer ([*Entry], [*when], [*host], [*bytes.Reader])
      is explicit state passing: the callee returns the state it leaves
      behind, also when it returns an error.
    - A call that never returns is the outcome [Loop]; the loops that read
      the cursor run on fuel, and [Starved] marks a run that was given too
      little. *)

From Stdlib Require Import ZArith List String Ascii Bool Lia.
Import ListNotations.
Local Open Scope string_scope.
Local Open Scope Z_scope.

(** ** Bytes and runes *)

Definition rune (c : ascii) : Z := Z.of_N (N_of_ascii c).
Arguments rune c%_char.

Definition byte_of (b : Z) : ascii := ascii_of_N (Z.to_N (b mod 256)).

Definition byteAt (s : string) (i : Z) : option Z :=
  if i <? 0 then None
  else match String.get (Z.to_nat i) s with
       | Some c => Some (rune c)
       | None => None
       end.

Definition len (s : string) : Z := Z.of_nat (String.length s).

(** ** unicode/utf8 *)

Module utf8.

Definition RuneError : Z := 65533.
Definition RuneSelf : Z := 128.
Definition MaxRune : Z := 1114111.

Definition inr (lo hi b : Z) : bool := (lo <=? b) && (b <=? hi).

(** The size a leading byte announces and the range its second byte must
    lie in (the [first] and [acceptRanges] tables); [None] is an invalid
    leading byte. *)
Definition first (p0 : Z) : option (Z * Z * Z) :=
  if inr 194 223 p0 then Some (2, 128, 191)
  else if p0 =? 224 then Some (3, 160, 191)
  else if inr 225 236 p0 then Some (3, 128, 191)
  else if p0 =? 237 then Some (3, 128, 159)
  else if inr 238 239 p0 then Some (3, 128, 191)
  else if p0 =? 240 then Some (4, 144, 191)
  else if inr 241 243 p0 then Some (4, 128, 191)
  else if p0 =? 244 then Some (4, 128, 143)
  else None.

(** [DecodeRune] on the bytes of [s] from offset [i], which holds a byte. *)
Definition DecodeRune (s : string) (i : Z) : Z * Z :=
  match byteAt s i with
  | None => (RuneError, 0)
  | Some p0 =>
    if p0 <? RuneSelf then (p0, 1)
    else match first p0 with
    | None => (RuneError, 1)
    | Some (sz, lo, hi) =>
      match byteAt s (i + 1) with
      | None => (RuneError, 1)
      | Some b1 =>
        if negb (inr lo hi b1) then (RuneError, 1)
        else if sz <=? 2 then
          (Z.lor (Z.shiftl (Z.land p0 31) 6) (Z.land b1 63), 2)
        else match byteAt s (i + 2) with
        | None => (RuneError, 1)
        | Some b2 =>
          if negb (inr 128 191 b2) then (RuneError, 1)
          else if sz <=? 3 then
            (Z.lor (Z.lor (Z.shiftl (Z.land p0 15) 12)
                          (Z.shiftl (Z.land b1 63) 6))
                   (Z.land b2 63), 3)
          else match byteAt s (i + 3) with
          | None => (RuneError, 1)
          | Some b3 =>
            if negb (inr 128 191 b3) then (RuneError, 1)
            else
              (Z.lor (Z.lor (Z.lor (Z.shiftl (Z.land p0 7) 18)
                                   (Z.shiftl (Z.land b1 63) 12))
                            (Z.shiftl (Z.land b2 63) 6))
                     (Z.land b3 63), 4)
          end
        end
      end
    end
  end.

Definition bytes (l : list Z) : string :=
  fold_right (fun b acc => String (byte_of b) acc) EmptyString l.

(** [AppendRune] to the empty slice: the UTF-8 encoding of [r]. *)
Definition EncodeRune (r : Z) : string :=
  if (0 <=? r) && (r <? RuneSelf) then bytes [r]
  else if (0 <=? r) && (r <=? 2047) then
    bytes [Z.lor 192 (Z.shiftr r 6); Z.lor 128 (Z.land r 63)]
  else if (r <? 0) || (MaxRune <? r) || inr 55296 57343 r then
    bytes [239; 191; 189]
  else if r <=? 65535 then
    bytes [Z.lor 224 (Z.shiftr r 12);
           Z.lor 128 (Z.land (Z.shiftr r 6) 63);
           Z.lor 128 (Z.land r 63)]
  else
    bytes [Z.lor 240 (Z.shiftr r 18);
           Z.lor 128 (Z.land (Z.shiftr r 12) 63);
           Z.lor 128 (Z.land (Z.shiftr r 6) 63);
           Z.lor 128 (Z.land r 63)].

End utf8.

(** [bytes.Buffer.WriteRune]: the buffer is the string written so far. *)
Definition WriteRune (buf : string) (r : Z) : string :=
  buf ++ utf8.EncodeRune r.

(** ** Errors *)

Inductive Err : Type :=
| ErrPattern                (* errors.New("invalid pattern") *)
| ErrSyntax                 (* an error wrapping ErrSyntax *)
| EOF                       (* io.EOF *)
| ErrUnreadRune             (* bytes.Reader.UnreadRune refused *)
| ErrNegativePosition       (* bytes.Reader.Seek refused *)
| ErrNumSyntax              (* strconv.NumError wrapping strconv.ErrSyntax *)
| ErrNumRange               (* strconv.NumError wrapping strconv.ErrRange *)
| ErrEscape                 (* the error built for an invalid escape *)
| ErrScanner.               (* an error of the underlying bufio.Scanner *)

Definition error : Type := option Err.

(** [errors.Is(err, ErrPattern)] on the errors the extractors return: none
    of the others wraps [ErrPattern]. *)
Definition isErrPattern (e : Err) : bool :=
  match e with ErrPattern => true | _ => false end.

(** ** bytes.Reader (and strings.Reader, which has the same code) *)

Module bytesReader.

Record Reader : Type := mk {
  s : string;        (* the bytes read from *)
  i : Z;             (* current reading index *)
  prevRune : Z       (* index of previous rune; or < 0 *)
}.

Definition NewReader (b : string) : Reader := mk b 0 (-1).

Definition Len (r : Reader) : Z :=
  if len (s r) <=? i r then 0 else len (s r) - i r.

Definition ReadRune (r : Reader) : Z * Z * error * Reader :=
  if len (s r) <=? i r then (0, 0, Some EOF, mk (s r) (i r) (-1))
  else
    let '(ch, size) := utf8.DecodeRune (s r) (i r) in
    (ch, size, None, mk (s r) (i r + size) (i r)).

Definition UnreadRune (r : Reader) : error * Reader :=
  if i r <=? 0 then (Some ErrUnreadRune, r)
  else if prevRune r <? 0 then (Some ErrUnreadRune, r)
  else (None, mk (s r) (prevRune r) (-1)).

(** [Seek(0, io.SeekCurrent)] *)
Definition SeekCurrent0 (r : Reader) : Z * error * Reader :=
  if i r <? 0 then (0, Some ErrNegativePosition, mk (s r) (i r) (-1))
  else (i r, None, mk (s r) (i r) (-1)).

(** [Seek(offset, io.SeekStart)] *)
Definition SeekStart (r : Reader) (offset : Z) : Z * error * Reader :=
  if offset <? 0 then (0, Some ErrNegativePosition, mk (s r) (i r) (-1))
  else (offset, None, mk (s r) offset (-1)).

End bytesReader.

Import bytesReader.

Definition Cursor : Type := bytesReader.Reader.

(** Every loop below reads at least one rune per iteration until the input
    ends; one more iteration than bytes remain is enough fuel for it. *)
Definition fuelFor (r : Cursor) : nat := S (Z.to_nat (Len r)).

(** ** Character-class predicates *)

Definition isDigit (r : Z) : bool := (rune "0" <=? r) && (r <=? rune "9").

Definition isHexa (r : Z) : bool :=
  isDigit r || ((rune "a" <=? r) && (r <=? rune "f"))
            || ((rune "A" <=? r) && (r <=? rune "F")).

Definition isLetter (r : Z) : bool :=
  ((rune "a" <=? r) && (r <=? rune "z")) || ((rune "A" <=? r) && (r <=? rune "Z")).

Definition isAlpha (r : Z) : bool :=
  isDigit r || isLetter r || (r =? rune "-") || (r =? rune "_").

Definition isBlank (r : Z) : bool := (r =? rune " ") || (r =? rune "009").

Definition isEOL (r : Z) : bool := r =? 0.

Definition isQuote (r : Z) : bool := (r =? rune "'") || (r =? rune "034").

(** ** Outcomes

    [Ret a]: the call returned [a].  [Loop]: the call never returns (its
    loop reads past the end of the input for ever).  [Starved]: a loop of
    the model was given too little fuel; no result of the program, and not
    met when the fuel is [fuelFor] of a cursor inside its input (lemmas
    [parseIntLoop_fed], [parseStringLoop_fed]). *)

Inductive outcome (A : Type) : Type :=
| Ret (a : A)
| Loop
| Starved.
Arguments Ret {A} a.
Arguments Loop {A}.
Arguments Starved {A}.

Definition bind {A B : Type} (m : outcome A) (k : A -> outcome B) : outcome B :=
  match m with
  | Ret a => k a
  | Loop => Loop
  | Starved => Starved
  end.

Notation "' p <- m ;; k" := (bind m (fun p => k))
  (at level 61, p pattern, m at next level, right associativity).

Definition isNil (e : error) : bool :=
  match e with None => true | Some _ => false end.

(** ** strings and strconv *)

Module strings.

Fixpoint TrimLeft0 (s : string) : string :=
  match s with
  | String c rest => if rune c =? rune "0" then TrimLeft0 rest else s
  | EmptyString => s
  end.

Definition isEmpty (s : string) : bool :=
  match s with EmptyString => true | _ => false end.

(** [strings.ToLower] on ASCII bytes; the package calls it on runs of
    ASCII letters only. *)
Definition lowerByte (c : ascii) : ascii :=
  let b := rune c in
  if (rune "A" <=? b) && (b <=? rune "Z") then byte_of (b + 32) else c.

Fixpoint ToLower (s : string) : string :=
  match s with
  | EmptyString => EmptyString
  | String c rest => String (lowerByte c) (ToLower rest)
  end.

(** Byte-wise lexicographic order, Go's [<] on strings. *)
Fixpoint ltb (a b : string) : bool :=
  match a, b with
  | EmptyString, EmptyString => false
  | EmptyString, String _ _ => true
  | String _ _, EmptyString => false
  | String x a', String y b' =>
      if rune x <? rune y then true
      else if rune y <? rune x then false
      else ltb a' b'
  end.

Definition eqb (a b : string) : bool := String.eqb a b.

(** The runes of [s], as [for _, c := range s] yields them. *)
Fixpoint runesLoop (fuel : nat) (r : Cursor) : list Z :=
  if 0 <? Len r then
    match fuel with
    | O => []
    | S f => let '(c, _, _, r1) := ReadRune r in c :: runesLoop f r1
    end
  else [].

Definition runes (s : string) : list Z :=
  let r := bytesReader.NewReader s in runesLoop (fuelFor r) r.

Definition ofRunes (l : list Z) : string :=
  fold_left WriteRune l EmptyString.

(** [strings.Map(mapping, s)] for a [mapping] that keeps a rune or drops
    it (returns -1). *)
Definition MapDrop (drop : Z -> bool) (s : string) : string :=
  ofRunes (filter (fun c => negb (drop c)) (runes s)).

(** [unicode.IsSpace] *)
Definition IsSpace (r : Z) : bool :=
  ((9 <=? r) && (r <=? 13)) || (r =? 32) || (r =? 133) || (r =? 160)
  || (r =? 5760) || ((8192 <=? r) && (r <=? 8202))
  || (r =? 8232) || (r =? 8233) || (r =? 8239) || (r =? 8287) || (r =? 12288).

Fixpoint dropSpace (l : list Z) : list Z :=
  match l with
  | c :: rest => if IsSpace c then dropSpace rest else l
  | [] => []
  end.

(** [strings.TrimSpace], on a string a [bytes.Buffer] collected through
    [WriteRune] (valid UTF-8). *)
Definition TrimSpace (s : string) : string :=
  ofRunes (rev (dropSpace (rev (dropSpace (runes s))))).

(** [strings.Split(s, sep)] for a one-byte separator: [cur] is the piece
    being collected. *)
Fixpoint splitLoop (s : string) (sep : ascii) (cur : string) : list string :=
  match s with
  | EmptyString => [cur]
  | String c rest =>
      if Ascii.eqb c sep then cur :: splitLoop rest sep EmptyString
      else splitLoop rest sep (cur ++ String c EmptyString)
  end.

Definition Split (s : string) (sep : ascii) : list string :=
  splitLoop s sep EmptyString.

End strings.

Module strconv.

Definition maxUint64 : Z := 18446744073709551615.
Definition maxInt64 : Z := 9223372036854775807.

(** The digit loop of [ParseUint] in base 10. *)
Fixpoint parseUintLoop (s : string) (n : Z) : Z * error :=
  match s with
  | EmptyString => (n, None)
  | String c rest =>
      let d := rune c in
      if isDigit d then
        let n1 := n * 10 + (d - rune "0") in
        if maxUint64 <? n1 then (maxUint64, Some ErrNumRange)
        else parseUintLoop rest n1
      else (0, Some ErrNumSyntax)
  end.

(** [ParseInt(s, 0, 64)] on the strings [parseInt] hands over: non-empty
    runs of digits or hexadecimal letters that do not start with [0], so
    that no sign, no base prefix and no underscore is met and the base is
    10; a letter is then a syntax error. *)
Definition ParseInt (s : string) : Z * error :=
  if strings.isEmpty s then (0, Some ErrNumSyntax)
  else
    let '(un, err) := parseUintLoop s 0 in
    match err with
    | Some ErrNumSyntax => (0, err)
    | _ => if maxInt64 <? un then (maxInt64, Some ErrNumRange)
           else (un, None)
    end.

Fixpoint digits (fuel : nat) (n : Z) (base : Z) (acc : string) : string :=
  match fuel with
  | O => acc
  | S f =>
      let d := n mod base in
      let c := if d <? 10 then byte_of (rune "0" + d)
               else byte_of (rune "a" + (d - 10)) in
      if n / base =? 0 then String c acc
      else digits f (n / base) base (String c acc)
  end.

(** [FormatInt(n, base)] *)
Definition FormatInt (n : Z) (base : Z) : string :=
  if n <? 0 then String "-" (digits (S (Z.to_nat (Z.log2 (- n)))) (- n) base EmptyString)
  else digits (S (Z.to_nat (Z.log2 n))) n base EmptyString.

Definition Itoa (n : Z) : string := FormatInt n 10.

End strconv.

(** ** Primitive scanners *)

Definition peek (r : Cursor) : Z * Cursor :=
  let '(c, _, _, r1) := ReadRune r in
  let '(_, r2) := UnreadRune r1 in
  (c, r2).

(** The loop of [parseInt]: [inl err] when the loop returns [err], [inr buf]
    when it ends and the digits are to be converted.  [k] is the loop
    counter. *)
Fixpoint parseIntLoop (fuel : nat) (k n : Z) (str : Cursor)
    (accept : Z -> bool) (buf : string) : outcome ((Err + string) * Cursor) :=
  if (n <=? 0) || (k <? n) then
    match fuel with
    | O => Starved
    | S f =>
        let '(r, _, err, str1) := ReadRune str in
        match err with
        | Some e => Ret (inl e, str1)
        | None =>
            if negb (accept r) then
              if n =? 0 then Ret (inr buf, snd (UnreadRune str1))
              else Ret (inl ErrPattern, str1)
            else parseIntLoop f (k + 1) n str1 accept (WriteRune buf r)
        end
    end
  else Ret (inr buf, str).

(** [parseInt(&i, n, str, accept)]: the error, the value [*i] holds after
    the call, and the cursor. *)
Definition parseInt (i : Z) (n : Z) (str : Cursor) (accept : Z -> bool)
    : outcome (error * Z * Cursor) :=
  ' (res, str1) <- parseIntLoop (fuelFor str) 0 n str accept EmptyString ;;
  match res with
  | inl e => Ret (Some e, i, str1)
  | inr buf =>
      let part := strings.TrimLeft0 buf in
      if strings.isEmpty part then Ret (None, i, str1)
      else
        let '(x, err) := strconv.ParseInt part in
        if isNil err then Ret (None, x, str1) else Ret (err, i, str1)
  end.

(** The loop of [parseString]. At the end of the input [ReadRune] yields
    rune 0 and leaves the cursor where it is; when [accept] takes rune 0
    and no length bounds the loop, every further iteration repeats this
    one. *)
Fixpoint parseStringLoop (fuel : nat) (k length : Z) (r : Cursor)
    (accept : Z -> bool) (buf : string) : outcome (string * Cursor) :=
  if (length <=? 0) || (k <? length) then
    match fuel with
    | O => Starved
    | S f =>
        let '(c, _, err, r1) := ReadRune r in
        if negb (accept c) then Ret (buf, r1)
        else if negb (isNil err) && (length <=? 0) then Loop
        else parseStringLoop f (k + 1) length r1 accept (WriteRune buf c)
    end
  else Ret (buf, r).

(** [parseString(r, length, accept)] with a non-nil [accept]; the deferred
    [UnreadRune] runs on every return. *)
Definition parseString (r : Cursor) (length : Z) (accept : Z -> bool)
    : outcome (string * error * Cursor) :=
  ' (buf, r1) <- parseStringLoop (fuelFor r + Z.to_nat length) 0 length r accept EmptyString ;;
  let r2 := snd (UnreadRune r1) in
  if (0 <? length) && negb (len buf =? length) then Ret (EmptyString, Some ErrPattern, r2)
  else Ret (buf, None, r2).

(** ** Package time (the part [when.Time] uses)

    A [Time] is an instant, in seconds and nanoseconds since the Unix epoch,
    with the location its calendar fields are read in.  [Date], [absDate]
    and [AddDate] follow the standard library's code, with its absolute
    epoch and its cycle arithmetic. *)

Module time.

Inductive Location : Type :=
| UTC
| Local
| FixedZone (name : string) (offset : Z).

Record Time : Type := mkTime {
  unixSec : Z;
  nsec : Z;
  loc : Location
}.

(** The offset of a location east of UTC.  The offset of [Local] belongs
    to the host; this package never reads the calendar of a local time
    (see [when_Time]: only [Date] results are read back), and the model
    leaves it at 0. *)
Definition offsetOf (l : Location) : Z :=
  match l with
  | UTC => 0
  | Local => 0
  | FixedZone _ off => off
  end.

Definition secondsPerMinute : Z := 60.
Definition secondsPerHour : Z := 3600.
Definition secondsPerDay : Z := 86400.
Definition daysPer400Years : Z := 365 * 400 + 97.
Definition daysPer100Years : Z := 365 * 100 + 24.
Definition daysPer4Years : Z := 365 * 4 + 1.

Definition absoluteZeroYear : Z := -292277022399.
Definition internalYear : Z := 1.
Definition absoluteToInternal : Z :=
  (absoluteZeroYear - internalYear) / 400 * daysPer400Years * secondsPerDay.
Definition internalToAbsolute : Z := - absoluteToInternal.
Definition unixToInternal : Z :=
  (1969 * 365 + 1969 / 4 - 1969 / 100 + 1969 / 400) * secondsPerDay.
Definition internalToUnix : Z := - unixToInternal.

Definition daysBefore : list Z :=
  [0; 31; 59; 90; 120; 151; 181; 212; 243; 273; 304; 334; 365].

Definition isLeap (year : Z) : bool :=
  (Z.rem year 4 =? 0) && (negb (Z.rem year 100 =? 0) || (Z.rem year 400 =? 0)).

(** [norm(hi, lo, base)] *)
Definition norm (hi lo base : Z) : Z * Z :=
  let '(hi, lo) :=
    if lo <? 0 then
      let n := Z.quot (- lo - 1) base + 1 in (hi - n, lo + n * base)
    else (hi, lo) in
  if base <=? lo then
    let n := Z.quot lo base in (hi + n, lo - n * base)
  else (hi, lo).

Definition daysSinceEpoch (year : Z) : Z :=
  let y := year - absoluteZeroYear in
  let n := Z.quot y 400 in
  let y := y - 400 * n in
  let d := daysPer400Years * n in
  let n := Z.quot y 100 in
  let y := y - 100 * n in
  let d := d + daysPer100Years * n in
  let n := Z.quot y 4 in
  let y := y - 4 * n in
  let d := d + daysPer4Years * n in
  d + 365 * y.

(** [time.Date(year, month, day, hour, min, sec, nsec, loc)] *)
Definition Date (year month day hour min sec nsec : Z) (l : Location) : Time :=
  let m := month - 1 in
  let '(year, m) := norm year m 12 in
  let month := m + 1 in
  let '(sec, nsec) := norm sec nsec 1000000000 in
  let '(min, sec) := norm min sec 60 in
  let '(hour, min) := norm hour min 60 in
  let '(day, hour) := norm day hour 24 in
  let d := daysSinceEpoch year in
  let d := d + nth (Z.to_nat (month - 1)) daysBefore 0 in
  let d := if isLeap year && (3 <=? month) then d + 1 else d in
  let d := d + (day - 1) in
  let abs := d * secondsPerDay in
  let abs := abs + (hour * secondsPerHour + min * secondsPerMinute + sec) in
  let unix := abs + (absoluteToInternal + internalToUnix) in
  mkTime (unix - offsetOf l) nsec l.

(** [time.Unix(sec, 0)]: a local time. *)
Definition Unix (sec : Z) (ns : Z) : Time := mkTime sec ns Local.

Definition abs (t : Time) : Z :=
  unixSec t + offsetOf (loc t) + (unixToInternal + internalToAbsolute).

(** [absDate(abs, true)]: year, month, day and zero-based day of the year. *)
Definition absDate (abs : Z) : Z * Z * Z * Z :=
  let d := Z.quot abs secondsPerDay in
  let n := Z.quot d daysPer400Years in
  let y := 400 * n in
  let d := d - daysPer400Years * n in
  let n := Z.quot d daysPer100Years in
  let n := n - Z.shiftr n 2 in
  let y := y + 100 * n in
  let d := d - daysPer100Years * n in
  let n := Z.quot d daysPer4Years in
  let y := y + 4 * n in
  let d := d - daysPer4Years * n in
  let n := Z.quot d 365 in
  let n := n - Z.shiftr n 2 in
  let y := y + n in
  let d := d - 365 * n in
  let year := y + absoluteZeroYear in
  let yday := d in
  let day := yday in
  if isLeap year && (day =? 31 + 29 - 1) then (year, 2, 29, yday)
  else
    let day := if isLeap year && (31 + 29 - 1 <? day) then day - 1 else day in
    let month := Z.quot day 31 in
    let e := nth (Z.to_nat (month + 1)) daysBefore 0 in
    let '(month, begin) :=
      if e <=? day then (month + 1, e)
      else (month, nth (Z.to_nat month) daysBefore 0) in
    (year, month + 1, day - begin + 1, yday).

(** [t.YearDay()] *)
Definition YearDay (t : Time) : Z :=
  let '(_, _, _, yday) := absDate (abs t) in yday + 1.

(** [t.Clock()] *)
Definition Clock (t : Time) : Z * Z * Z :=
  let sec := Z.rem (abs t) secondsPerDay in
  let hour := Z.quot sec secondsPerHour in
  let sec := sec - hour * secondsPerHour in
  let min := Z.quot sec secondsPerMinute in
  let sec := sec - min * secondsPerMinute in
  (hour, min, sec).

(** [t.AddDate(years, months, days)] *)
Definition AddDate (t : Time) (years months days : Z) : Time :=
  let '(year, month, day, _) := absDate (abs t) in
  let '(hour, min, sec) := Clock t in
  Date (year + years) (month + months) (day + days) hour min sec (nsec t) (loc t).

(** [t.Equal(u)]: the same instant. *)
Definition Equal (t u : Time) : bool :=
  (unixSec t =? unixSec u) && (nsec t =? nsec u).

End time.

(** ** The time accumulator *)

Record when : Type := mkWhen {
  Year : Z;
  Mon : Z;
  Day : Z;
  Hour : Z;
  Min : Z;
  Sec : Z;
  Frac : Z;
  Zone : Z;
  YearDay : Z;
  Unix : Z
}.

Definition when0 : when := mkWhen 0 0 0 0 0 0 0 0 0 0.

(** [func (w when) Time() time.Time] *)
Definition when_Time (w : when) : time.Time :=
  if negb (Unix w =? 0) then time.Unix (Unix w) 0
  else
    let year := if Year w =? 0 then Year w + 1 else Year w in
    let mon := if Mon w =? 0 then Mon w + 1 else Mon w in
    let day := if Day w =? 0 then Day w + 1 else Day w in
    let zone := if negb (Zone w =? 0) then time.FixedZone EmptyString (Zone w)
                else time.UTC in
    let t := time.Date year mon day (Hour w) (Min w) (Sec w) (Frac w) zone in
    if 0 <? YearDay w then time.AddDate t 0 0 (YearDay w - time.YearDay t + 1)
    else t.

(** ** Extractor steps

    A [whenfunc], [hostfunc] or [parsefunc] takes the accumulator it writes
    through its pointer and the cursor, and returns its error together with
    the accumulator and the cursor as it leaves them. *)

(** [append(slice, x)] *)
Definition append_ {A : Type} (l : list A) (x : A) : list A := (l ++ [x])%list.

Definition stepfunc (S : Type) : Type := S -> Cursor -> outcome (error * S * Cursor).

Fixpoint merge {S : Type} (fs : list (stepfunc S)) (s : S) (r : Cursor)
    : outcome (error * S * Cursor) :=
  match fs with
  | [] => Ret (None, s, r)
  | fn :: rest =>
      ' (err, s1, r1) <- fn s r ;;
      if isNil err then merge rest s1 r1 else Ret (err, s1, r1)
  end.

(** The loop shared by [parseLiteral], [parseWhenLiteral] and
    [parseHostLiteral]; [pat] is the [strings.Reader] over the literal. *)
Fixpoint literalLoop (fuel : nat) (pat r : Cursor) : outcome (error * Cursor) :=
  if 0 <? Len pat then
    match fuel with
    | O => Starved
    | S f =>
        let '(w, _, _, pat1) := ReadRune pat in
        let '(g, _, _, r1) := ReadRune r in
        if negb (w =? g) then Ret (Some ErrPattern, r1)
        else literalLoop f pat1 r1
    end
  else Ret (None, r).

Definition matchLiteral {S : Type} (str : string) : stepfunc S :=
  fun s r =>
    let pat := bytesReader.NewReader str in
    ' (err, r1) <- literalLoop (fuelFor pat) pat r ;;
    Ret (err, s, r1).

(** ** sort *)

Module sort.

Fixpoint insert (x : string) (l : list string) : list string :=
  match l with
  | [] => [x]
  | y :: rest => if strings.ltb y x then y :: insert x rest else x :: l
  end.

(** [sort.Strings]: equal strings are indistinguishable, so the sorted
    slice does not depend on the algorithm. *)
Definition Strings (l : list string) : list string :=
  fold_right insert [] l.

Fixpoint searchLoop (fuel : nat) (i j : Z) (f : Z -> bool) : Z :=
  if i <? j then
    match fuel with
    | O => i
    | S k =>
        let h := Z.shiftr (i + j) 1 in
        if negb (f h) then searchLoop k (h + 1) j f
        else searchLoop k i h f
    end
  else i.

(** [sort.Search(n, f)] *)
Definition Search (n : Z) (f : Z -> bool) : Z :=
  searchLoop (S (Z.to_nat n)) 0 n f.

Definition at_ (a : list string) (i : Z) : string :=
  nth (Z.to_nat i) a EmptyString.

(** [sort.SearchStrings(a, x)] *)
Definition SearchStrings (a : list string) (x : string) : Z :=
  Search (Z.of_nat (List.length a)) (fun i => negb (strings.ltb (at_ a i) x)).

End sort.

(** [x >= len(a) || a[x] != s], the test after each table lookup. *)
Definition notFound (a : list string) (x : Z) (s : string) : bool :=
  (Z.of_nat (List.length a) <=? x) || negb (strings.eqb (sort.at_ a x) s).

(** The tables as [init] leaves them. *)
Definition days_decl : list string :=
  ["mon"; "tue"; "wed"; "thu"; "fri"; "sat"; "sun"].

Definition months_decl : list string :=
  ["jan"; "feb"; "mar"; "apr"; "may"; "jun"; "jul"; "aug"; "sep"; "oct"; "nov"; "dec"].

Definition days : list string := sort.Strings days_decl.
Definition months : list string := sort.Strings months_decl.

Definition isoPattern : string := "%y-%m-%d %H:%M:%S%Z".
Definition rfcPattern : string := "%y-%m-%dT%H:%M:%S%Z".

(** ** Time scanners *)

Definition whenfunc : Type := stepfunc when.

Definition setYear (w : when) (v : Z) : when :=
  mkWhen v (Mon w) (Day w) (Hour w) (Min w) (Sec w) (Frac w) (Zone w) (YearDay w) (Unix w).
Definition setMon (w : when) (v : Z) : when :=
  mkWhen (Year w) v (Day w) (Hour w) (Min w) (Sec w) (Frac w) (Zone w) (YearDay w) (Unix w).
Definition setDay (w : when) (v : Z) : when :=
  mkWhen (Year w) (Mon w) v (Hour w) (Min w) (Sec w) (Frac w) (Zone w) (YearDay w) (Unix w).
Definition setHour (w : when) (v : Z) : when :=
  mkWhen (Year w) (Mon w) (Day w) v (Min w) (Sec w) (Frac w) (Zone w) (YearDay w) (Unix w).
Definition setMin (w : when) (v : Z) : when :=
  mkWhen (Year w) (Mon w) (Day w) (Hour w) v (Sec w) (Frac w) (Zone w) (YearDay w) (Unix w).
Definition setSec (w : when) (v : Z) : when :=
  mkWhen (Year w) (Mon w) (Day w) (Hour w) (Min w) v (Frac w) (Zone w) (YearDay w) (Unix w).
Definition setFrac (w : when) (v : Z) : when :=
  mkWhen (Year w) (Mon w) (Day w) (Hour w) (Min w) (Sec w) v (Zone w) (YearDay w) (Unix w).
Definition setZone (w : when) (v : Z) : when :=
  mkWhen (Year w) (Mon w) (Day w) (Hour w) (Min w) (Sec w) (Frac w) v (YearDay w) (Unix w).
Definition setYearDay (w : when) (v : Z) : when :=
  mkWhen (Year w) (Mon w) (Day w) (Hour w) (Min w) (Sec w) (Frac w) (Zone w) v (Unix w).
Definition setUnix (w : when) (v : Z) : when :=
  mkWhen (Year w) (Mon w) (Day w) (Hour w) (Min w) (Sec w) (Frac w) (Zone w) (YearDay w) v.

(** [parseInt(&w.F, n, r, isDigit)] for a field [F] of the accumulator. *)
Definition intField {S : Type} (get : S -> Z) (set : S -> Z -> S) (n : Z)
    (accept : Z -> bool) : stepfunc S :=
  fun s r =>
    ' (err, v, r1) <- parseInt (get s) n r accept ;;
    Ret (err, set s v, r1).

Definition parseYear : whenfunc := intField Year setYear 4 isDigit.
Definition parseDOY : whenfunc := intField YearDay setYearDay 3 isDigit.
Definition parseDay : whenfunc := intField Day setDay 2 isDigit.
Definition parseMonth : whenfunc := intField Mon setMon 2 isDigit.
Definition parseHour : whenfunc := intField Hour setHour 2 isDigit.
Definition parseMinute : whenfunc := intField Min setMin 2 isDigit.
Definition parseSecond : whenfunc := intField Sec setSec 2 isDigit.
Definition parseTimestamp : whenfunc := intField Unix setUnix 0 isDigit.

Definition parseDayStr : whenfunc := fun w r =>
  ' (day, err, r1) <- parseString r 3 isLetter ;;
  if negb (isNil err) then Ret (err, w, r1)
  else
    let day := strings.ToLower day in
    let x := sort.SearchStrings days day in
    if notFound days x day then Ret (Some ErrPattern, w, r1)
    else Ret (None, w, r1).

Definition parseMonthStr : whenfunc := fun w r =>
  ' (month, err, r1) <- parseString r 3 isLetter ;;
  if negb (isNil err) then Ret (err, w, r1)
  else
    let month := strings.ToLower month in
    let x := sort.SearchStrings months month in
    if notFound months x month then Ret (Some ErrPattern, w, r1)
    else Ret (None, setMon w (x + 1), r1).

Definition skipRune (r : Cursor) : Cursor :=
  let '(_, _, _, r1) := ReadRune r in r1.

Definition parseZone : whenfunc := fun w r =>
  let '(z, _, _, r) := ReadRune r in
  if z =? rune "Z" then Ret (None, w, r)
  else if (z =? rune "+") || (z =? rune "-") then
    let w := setZone w (Zone w + 1) in
    let w := if z =? rune "-" then setZone w (Zone w * -1) else w in
    ' (err, i, r) <- parseInt 0 2 r isDigit ;;
    if negb (isNil err) then Ret (err, w, r)
    else
      let w := setZone w (Zone w * (i * 60 * 60)) in
      let '(z1, r) := peek r in
      let r := if z1 =? rune ":" then skipRune r else r in
      let '(z2, r) := peek r in
      if isDigit z2 then
        ' (err, i, r) <- parseInt i 2 r isDigit ;;
        if isNil err then Ret (err, setZone w (Zone w + i * 60), r)
        else Ret (err, w, r)
      else Ret (None, w, r)
  else Ret (Some ErrPattern, w, r).

Definition parseFraction : whenfunc := fun w r =>
  ' (err, w, r) <- intField Frac setFrac 0 isDigit w r ;;
  if negb (isNil err) then Ret (err, w, r)
  else if Frac w <? 1000 then Ret (None, setFrac w (Frac w * (1000 * 1000)), r)
  else if Frac w <? 1000 * 1000 then Ret (None, setFrac w (Frac w * 1000), r)
  else Ret (None, w, r).

Definition parseWhenLiteral (str : string) : whenfunc := matchLiteral str.

Definition mergeWhen (wfs : list whenfunc) : whenfunc := merge wfs.

(** ** Compilers: results

    A compiler returns its extractor or an error; [CLoop] is a compilation
    that never returns, [CFuel] a model run that was given too little fuel
    (the entry points give enough). *)

Inductive compiled (A : Type) : Type :=
| COk (a : A)
| CErr (e : Err)
| CLoop
| CFuel.
Arguments COk {A} a.
Arguments CErr {A} e.
Arguments CLoop {A}.
Arguments CFuel {A}.

(** The loop of [parseTimePattern]; [nested] is what the recursive call
    [parseTimePattern(isoPattern)] of the cases I and R returns. *)
Fixpoint timePatternLoop (fuel : nat) (nested : compiled whenfunc)
    (str : Cursor) (buf : string) (wfs : list whenfunc) : compiled whenfunc :=
  if 0 <? Len str then
    match fuel with
    | O => CFuel
    | S f =>
        let '(r, _, _, str) := ReadRune str in
        if r =? rune "%" then
          let '(r, _, _, str) := ReadRune str in
          if r =? rune "%" then timePatternLoop f nested str (WriteRune buf r) wfs
          else
            let wfs := if 0 <? len buf then append_ wfs (parseWhenLiteral buf) else wfs in
            let buf := EmptyString in
            let next fn := timePatternLoop f nested str buf (append_ wfs fn) in
            if (r =? rune "I") || (r =? rune "R") then
              match nested with
              | COk fn => next fn
              | other => other
              end
            else if r =? rune "y" then next parseYear
            else if r =? rune "m" then next parseMonth
            else if r =? rune "d" then next parseDay
            else if r =? rune "j" then next parseDOY
            else if r =? rune "a" then next parseDayStr
            else if r =? rune "b" then next parseMonthStr
            else if r =? rune "s" then next parseTimestamp
            else if r =? rune "H" then next parseHour
            else if r =? rune "M" then next parseMinute
            else if r =? rune "S" then next parseSecond
            else if r =? rune "f" then next parseFraction
            else if r =? rune "Z" then next parseZone
            else CErr ErrSyntax
        else timePatternLoop f nested str (WriteRune buf r) wfs
    end
  else
    let wfs := if 0 <? len buf then append_ wfs (parseWhenLiteral buf) else wfs in
    COk (mergeWhen wfs).

Definition timePatternWith (nested : compiled whenfunc) (pattern : string)
    : compiled whenfunc :=
  let pattern := if strings.isEmpty pattern then isoPattern else pattern in
  let str := bytesReader.NewReader pattern in
  timePatternLoop (fuelFor str) nested str EmptyString [].

(** [parseTimePattern(pattern)].  The recursion of the source has depth one:
    [isoPattern] holds neither I nor R, so its own compilation never reaches
    a nested call (lemma [isoPattern_flat]). *)
Definition parseTimePattern (pattern : string) : compiled whenfunc :=
  timePatternWith (timePatternWith CFuel isoPattern) pattern.

(** ** The host accumulator and its scanners *)

Definition ip4len : Z := 4.
Definition ip6len : Z := 8.

Definition ip4long : string := "%4:%p".
Definition ip6long : string := "%6:%p".
Definition fqdnlong : string := "%f:%p".

Record host : Type := mkHost {
  Name : string;
  Addr : string;
  Mask : Z;
  Port : Z
}.

Definition host0 : host := mkHost EmptyString EmptyString 0 0.

Definition setName (h : host) (v : string) : host := mkHost v (Addr h) (Mask h) (Port h).
Definition setAddr (h : host) (v : string) : host := mkHost (Name h) v (Mask h) (Port h).
Definition setMask (h : host) (v : Z) : host := mkHost (Name h) (Addr h) v (Port h).
Definition setPort (h : host) (v : Z) : host := mkHost (Name h) (Addr h) (Mask h) v.

(** [func (h host) String() string] *)
Definition host_String (h : host) : string :=
  if negb (strings.isEmpty (Name h)) then Name h
  else Addr h ++ ":" ++ strconv.Itoa (Port h).

Definition hostfunc : Type := stepfunc host.

Definition parseHostLiteral (str : string) : hostfunc := matchLiteral str.

Definition mergeHost (hfs : list hostfunc) : hostfunc := merge hfs.

(** The [for i := 0; i < ip4len; i++] loop of [parseIPv4]; [todo] counts the
    iterations left. *)
Fixpoint parseIPv4Loop (todo : nat) (i : Z) (r : Cursor) (buf : string)
    : outcome ((Err + string) * Cursor) :=
  match todo with
  | O => Ret (inr buf, r)
  | S t =>
      ' (err, j, r) <- parseInt 0 0 r isDigit ;;
      match err with
      | Some e => Ret (inl e, r)
      | None =>
          if (j <? 0) || (255 <? j) then Ret (inl ErrPattern, r)
          else
            let buf := buf ++ strconv.Itoa j in
            if i <? ip4len - 1 then
              let '(k, r) := peek r in
              if negb (k =? rune ".") then Ret (inl ErrPattern, r)
              else parseIPv4Loop t (i + 1) (skipRune r) (WriteRune buf (rune "."))
            else parseIPv4Loop t (i + 1) r buf
      end
  end.

(** The closing-bracket test that ends [parseIPv4] and [parseIPv6]. *)
Definition closeBracket (quote : Z) (h : host) (r : Cursor) (buf : string)
    : outcome (error * host * Cursor) :=
  let '(k, r) := peek r in
  if quote =? rune "[" then
    if negb (k =? rune "]") then Ret (Some ErrPattern, h, r)
    else Ret (None, setAddr h buf, skipRune r)
  else Ret (None, setAddr h buf, r).

Definition parseIPv4 : hostfunc := fun h r =>
  let '(quote, r) := peek r in
  let r := if quote =? rune "[" then skipRune r else r in
  ' (res, r) <- parseIPv4Loop (Z.to_nat ip4len) 0 r EmptyString ;;
  match res with
  | inl e => Ret (Some e, h, r)
  | inr buf => closeBracket quote h r buf
  end.

Fixpoint parseIPv6Loop (todo : nat) (i : Z) (r : Cursor) (buf : string)
    : outcome ((Err + string) * Cursor) :=
  match todo with
  | O => Ret (inr buf, r)
  | S t =>
      ' (err, j, r) <- parseInt 0 0 r isHexa ;;
      match err with
      | Some e => Ret (inl e, r)
      | None =>
          if (j <? 0) || (65535 <? j) then Ret (inl ErrPattern, r)
          else
            let buf := buf ++ strconv.FormatInt j 16 in
            if i <? ip6len - 1 then
              let '(k, r) := peek r in
              if negb (k =? rune ":") then Ret (inr buf, r)
              else
                let buf := WriteRune buf (rune ":") in
                let r := skipRune r in
                let '(k, r) := peek r in
                if k =? rune ":" then
                  parseIPv6Loop t (i + 1) (skipRune r) (WriteRune buf (rune ":"))
                else parseIPv6Loop t (i + 1) r buf
            else parseIPv6Loop t (i + 1) r buf
      end
  end.

Definition parseIPv6 : hostfunc := fun h r =>
  let '(quote, r) := peek r in
  let r := if quote =? rune "[" then skipRune r else r in
  ' (res, r) <- parseIPv6Loop (Z.to_nat ip6len) 0 r EmptyString ;;
  match res with
  | inl e => Ret (Some e, h, r)
  | inr buf => closeBracket quote h r buf
  end.

Definition parseMask : hostfunc := fun h r =>
  ' (err, h, r) <- intField Mask setMask 0 isDigit h r ;;
  if negb (isNil err) then Ret (err, h, r)
  else if (Mask h <? 0) || (32 <? Mask h) then Ret (Some ErrPattern, h, r)
  else Ret (None, h, r).

Definition parsePort : hostfunc := fun h r =>
  ' (err, h, r) <- intField Port setPort 0 isDigit h r ;;
  if negb (isNil err) then Ret (err, h, r)
  else if (Port h <? 0) || (65535 <? Port h) then Ret (Some ErrPattern, h, r)
  else Ret (None, h, r).

Definition parseHostname : hostfunc := fun h r =>
  ' (name, _, r) <- parseString r 0 isAlpha ;;
  Ret (None, setName h name, r).

Fixpoint parseFQDNLoop (fuel : nat) (r : Cursor) (buf : string)
    : outcome (string * Cursor) :=
  match fuel with
  | O => Starved
  | S f =>
      ' (part, _, r) <- parseString r 0 isAlpha ;;
      let buf := buf ++ part in
      let '(k, r) := peek r in
      if negb (k =? rune ".") then Ret (buf, r)
      else parseFQDNLoop f (skipRune r) (WriteRune buf (rune "."))
  end.

Definition parseFQDN : hostfunc := fun h r =>
  ' (buf, r) <- parseFQDNLoop (fuelFor r) r EmptyString ;;
  Ret (None, setName h buf, r).

(** The loop of [parseHostPattern]; [n4], [n6] and [nq] are what the
    recursive calls of the cases F, S and Q return. *)
Fixpoint hostPatternLoop (fuel : nat) (n4 n6 nq : compiled hostfunc)
    (str : Cursor) (buf : string) (hfs : list hostfunc) : compiled hostfunc :=
  if 0 <? Len str then
    match fuel with
    | O => CFuel
    | S f =>
        let '(r, _, _, str) := ReadRune str in
        if r =? rune "%" then
          let '(r, _, _, str) := ReadRune str in
          if r =? rune "%" then hostPatternLoop f n4 n6 nq str (WriteRune buf r) hfs
          else
            let hfs := if 0 <? len buf then append_ hfs (parseHostLiteral buf) else hfs in
            let buf := EmptyString in
            let next fn := hostPatternLoop f n4 n6 nq str buf (append_ hfs fn) in
            let sub nested :=
              match nested with
              | COk fn => next fn
              | other => other
              end in
            if r =? rune "4" then next parseIPv4
            else if r =? rune "6" then next parseIPv6
            else if r =? rune "p" then next parsePort
            else if r =? rune "f" then next parseFQDN
            else if r =? rune "h" then next parseHostname
            else if r =? rune "m" then next parseMask
            else if r =? rune "F" then sub n4
            else if r =? rune "S" then sub n6
            else if r =? rune "Q" then sub nq
            else CErr ErrSyntax
        else hostPatternLoop f n4 n6 nq str (WriteRune buf r) hfs
    end
  else
    let hfs := if 0 <? len buf then append_ hfs (parseHostLiteral buf) else hfs in
    COk (mergeHost hfs).

Definition hostPatternWith (n4 n6 nq : compiled hostfunc) (pattern : string)
    : compiled hostfunc :=
  let str := bytesReader.NewReader pattern in
  hostPatternLoop (fuelFor str) n4 n6 nq str EmptyString [].

(** [parseHostPattern(pattern)]; as for the time patterns the recursion has
    depth one, the three long forms holding no F, S or Q (lemma
    [long_forms_flat]). *)
Definition parseHostPattern (pattern : string) : compiled hostfunc :=
  hostPatternWith (hostPatternWith CFuel CFuel CFuel ip4long)
                  (hostPatternWith CFuel CFuel CFuel ip6long)
                  (hostPatternWith CFuel CFuel CFuel fqdnlong)
                  pattern.

(** ** Entries and their extractors *)

(** The zero [time.Time]: January 1, year 1, 00:00:00 UTC. *)
Definition zeroTime : time.Time := time.mkTime (- time.unixToInternal) 0 time.UTC.

Record Entry : Type := mkEntry {
  Line : string;
  Pid : Z;
  Process : string;
  User : string;
  Group : string;
  Level : string;
  Message : string;
  Words : list string;
  Host : string;
  When : time.Time
}.

(** [var e Entry] *)
Definition Entry0 : Entry :=
  mkEntry EmptyString 0 EmptyString EmptyString EmptyString EmptyString
          EmptyString [] EmptyString zeroTime.

Definition setLine (e : Entry) (v : string) : Entry :=
  mkEntry v (Pid e) (Process e) (User e) (Group e) (Level e) (Message e) (Words e) (Host e) (When e).
Definition setPid (e : Entry) (v : Z) : Entry :=
  mkEntry (Line e) v (Process e) (User e) (Group e) (Level e) (Message e) (Words e) (Host e) (When e).
Definition setProcess (e : Entry) (v : string) : Entry :=
  mkEntry (Line e) (Pid e) v (User e) (Group e) (Level e) (Message e) (Words e) (Host e) (When e).
Definition setUser (e : Entry) (v : string) : Entry :=
  mkEntry (Line e) (Pid e) (Process e) v (Group e) (Level e) (Message e) (Words e) (Host e) (When e).
Definition setGroup (e : Entry) (v : string) : Entry :=
  mkEntry (Line e) (Pid e) (Process e) (User e) v (Level e) (Message e) (Words e) (Host e) (When e).
Definition setLevel (e : Entry) (v : string) : Entry :=
  mkEntry (Line e) (Pid e) (Process e) (User e) (Group e) v (Message e) (Words e) (Host e) (When e).
Definition setMessage (e : Entry) (v : string) : Entry :=
  mkEntry (Line e) (Pid e) (Process e) (User e) (Group e) (Level e) v (Words e) (Host e) (When e).
Definition setWords (e : Entry) (v : list string) : Entry :=
  mkEntry (Line e) (Pid e) (Process e) (User e) (Group e) (Level e) (Message e) v (Host e) (When e).
Definition setHost (e : Entry) (v : string) : Entry :=
  mkEntry (Line e) (Pid e) (Process e) (User e) (Group e) (Level e) (Message e) (Words e) v (When e).
Definition setWhen (e : Entry) (v : time.Time) : Entry :=
  mkEntry (Line e) (Pid e) (Process e) (User e) (Group e) (Level e) (Message e) (Words e) (Host e) v.

Definition parsefunc : Type := stepfunc Entry.
Definition filterfunc : Type := Entry -> bool.

Definition mergeParse (pfs : list parsefunc) : parsefunc := merge pfs.

Definition parseLiteral (str : string) : parsefunc := matchLiteral str.

(** [e.F, _ = parseString(r, 0, accept)] for a string field [F]. *)
Definition stringField (set : Entry -> string -> Entry) (accept : Z -> bool)
    : parsefunc :=
  fun e r =>
    ' (str, _, r) <- parseString r 0 accept ;;
    Ret (None, set e str, r).

Definition parseLevel (level : string) : compiled parsefunc :=
  let level := strings.MapDrop isBlank level in
  let levels :=
    if negb (strings.isEmpty level) then sort.Strings (strings.Split level ",")
    else [] in
  COk (fun e r =>
    ' (str, _, r) <- parseString r 0 isLetter ;;
    let e := setLevel e str in
    let x := sort.SearchStrings levels (Level e) in
    if (0 <? Z.of_nat (List.length levels)) && notFound levels x (Level e)
    then Ret (Some ErrPattern, e, r)
    else Ret (None, e, r)).

Definition parseTime (str : string) : compiled parsefunc :=
  match parseTimePattern str with
  | COk parse =>
      COk (fun e r =>
        ' (err, w, r) <- parse when0 r ;;
        if isNil err then Ret (err, setWhen e (when_Time w), r)
        else Ret (err, e, r))
  | CErr err => CErr err
  | CLoop => CLoop
  | CFuel => CFuel
  end.

Definition parseHost (str : string) : compiled parsefunc :=
  match parseHostPattern str with
  | COk parse =>
      COk (fun e r =>
        ' (err, h, r) <- parse host0 r ;;
        if negb (isNil err) then Ret (err, e, r)
        else Ret (None, setHost e (host_String h), r))
  | CErr err => CErr err
  | CLoop => CLoop
  | CFuel => CFuel
  end.

Definition parsePID : parsefunc := intField Pid setPid 0 isDigit.

Definition parseMessage : parsefunc :=
  stringField setMessage (fun r => negb (isEOL r)).

(** The [for] loop of [parseWord]: [quoted] tells which [isDelim] is in
    force, [quote] is the opening rune. *)
Fixpoint parseWordLoop (fuel : nat) (quoted : bool) (quote : Z) (r : Cursor)
    (buf : string) : outcome ((Err + string) * Cursor) :=
  match fuel with
  | O => Starved
  | S f =>
      let '(z, _, _, r) := ReadRune r in
      if quoted then
        if isEOL z then Ret (inl ErrPattern, r)
        else if z =? quote then Ret (inr buf, r)
        else parseWordLoop f quoted quote r (WriteRune buf z)
      else
        if isBlank z || isEOL z then Ret (inr buf, r)
        else parseWordLoop f quoted quote r (WriteRune buf z)
  end.

Definition parseWord (_ : string) : parsefunc := fun e r =>
  let '(quote, r) := peek r in
  let r := if isQuote quote then skipRune r else r in
  ' (res, r) <- parseWordLoop (fuelFor r) (isQuote quote) quote r EmptyString ;;
  match res with
  | inl err => Ret (Some err, e, r)
  | inr buf =>
      let r := if negb (isQuote quote) then snd (UnreadRune r) else r in
      let str := strings.TrimSpace buf in
      if negb (strings.isEmpty str) then Ret (None, setWords e (append_ (Words e) str), r)
      else Ret (None, e, r)
  end.

Definition parseUser : parsefunc := stringField setUser isAlpha.
Definition parseGroup : parsefunc := stringField setGroup isAlpha.
Definition parseProcess : parsefunc := stringField setProcess isAlpha.

Definition parseDiscard (next : Z) : parsefunc := fun e r =>
  ' (_, _, r) <- parseString r 0 (fun c => negb (c =? next)) ;;
  Ret (None, e, r).

Definition parseBlank : parsefunc := fun e r =>
  ' (_, _, r) <- parseString r 0 isBlank ;;
  Ret (None, e, r).

(** ** Alternation *)

(** The [for _, pf := range pfs] loop of the closure [parseAlt] builds.
    [seek] and [err] are the closure's two variables; the assignment
    [seek, err = r.Seek(seek, io.SeekStart)] writes both. *)
Fixpoint altLoop (pfs : list parsefunc) (seek : Z) (err : error) (e : Entry)
    (r : Cursor) : outcome (error * Entry * Cursor) :=
  match pfs with
  | [] => Ret (err, e, r)
  | pf :: rest =>
      ' (err, e, r) <- pf e r ;;
      if isNil err then Ret (err, e, r)
      else
        let '(seek, err, r) := SeekStart r seek in
        if negb (isNil err) then Ret (err, e, r)
        else altLoop rest seek err e r
  end.

Definition altFn (pfs : list parsefunc) : parsefunc := fun e r =>
  let '(seek, err, r) := SeekCurrent0 r in
  if negb (isNil err) then Ret (err, e, r)
  else altLoop pfs seek err e r.

Definition parseAlt (pfs : list parsefunc) : compiled parsefunc :=
  match pfs with
  | [] => CErr ErrSyntax
  | _ => COk (altFn pfs)
  end.

(** ** The entry pattern compiler *)

(** The loop of [parseArgument] that collects the text up to the closing
    parenthesis. *)
Fixpoint argumentLoop (fuel : nat) (str : Cursor) (buf : string)
    : compiled (string * error) * Cursor :=
  if 0 <? Len str then
    match fuel with
    | O => (CFuel, str)
    | S f =>
        let '(r, _, _, str) := ReadRune str in
        if r =? rune ")" then (COk (buf, None), str)
        else
          let buf := WriteRune buf r in
          if 64 <? len buf then (COk (EmptyString, Some ErrSyntax), str)
          else argumentLoop f str buf
    end
  else (COk (EmptyString, Some ErrSyntax), str).

(** [parseArgument(str, option, what)]: the argument and the error
    returned, and the cursor over the pattern. *)
Definition parseArgument (str : Cursor) (option : string)
    : compiled (string * error) * Cursor :=
  let '(r, _, _, str) := ReadRune str in
  if negb (r =? rune "(") then
    if negb (strings.isEmpty option) then
      let '(err, str) := UnreadRune str in (COk (option, err), str)
    else (COk (EmptyString, Some ErrSyntax), str)
  else argumentLoop (fuelFor str) str EmptyString.

(** [arg, err := parseArgument(...); if err != nil { return nil, err }],
    then the compiler [k] of the specifier on [arg]. *)
Definition withArgument (str : Cursor) (option : string)
    (k : string -> compiled parsefunc) : compiled parsefunc * Cursor :=
  match parseArgument str option with
  | (COk (_, Some e), str) => (CErr e, str)
  | (COk (arg, None), str) => (k arg, str)
  | (CErr e, str) => (CErr e, str)
  | (CLoop, str) => (CLoop, str)
  | (CFuel, str) => (CFuel, str)
  end.

(** [parseSpecifier(str, r)], with the cursor over the pattern as the call
    leaves it. *)
Definition parseSpecifier (str : Cursor) (r : Z) : compiled parsefunc * Cursor :=
  if r =? rune "t" then withArgument str rfcPattern parseTime
  else if r =? rune "b" then (COk parseBlank, str)
  else if r =? rune "n" then (COk parseProcess, str)
  else if r =? rune "p" then (COk parsePID, str)
  else if r =? rune "u" then (COk parseUser, str)
  else if r =? rune "g" then (COk parseGroup, str)
  else if r =? rune "h" then withArgument str "%f" parseHost
  else if r =? rune "l" then
    withArgument str "-"
      (fun arg => parseLevel (if strings.eqb arg "-" then EmptyString else arg))
  else if r =? rune "m" then (COk parseMessage, str)
  else if r =? rune "w" then (COk (parseWord EmptyString), str)
  else if r =? rune "*" then
    let '(next, str) := peek str in (COk (parseDiscard next), str)
  else (CErr ErrSyntax, str).

Definition isEscapable (r : Z) : bool :=
  (r =? rune "\") || (r =? rune "@") || (r =? rune "*")
  || (r =? rune "(") || (r =? rune ")") || (r =? rune "|").

Definition flush (pfs : list parsefunc) (buf : string) : list parsefunc :=
  if 0 <? len buf then append_ pfs (parseLiteral buf) else pfs.

(** [parsePatternUntil] and [parseAlternative] call each other; both loops
    run on one fuel.  [patternLoop] is the loop of [parsePatternUntil] with
    its variables [pfs] and [buf]; it returns [last], the extractor and the
    cursor over the pattern.  At the end of the pattern [ReadRune] yields
    rune 0 for ever: when [until] does not take it, the loop only grows
    [buf] from then on. *)
Fixpoint patternLoop (fuel : nat) (str : Cursor) (until : Z -> bool)
    (pfs : list parsefunc) (buf : string) : compiled (Z * parsefunc * Cursor) :=
  match fuel with
  | O => CFuel
  | S f =>
      let '(last, _, eof, str) := ReadRune str in
      if until last then COk (last, mergeParse (flush pfs buf), str)
      else if last =? rune "%" then
        let '(last, _, _, str) := ReadRune str in
        if last =? rune "%" then patternLoop f str until pfs (WriteRune buf last)
        else
          let pfs := flush pfs buf in
          match parseSpecifier str last with
          | (COk fn, str) => patternLoop f str until (append_ pfs fn) EmptyString
          | (CErr e, _) => CErr e
          | (CLoop, _) => CLoop
          | (CFuel, _) => CFuel
          end
      else if last =? rune "@" then
        let '(r, _, _, str) := ReadRune str in
        if negb (r =? rune "(") then CErr ErrSyntax
        else
          match alternativeLoop f str [] with
          | COk (fn, str) => patternLoop f str until (append_ pfs fn) buf
          | CErr e => CErr e
          | CLoop => CLoop
          | CFuel => CFuel
          end
      else if last =? rune "\" then
        let '(last, _, _, str) := ReadRune str in
        if isEscapable last then patternLoop f str until pfs (WriteRune buf last)
        else CErr ErrEscape
      else if negb (isNil eof) then CLoop
      else patternLoop f str until pfs (WriteRune buf last)
  end

(** The [for] loop of [parseAlternative], after the opening parenthesis. *)
with alternativeLoop (fuel : nat) (str : Cursor) (pfs : list parsefunc)
    : compiled (parsefunc * Cursor) :=
  match fuel with
  | O => CFuel
  | S f =>
      match patternLoop f str (fun r => (r =? rune "|") || (r =? rune ")")) [] EmptyString with
      | COk (last, fn, str) =>
          if negb (last =? rune "|") && negb (last =? rune ")") then CErr ErrSyntax
          else
            let pfs := append_ pfs fn in
            if last =? rune ")" then
              match parseAlt pfs with
              | COk alt => COk (alt, str)
              | CErr e => CErr e
              | CLoop => CLoop
              | CFuel => CFuel
              end
            else alternativeLoop f str pfs
      | CErr e => CErr e
      | CLoop => CLoop
      | CFuel => CFuel
      end
  end.

Definition parsePatternUntil (fuel : nat) (str : Cursor) (until : Z -> bool)
    : compiled (Z * parsefunc * Cursor) :=
  patternLoop fuel str until [] EmptyString.

(** [parsePattern(pattern)].  An iteration of either loop reads a rune of
    the pattern or ends the compilation, and a call of [parseAlternative]
    comes with the rune that opens it: twice the length of the pattern,
    and two, is the fuel given. *)
Definition parsePattern (pattern : string) : compiled parsefunc :=
  if strings.isEmpty pattern then CErr ErrSyntax
  else
    let str := bytesReader.NewReader pattern in
    match parsePatternUntil (2 * String.length pattern + 2) str (fun r => r =? 0) with
    | COk (_, fn, _) => COk fn
    | CErr e => CErr e
    | CLoop => CLoop
    | CFuel => CFuel
    end.

(** [parseFilter(str)]: the filter function, [None] for Go's nil. *)
Definition parseFilter (str : string) : option filterfunc :=
  if strings.isEmpty str then Some (fun _ => true) else None.

(** ** The stream reader *)

(** A [bufio.Scanner] as [Reader.Read] sees it: the tokens [Scan] still
    delivers, in order, and what [Err] reports once [Scan] has returned
    false ([None] at a clean end of input). *)
Record Scanner : Type := mkScanner {
  tokens : list string;
  scanErr : error
}.

Record Reader : Type := mkReader {
  inner : Scanner;
  err : error;
  keep : option filterfunc;
  parse : parsefunc
}.

(** [NewReader(rs, pattern, filter)] over the scanner of [rs]. *)
Definition NewReader (rs : Scanner) (pattern filter : string) : compiled Reader :=
  match parsePattern pattern with
  | COk fn => COk (mkReader rs None (parseFilter filter) fn)
  | CErr e => CErr e
  | CLoop => CLoop
  | CFuel => CFuel
  end.

Definition accepts (keep : option filterfunc) (e : Entry) : bool :=
  match keep with
  | None => true
  | Some k => k e
  end.

(** The [for] loop of [Reader.Read] over the tokens left; [e] is the one
    [Entry] the call declares before the loop. *)
Fixpoint readLoop (parse : parsefunc) (keep : option filterfunc)
    (toks : list string) (final : error) (e : Entry)
    : outcome (Entry * error * list string) :=
  match toks with
  | [] =>
      Ret (e, Some (match final with Some x => x | None => EOF end), [])
  | line :: rest =>
      if len line =? 0 then readLoop parse keep rest final e
      else
        ' (err, e, _) <- parse e (bytesReader.NewReader line) ;;
        match err with
        | Some x =>
            if isErrPattern x then readLoop parse keep rest final e
            else Ret (e, Some x, rest)
        | None =>
            if accepts keep e then Ret (setLine e line, None, rest)
            else readLoop parse keep rest final e
        end
  end.

(** [func (r *Reader) Read() (Entry, error)], with the reader as the call
    leaves it. *)
Definition Read (r : Reader) : outcome (Entry * error * Reader) :=
  match err r with
  | Some x => Ret (Entry0, Some x, r)
  | None =>
      ' (e, err, rest) <- readLoop (parse r) (keep r) (tokens (inner r))
                                   (scanErr (inner r)) Entry0 ;;
      Ret (e, err, mkReader (mkScanner rest (scanErr (inner r))) err (keep r) (parse r))
  end.

(** The loop of [ReadAll]; every further [Read] takes a token or ends the
    loop with an error. *)
Fixpoint readAllLoop (fuel : nat) (r : Reader) (es : list Entry)
    : outcome (list Entry * error * Reader) :=
  match fuel with
  | O => Starved
  | S f =>
      ' (e, err, r) <- Read r ;;
      if negb (isNil err) then Ret (es, err, r)
      else readAllLoop f r (append_ es e)
  end.

Definition ReadAll (r : Reader) : outcome (list Entry * error * Reader) :=
  readAllLoop (S (List.length (tokens (inner r)))) r [].

(** [bufio.ScanLines] over a whole input: the lines without their
    terminators, a last unterminated line included when it is not empty. *)
Definition dropCR (s : string) : string :=
  match rev (list_ascii_of_string s) with
  | c :: rest => if Ascii.eqb c "013" then string_of_list_ascii (rev rest) else s
  | [] => s
  end.

Definition ScanLines (input : string) : list string :=
  let pieces := strings.Split input "010" in
  let pieces :=
    match rev pieces with
    | last :: front => if strings.isEmpty last then rev front else pieces
    | [] => pieces
    end in
  map dropCR pieces.

Definition scannerOf (input : string) : Scanner := mkScanner (ScanLines input) None.

(** ** Clients

    What a client of the package does, as [main] of the command does: open a
    reader on an input with a pattern, then call [Read] in turn.  [session]
    gives what each of [n] successive calls of [Read] returned. *)

Fixpoint reads (n : nat) (r : Reader) : list (outcome (Entry * error)) :=
  match n with
  | O => []
  | S k =>
      match Read r with
      | Loop => [Loop]
      | Starved => [Starved]
      | Ret (e, err, r1) => Ret (e, err) :: reads k r1
      end
  end.

Definition session (input pattern filter : string) (n : nat)
    : compiled (list (outcome (Entry * error))) :=
  match NewReader (scannerOf input) pattern filter with
  | COk r => COk (reads n r)
  | CErr e => CErr e
  | CLoop => CLoop
  | CFuel => CFuel
  end.

Definition nl : string := String "010" EmptyString.

(** A compiled step run on an accumulator and an input. *)
Definition runOn {S : Type} (c : compiled (stepfunc S)) (s : S) (input : string)
    : compiled (outcome (error * S * Cursor)) :=
  match c with
  | COk fn => COk (fn s (bytesReader.NewReader input))
  | CErr e => CErr e
  | CLoop => CLoop
  | CFuel => CFuel
  end.

(** The record of the first scenario, for the line it was read from. *)
Definition scenarioEntry (line : string) : Entry :=
  mkEntry line 1234 "sshd" EmptyString EmptyString EmptyString "Accepted password" []
          EmptyString (time.Date 2023 5 1 10 22 31 0 time.UTC).

(** The days of the year 1 to 364. *)
Definition yearDays : list Z := map Z.of_nat (seq 1 364).

(** ** The calls an alternation makes

    [altRun] is [altLoop] keeping a log: each alternative it calls, with the
    entry and the cursor handed to it, in the order of the calls.  Its
    second component is [altLoop] (lemma [altRun_altLoop]). *)

Definition call : Type := parsefunc * Entry * Cursor.

Fixpoint altRun (pfs : list parsefunc) (seek : Z) (err : error) (e : Entry)
    (r : Cursor) : list call * outcome (error * Entry * Cursor) :=
  match pfs with
  | [] => ([], Ret (err, e, r))
  | pf :: rest =>
      match pf e r with
      | Loop => ([(pf, e, r)], Loop)
      | Starved => ([(pf, e, r)], Starved)
      | Ret (err1, e1, r1) =>
          if isNil err1 then ([(pf, e, r)], Ret (err1, e1, r1))
          else
            let '(seek2, err2, r2) := SeekStart r1 seek in
            if negb (isNil err2) then ([(pf, e, r)], Ret (err2, e1, r2))
            else
              let '(log, out) := altRun rest seek2 err2 e1 r2 in
              ((pf, e, r) :: log, out)
      end
  end.

(** The calls of the closure [parseAlt(pfs)] builds, run on [e] and [r]. *)
Definition altCalls (pfs : list parsefunc) (e : Entry) (r : Cursor) : list call :=
  let '(seek, err, r) := SeekCurrent0 r in
  if negb (isNil err) then [] else fst (altRun pfs seek err e r).

Definition calledFn (c : call) : parsefunc := fst (fst c).
Definition calledAt (c : call) : Z := i (snd c).

(** A call that returned an error. *)
Definition failed (c : call) : Prop :=
  let '(pf, e, r) := c in
  exists x e1 r1, pf e r = Ret (Some x, e1, r1).


(** ** The output compiler and the writer

    A [printfunc] writes to an [io.StringWriter]; here it takes the text
    written so far and returns it with what it adds.  [Format] stands for
    [time.Time.Format(time.RFC3339)] of the standard library, whose result
    on a local time depends on the host. *)

Definition printfunc : Type := Entry -> string -> string.

Definition empty : string := "N/A".

Definition printString (str : string) (w : string) : string :=
  w ++ (if strings.isEmpty str then empty else str).

Definition mergePrint (pfs : list printfunc) : printfunc :=
  fun e w => fold_left (fun w p => p e w) pfs w.

Definition printLiteral (str : string) : printfunc :=
  fun _ w => printString str w.

Definition printWord (j : Z) : printfunc :=
  fun e w =>
    let str :=
      if (0 <=? j) && (j <? Z.of_nat (List.length (Words e)))
      then nth (Z.to_nat j) (Words e) EmptyString
      else EmptyString in
    printString str w.

(** [t.IsZero()] *)
Definition IsZero (t : time.Time) : bool :=
  (time.unixSec t =? - time.unixToInternal) && (time.nsec t =? 0).

Definition printProcess : printfunc := fun e w => printString (Process e) w.

Definition printPID : printfunc :=
  fun e w =>
    printString (if 0 <? Pid e then strconv.Itoa (Pid e) else EmptyString) w.

Definition printUser : printfunc := fun e w => printString (User e) w.
Definition printGroup : printfunc := fun e w => printString (Group e) w.
Definition printHost : printfunc := fun e w => printString (Host e) w.
Definition printLevel : printfunc := fun e w => printString (Level e) w.
Definition printMessage : printfunc := fun e w => printString (Message e) w.
Definition printLine : printfunc := fun e w => printString (Line e) w.

Section Printing.

Variable Format : time.Time -> string.

Definition printTime : printfunc :=
  fun e w =>
    printString (if negb (IsZero (When e)) then Format (When e) else EmptyString) w.

(** The loop of [parsePrint].  The error of an unknown specifier wraps
    [ErrPattern]; the text collected in [buf] is handed over when a
    specifier is met, and only then. *)
Fixpoint printLoop (fuel : nat) (str : Cursor) (buf : string)
    (pfs : list printfunc) : compiled printfunc :=
  if 0 <? Len str then
    match fuel with
    | O => CFuel
    | S f =>
        let '(r, _, _, str) := ReadRune str in
        if r =? rune "%" then
          let '(r, _, _, str) := ReadRune str in
          if r =? rune "%" then printLoop f str (WriteRune buf r) pfs
          else
            let pfs := if 0 <? len buf then append_ pfs (printLiteral buf) else pfs in
            let buf := EmptyString in
            let next fn := printLoop f str buf (append_ pfs fn) in
            if r =? rune "t" then next printTime
            else if r =? rune "n" then next printProcess
            else if r =? rune "p" then next printPID
            else if r =? rune "u" then next printUser
            else if r =? rune "g" then next printGroup
            else if r =? rune "h" then next printHost
            else if r =? rune "l" then next printLevel
            else if r =? rune "m" then next printMessage
            else if r =? rune "#" then next printLine
            else if negb (isDigit r) then CErr ErrPattern
            else
              match parseInt 0 0 (snd (UnreadRune str)) isDigit with
              | Ret (None, j, str) => printLoop f str buf (append_ pfs (printWord j))
              | Ret (Some e, _, _) => CErr e
              | Loop => CLoop
              | Starved => CFuel
              end
        else printLoop f str (WriteRune buf r) pfs
    end
  else COk (mergePrint pfs).

(** [parsePrint(pattern)] *)
Definition parsePrint (pattern : string) : compiled printfunc :=
  if strings.isEmpty pattern then CErr ErrSyntax
  else
    let str := bytesReader.NewReader pattern in
    printLoop (fuelFor str) str EmptyString [].

(** A [Writer] over a sink that takes every write: [sink] is what the sink
    has received. *)
Record Writer : Type := mkWriter {
  sink : string;
  buffer : string;
  print : printfunc
}.

(** [NewWriter(ws, pattern)] over a sink holding [ws]. *)
Definition NewWriter (ws : string) (pattern : string) : compiled Writer :=
  match parsePrint pattern with
  | COk p => COk (mkWriter ws EmptyString p)
  | CErr e => CErr e
  | CLoop => CLoop
  | CFuel => CFuel
  end.

(** [func (w *Writer) Write(e Entry) error]: [io.Copy] drains the buffer
    into the sink. *)
Definition Write (w : Writer) (e : Entry) : error * Writer :=
  let buf := print w e (buffer w) in
  let buf := WriteRune buf (rune "010") in
  (None, mkWriter (sink w ++ buf) EmptyString (print w)).

End Printing.

(** ** Strings as inputs

    [allb p str]: every byte of [str] satisfies [p]. *)
Fixpoint allb (p : Z -> bool) (str : string) : bool :=
  match str with
  | EmptyString => true
  | String c rest => p (rune c) && allb p rest
  end.

(** A byte that is a rune of its own. *)
Definition isASCII (b : Z) : bool := b <? utf8.RuneSelf.

(** What ends a run of accepted bytes: the end of the input, when rune 0
    is not accepted, or a one-byte rune that is not accepted. *)
Definition stopsAt (accept : Z -> bool) (rest : string) : bool :=
  match rest with
  | EmptyString => negb (accept 0)
  | String c _ => isASCII (rune c) && negb (accept (rune c))
  end.

(** The number a string of decimal digits writes. *)
Fixpoint decimalFrom (acc : Z) (str : string) : Z :=
  match str with
  | EmptyString => acc
  | String c rest => decimalFrom (acc * 10 + (rune c - rune "0")) rest
  end.

Definition decimal (str : string) : Z := decimalFrom 0 str.

(** An extractor that returns on every line handed to it. *)
Definition returnsOnLines (parse : parsefunc) : Prop :=
  forall e line, exists res, parse e (bytesReader.NewReader line) = Ret res.

(** An entry whose [Line] is a line of the stream, not empty. *)
Definition fromStream (toks : list string) (e : Entry) : Prop :=
  In (Line e) toks /\ len (Line e) <> 0.

(** Text of an output pattern that holds no specifier: one-byte runes
    other than the percent sign. *)
Definition plain (tail : string) : bool :=
  allb (fun b => isASCII b && negb (b =? rune "%")) tail.

(** Where the cursor stands when a scan has read the stop after a run. *)
Definition afterStop (input : string) (at_ : Z) (rest : string) : Cursor :=
  match rest with
  | EmptyString => bytesReader.mk input at_ (-1)
  | String _ _ => bytesReader.mk input (at_ + 1) at_
  end.

(** A byte of a word: a one-byte rune that is no blank, no NUL and no other
    white space. *)
Definition wordByte (b : Z) : bool :=
  isASCII b && negb (isBlank b || isEOL b) && negb (strings.IsSpace b).

(** The rune a string starts with, 0 for the empty string. *)
Definition firstRune (str : string) : Z :=
  match str with
  | EmptyString => 0
  | String c _ => rune c
  end.

(** The bytes of a string, as runes. *)
Definition bytesOf (str : string) : list Z := map rune (list_ascii_of_string str).



(** The calendar, for stating instants: leap years of the Gregorian
    calendar, the days of a year before its month [m], and the days from
    1 January 1970 to the day [d] of month [m] of year [y]. *)
Definition leapYear (y : Z) : bool :=
  (y mod 4 =? 0) && (negb (y mod 100 =? 0) || (y mod 400 =? 0)).

Definition daysBeforeMonth (m : Z) (leap : bool) : Z :=
  nth (Z.to_nat (m - 1)) [0; 31; 59; 90; 120; 151; 181; 212; 243; 273; 304; 334] 0
  + (if leap && (3 <=? m) then 1 else 0).

Definition civilDays (y m d : Z) : Z :=
  365 * (y - 1970) + ((y - 1) / 4 - (y - 1) / 100 + (y - 1) / 400 - 477)
  + daysBeforeMonth m (leapYear y) + (d - 1).

(** * Properties *)

(** Closed statements about concrete inputs are settled by running the
    definitions. *)
Ltac evaluate :=
  repeat match goal with |- _ /\ _ => split end; vm_compute; reflexivity.

Lemma altRun_altLoop (pfs : list parsefunc) :
  forall seek err e r, snd (altRun pfs seek err e r) = altLoop pfs seek err e r.
Proof.
  induction pfs as [|pf rest IH]; intros seek err0 e r; simpl; [reflexivity|].
  destruct (pf e r) as [[[err1 e1] r1]| |]; simpl; [|reflexivity|reflexivity].
  destruct (isNil err1); simpl; [reflexivity|].
  destruct (SeekStart r1 seek) as [[seek2 err2] r2].
  destruct (isNil err2); simpl; [|reflexivity].
  specialize (IH seek2 err2 e1 r2).
  destruct (altRun rest seek2 err2 e1 r2) as [log out]; simpl in *. exact IH.
Qed.

Lemma SeekStart_ok (r : Cursor) (seek : Z) :
  0 <= seek -> SeekStart r seek = (seek, None, bytesReader.mk (s r) seek (-1)).
Proof.
  intros H. unfold SeekStart.
  destruct (Z.ltb_spec seek 0); [lia | reflexivity].
Qed.

Lemma altRun_calls (pfs : list parsefunc) :
  forall seek err e r,
    0 <= seek -> i r = seek ->
    (exists n, map calledFn (fst (altRun pfs seek err e r)) = firstn n pfs)
    /\ Forall (fun c => calledAt c = seek) (fst (altRun pfs seek err e r))
    /\ (forall k c, nth_error (fst (altRun pfs seek err e r)) k = Some c ->
                    (S k < List.length (fst (altRun pfs seek err e r)))%nat ->
                    failed c).
Proof.
  induction pfs as [|pf rest IH]; intros seek err0 e r Hseek Hpos; simpl.
  - split; [exists O; reflexivity|]. split; [constructor|].
    intros k c _ Hk. simpl in Hk. lia.
  - assert (Hone : (exists n, map calledFn [(pf, e, r)] = firstn n (pf :: rest))
                   /\ Forall (fun c => calledAt c = seek) [(pf, e, r)]
                   /\ (forall k c, nth_error [(pf, e, r)] k = Some c ->
                                   (S k < List.length [(pf, e, r)])%nat -> failed c)).
    { split; [exists 1%nat; reflexivity|].
      split; [repeat constructor; exact Hpos|].
      intros k c _ Hk. simpl in Hk. lia. }
    destruct (pf e r) as [[[err1 e1] r1]| |] eqn:Hpf; [|exact Hone|exact Hone].
    destruct err1 as [x|]; simpl; [|exact Hone].
    rewrite (SeekStart_ok r1 seek Hseek). simpl.
    specialize (IH seek None e1 (bytesReader.mk (s r1) seek (-1)) Hseek eq_refl).
    destruct (altRun rest seek None e1 (bytesReader.mk (s r1) seek (-1)))
      as [log out]; simpl in *.
    destruct IH as [[n Hn] [Hall Hfail]].
    split; [exists (S n); simpl; f_equal; exact Hn|].
    split; [constructor; [exact Hpos | exact Hall]|].
    intros [|k] c Hc Hk; simpl in Hc.
    + injection Hc as <-. simpl. exists x, e1, r1. exact Hpf.
    + apply (Hfail k c Hc). lia.
Qed.

(** The calls of the logged run are in declaration order, every one of them
    finds the cursor at the position the alternation began at, and all but
    the last returned an error. *)
Lemma altCalls_in_order (pfs : list parsefunc) (e : Entry) (r : Cursor) :
  (exists n, map calledFn (altCalls pfs e r) = firstn n pfs)
  /\ Forall (fun c => calledAt c = i r) (altCalls pfs e r)
  /\ (forall k c, nth_error (altCalls pfs e r) k = Some c ->
                  (S k < List.length (altCalls pfs e r))%nat -> failed c).
Proof.
  unfold altCalls, SeekCurrent0.
  destruct (Z.ltb_spec (i r) 0) as [Hneg|Hpos]; simpl.
  - split; [exists O; reflexivity|]. split; [constructor|].
    intros k c _ Hk. simpl in Hk. lia.
  - apply altRun_calls; [exact Hpos | reflexivity].
Qed.





(** The log is that of the closure itself: its result is [altFn]'s. *)
Lemma altFn_altRun (pfs : list parsefunc) (e : Entry) (r : Cursor) :
  altFn pfs e r =
  let '(seek, err, r0) := SeekCurrent0 r in
  if negb (isNil err) then Ret (err, e, r0) else snd (altRun pfs seek err e r0).
Proof.
  unfold altFn. destruct (SeekCurrent0 r) as [[seek err0] r0].
  destruct (isNil err0); simpl; [|reflexivity].
  symmetry. apply altRun_altLoop.
Qed.

(** When every alternative returns an error, whatever it is run on, the
    closure calls them all and returns nil, the value the last [Seek]
    assigned to [err], with the cursor back where the alternation began. *)
Lemma altLoop_all_fail (pfs : list parsefunc) :
  (forall pf, In pf pfs -> forall e r, exists x e1 r1, pf e r = Ret (Some x, e1, r1)) ->
  forall seek e r, 0 <= seek ->
    exists e1 r1, altLoop pfs seek None e r = Ret (None, e1, r1)
                  /\ (pfs <> [] -> i r1 = seek).
Proof.
  induction pfs as [|pf rest IH]; intros Hall seek e r Hseek; simpl.
  - exists e, r. split; [reflexivity | congruence].
  - destruct (Hall pf (or_introl eq_refl) e r) as (x & e1 & r1 & Hpf).
    rewrite Hpf. simpl. rewrite (SeekStart_ok r1 seek Hseek). simpl.
    destruct (IH (fun pf' H => Hall pf' (or_intror H)) seek e1
                 (bytesReader.mk (s r1) seek (-1)) Hseek) as (e2 & r2 & Hrun & Hposn).
    exists e2, r2. split; [exact Hrun|]. intros _.
    destruct rest as [|pf2 rest2].
    + simpl in Hrun. injection Hrun as _ <-. reflexivity.
    + apply Hposn. discriminate.
Qed.

Lemma altFn_all_fail (pfs : list parsefunc) (e : Entry) (r : Cursor) :
  pfs <> [] -> 0 <= i r ->
  (forall pf, In pf pfs -> forall e r, exists x e1 r1, pf e r = Ret (Some x, e1, r1)) ->
  exists e1 r1, altFn pfs e r = Ret (None, e1, r1) /\ i r1 = i r.
Proof.
  intros Hne Hpos Hall. unfold altFn, SeekCurrent0.
  destruct (Z.ltb_spec (i r) 0) as [Hneg|_]; [lia|]. simpl.
  destruct (altLoop_all_fail pfs Hall (i r) e (bytesReader.mk (s r) (i r) (-1)) Hpos)
    as (e1 & r1 & Hrun & Hposn).
  exists e1, r1. split; [exact Hrun | exact (Hposn Hne)].
Qed.

(** ** Fuel

    On a cursor inside its input the integer scanner and the string scanner
    are never starved: [ReadRune] moves the cursor forward until the input
    ends, and the input ends within [fuelFor] iterations. *)

Lemma get_some (str : string) :
  forall n, (n < String.length str)%nat -> exists c, String.get n str = Some c.
Proof.
  induction str as [|c rest IH]; intros n Hn; simpl in *; [lia|].
  destruct n as [|m]; [exists c; reflexivity|].
  apply IH. lia.
Qed.

Lemma byteAt_some (str : string) (k : Z) :
  0 <= k < len str -> exists b, byteAt str k = Some b.
Proof.
  intros [Hlo Hhi]. unfold byteAt, len in *.
  destruct (Z.ltb_spec k 0) as [H|_]; [lia|].
  destruct (get_some str (Z.to_nat k)) as [c Hc]; [lia|].
  rewrite Hc. eexists. reflexivity.
Qed.

Lemma DecodeRune_size (str : string) (k b : Z) :
  byteAt str k = Some b -> 1 <= snd (utf8.DecodeRune str k) <= 4.
Proof.
  intros Hb. unfold utf8.DecodeRune. rewrite Hb.
  repeat match goal with
         | |- context [if ?c then _ else _] => destruct c
         | |- context [match ?x with _ => _ end] => destruct x
         end; simpl; lia.
Qed.

(** [ReadRune] inside the input: no error, the cursor strictly further and
    still over the same bytes. *)
Lemma ReadRune_advances (r : Cursor) :
  0 <= i r < len (s r) ->
  exists c size,
    ReadRune r = (c, size, None, bytesReader.mk (s r) (i r + size) (i r))
    /\ 1 <= size.
Proof.
  intros [Hlo Hhi]. unfold ReadRune.
  destruct (Z.leb_spec (len (s r)) (i r)) as [H|_]; [lia|].
  destruct (byteAt_some (s r) (i r) (conj Hlo Hhi)) as [b Hb].
  pose proof (DecodeRune_size (s r) (i r) b Hb) as Hsz.
  destruct (utf8.DecodeRune (s r) (i r)) as [c size]. simpl in Hsz.
  exists c, size. split; [reflexivity | lia].
Qed.

Lemma ReadRune_at_end (r : Cursor) :
  len (s r) <= i r ->
  ReadRune r = (0, 0, Some EOF, bytesReader.mk (s r) (i r) (-1)).
Proof.
  intros H. unfold ReadRune.
  destruct (Z.leb_spec (len (s r)) (i r)) as [_|H1]; [reflexivity | lia].
Qed.

Lemma Len_after (str : string) (k size p q : Z) :
  0 <= k < len str -> 1 <= size ->
  (Z.to_nat (Len (bytesReader.mk str (k + size) p)) < Z.to_nat (Len (bytesReader.mk str k q)))%nat.
Proof.
  intros Hk Hs. unfold Len. simpl.
  destruct (Z.leb_spec (len str) (k + size));
  destruct (Z.leb_spec (len str) k); lia.
Qed.

Lemma parseIntLoop_fed (accept : Z -> bool) (n : Z) (fuel : nat) :
  forall k str buf,
    0 <= i str -> (Z.to_nat (Len str) < fuel)%nat ->
    exists res, parseIntLoop fuel k n str accept buf = Ret res.
Proof.
  induction fuel as [|f IH]; intros k str buf Hpos Hfuel; [lia|].
  simpl. destruct ((n <=? 0) || (k <? n)); [|eexists; reflexivity].
  destruct (Z.leb_spec (len (s str)) (i str)) as [Hend|Hin].
  - rewrite (ReadRune_at_end str Hend). eexists. reflexivity.
  - destruct (ReadRune_advances str (conj Hpos Hin)) as (c & size & Hread & Hsize).
    rewrite Hread.
    destruct (accept c); simpl.
    + apply IH; simpl; [lia|].
      pose proof (Len_after (s str) (i str) size (i str) (prevRune str) (conj Hpos Hin) Hsize) as Hlt.
      destruct str as [s0 i0 p0]. simpl in *. lia.
    + destruct (n =? 0); eexists; reflexivity.
Qed.

(** [parseInt] returns, whatever the input. *)
Lemma parseInt_returns (v n : Z) (str : Cursor) (accept : Z -> bool) :
  0 <= i str -> exists res, parseInt v n str accept = Ret res.
Proof.
  intros Hpos. unfold parseInt.
  destruct (parseIntLoop_fed accept n (fuelFor str) 0 str EmptyString Hpos)
    as [[res str1] Hloop]; [unfold fuelFor; lia|].
  rewrite Hloop. simpl.
  destruct res as [e|buf]; [eexists; reflexivity|].
  destruct (strings.isEmpty (strings.TrimLeft0 buf)); [eexists; reflexivity|].
  destruct (strconv.ParseInt (strings.TrimLeft0 buf)) as [x err0].
  destruct (isNil err0); eexists; reflexivity.
Qed.

Lemma parseStringLoop_fed (accept : Z -> bool) (length : Z) (fuel : nat) :
  forall k r buf,
    0 <= i r -> (Z.to_nat (Len r) + Z.to_nat (length - k) < fuel)%nat ->
    parseStringLoop fuel k length r accept buf <> Starved.
Proof.
  induction fuel as [|f IH]; intros k r buf Hpos Hfuel; [lia|].
  simpl. destruct (Z.leb_spec length 0) as [Hlen|Hlen]; simpl.
  - destruct (Z.leb_spec (len (s r)) (i r)) as [Hend|Hin].
    + rewrite (ReadRune_at_end r Hend). simpl.
      destruct (accept 0); simpl; discriminate.
    + destruct (ReadRune_advances r (conj Hpos Hin)) as (c & size & Hread & Hsize).
      rewrite Hread. simpl.
      destruct (accept c); simpl; [|discriminate].
      apply IH; simpl; [lia|].
      pose proof (Len_after (s r) (i r) size (i r) (prevRune r) (conj Hpos Hin) Hsize) as Hlt.
      destruct r as [s0 i0 p0]. simpl in *. lia.
  - destruct (Z.ltb_spec k length) as [Hk|Hk]; [|discriminate].
    destruct (Z.leb_spec (len (s r)) (i r)) as [Hend|Hin].
    + rewrite (ReadRune_at_end r Hend). simpl.
      destruct (accept 0); simpl; [|discriminate].
      apply IH; simpl; [lia|].
      destruct r as [s0 i0 p0]. unfold Len in *. simpl in *. lia.
    + destruct (ReadRune_advances r (conj Hpos Hin)) as (c & size & Hread & Hsize).
      rewrite Hread. simpl.
      destruct (accept c); simpl; [|discriminate].
      apply IH; simpl; [lia|].
      pose proof (Len_after (s r) (i r) size (i r) (prevRune r) (conj Hpos Hin) Hsize) as Hlt.
      destruct r as [s0 i0 p0]. simpl in *. lia.
Qed.

(** With a length the string scanner returns: the loop is bounded. *)
Lemma parseStringLoop_bounded (accept : Z -> bool) (length : Z) (fuel : nat) :
  forall k r buf,
    0 < length ->
    parseStringLoop fuel k length r accept buf <> Loop.
Proof.
  induction fuel as [|f IH]; intros k r buf Hlen; simpl.
  - destruct ((length <=? 0) || (k <? length)); discriminate.
  - destruct ((length <=? 0) || (k <? length)); [|discriminate].
    destruct (ReadRune r) as [[[c sz] err0] r1].
    destruct (accept c); simpl; [|discriminate].
    destruct (Z.leb_spec length 0) as [H|_]; [lia|].
    rewrite andb_false_r. apply IH. exact Hlen.
Qed.

Lemma parseString_bounded_returns (r : Cursor) (length : Z) (accept : Z -> bool) :
  0 <= i r -> 0 < length -> exists res, parseString r length accept = Ret res.
Proof.
  intros Hpos Hlen. unfold parseString.
  pose proof (parseStringLoop_fed accept length (fuelFor r + Z.to_nat length)
                0 r EmptyString Hpos) as Hfed.
  pose proof (parseStringLoop_bounded accept length (fuelFor r + Z.to_nat length)
                0 r EmptyString Hlen) as Hbnd.
  destruct (parseStringLoop (fuelFor r + Z.to_nat length) 0 length r accept EmptyString)
    as [[buf r1]| |].
  - simpl. destruct ((0 <? length) && negb (len buf =? length)); eexists; reflexivity.
  - congruence.
  - exfalso. apply Hfed; [|reflexivity].
    unfold fuelFor. rewrite Z.sub_0_r. lia.
Qed.

(** The month-name scanner returns on every input. *)
Lemma parseMonthStr_returns (w : when) (r : Cursor) :
  0 <= i r -> exists res, parseMonthStr w r = Ret res.
Proof.
  intros Hpos. unfold parseMonthStr.
  destruct (parseString_bounded_returns r 3 isLetter Hpos) as [[[name err0] r1] Hps]; [lia|].
  rewrite Hps. simpl.
  destruct (isNil err0); simpl; [|eexists; reflexivity].
  destruct (notFound months _ _); eexists; reflexivity.
Qed.

(** ** The nested templates

    The templates the shorthands compile hold no shorthand: their
    compilation does not depend on what a nested call would return. *)

Lemma isoPattern_flat (n1 n2 : compiled whenfunc) :
  timePatternWith n1 isoPattern = timePatternWith n2 isoPattern.
Proof. reflexivity. Qed.

Lemma long_forms_flat (a b c a' b' c' : compiled hostfunc) :
  hostPatternWith a b c ip4long = hostPatternWith a' b' c' ip4long
  /\ hostPatternWith a b c ip6long = hostPatternWith a' b' c' ip6long
  /\ hostPatternWith a b c fqdnlong = hostPatternWith a' b' c' fqdnlong.
Proof. split; [|split]; reflexivity. Qed.

(** ** The integer scanner at the end of the input and before a non-digit *)

(** At the end of the input the scanner returns [io.EOF], whatever the
    width, and stores nothing. *)
Lemma parseInt_at_end (v n : Z) (str : Cursor) (accept : Z -> bool) :
  len (s str) <= i str ->
  parseInt v n str accept = Ret (Some EOF, v, bytesReader.mk (s str) (i str) (-1)).
Proof.
  intros Hend. unfold parseInt, fuelFor. simpl.
  assert (Hcond : (n <=? 0) || (0 <? n) = true).
  { destruct (Z.leb_spec n 0); destruct (Z.ltb_spec 0 n); simpl; try reflexivity; lia. }
  rewrite Hcond. rewrite (ReadRune_at_end str Hend). reflexivity.
Qed.

(** With width 0, before a rune it does not accept, the scanner returns nil
    with no digit read; the value and the position are as before. *)
Lemma parseInt_no_digit (v : Z) (str : Cursor) (accept : Z -> bool) (c size : Z) :
  ReadRune str = (c, size, None, bytesReader.mk (s str) (i str + size) (i str)) ->
  0 < i str + size -> 0 <= i str ->
  accept c = false ->
  parseInt v 0 str accept = Ret (None, v, bytesReader.mk (s str) (i str) (-1)).
Proof.
  intros Hread Hsz Hpos Hacc. unfold parseInt, fuelFor. simpl.
  rewrite Hread, Hacc. simpl. unfold UnreadRune. simpl.
  destruct (Z.leb_spec (i str + size) 0) as [H|_]; [lia|].
  destruct (Z.ltb_spec (i str) 0) as [H|_]; [lia|]. reflexivity.
Qed.

(** ** The month table *)

Lemma searchLoop_nonneg (f : Z -> bool) (fuel : nat) :
  forall lo hi, 0 <= lo -> 0 <= sort.searchLoop fuel lo hi f.
Proof.
  induction fuel as [|k IH]; intros lo hi Hlo; simpl.
  - destruct (lo <? hi); exact Hlo.
  - destruct (Z.ltb_spec lo hi) as [Hlt|_]; [|exact Hlo].
    destruct (f (Z.shiftr (lo + hi) 1)); simpl.
    + apply IH. exact Hlo.
    + apply IH. assert (0 <= Z.shiftr (lo + hi) 1) by (apply Z.shiftr_nonneg; lia). lia.
Qed.

Lemma months_sorted :
  months = ["apr"; "aug"; "dec"; "feb"; "jan"; "jul"; "jun"; "mar"; "may"; "nov"; "oct"; "sep"].
Proof. reflexivity. Qed.

(** C10. When the month-name scanner accepts its input, the three letters
    read are, in lower case, an entry of the alphabetically sorted table
    apr, aug, dec, feb, jan, jul, jun, mar, may, nov, oct, sep, and the
    month stored in the accumulator is one more than the index of that entry
    in the sorted table (Jan stores 5, sep stores 12); the other components
    of the accumulator are as they were. *)
Theorem month_name_stores_sorted_index (w : when) (r : Cursor) (w1 : when) (r1 : Cursor) :
  parseMonthStr w r = Ret (None, w1, r1) ->
  months = ["apr"; "aug"; "dec"; "feb"; "jan"; "jul"; "jun"; "mar"; "may"; "nov"; "oct"; "sep"]
  /\ exists name x,
       parseString r 3 isLetter = Ret (name, None, r1)
       /\ 0 <= x < 12
       /\ sort.at_ months x = strings.ToLower name
       /\ Mon w1 = x + 1
       /\ w1 = mkWhen (Year w) (x + 1) (Day w) (Hour w) (Min w) (Sec w) (Frac w)
                      (Zone w) (YearDay w) (Unix w)
       /\ w1 = setMon w (x + 1).
Proof.
  intros H. split; [exact months_sorted|].
  unfold parseMonthStr in H.
  destruct (parseString r 3 isLetter) as [[[name err0] r2]| |] eqn:Hps; simpl in H;
    [|discriminate|discriminate].
  destruct err0 as [x0|]; simpl in H; [discriminate|].
  destruct (notFound months (sort.SearchStrings months (strings.ToLower name))
                     (strings.ToLower name)) eqn:Hnf; [discriminate|].
  injection H as <- <-.
  exists name, (sort.SearchStrings months (strings.ToLower name)).
  unfold notFound in Hnf. apply orb_false_elim in Hnf. destruct Hnf as [Hlen Heq].
  split; [reflexivity|]. split; [|split; [|split; [|split]; reflexivity]].
  - split.
    + apply searchLoop_nonneg. lia.
    + apply Z.leb_gt in Hlen. exact Hlen.
  - apply negb_false_iff in Heq. apply String.eqb_eq in Heq. exact Heq.
Qed.

Lemma month_name_witness :
  (parseMonthStr (mkWhen 2023 0 12 0 0 0 0 0 0 0) (bytesReader.NewReader "Jan 12")
     = Ret (None, mkWhen 2023 5 12 0 0 0 0 0 0 0, bytesReader.mk "Jan 12" 2 (-1))
   /\ sort.at_ months 4 = "jan" /\ sort.at_ months_decl 0 = "jan")
  /\ (parseMonthStr when0 (bytesReader.NewReader "sep")
       = Ret (None, mkWhen 0 12 0 0 0 0 0 0 0 0, bytesReader.mk "sep" 2 (-1))
     /\ sort.at_ months 11 = "sep" /\ sort.at_ months_decl 8 = "sep")
  /\ (exists name x,
        parseString (bytesReader.NewReader "Jan 12") 3 isLetter
          = Ret (name, None, bytesReader.mk "Jan 12" 2 (-1))
        /\ 0 <= x < 12
        /\ sort.at_ months x = strings.ToLower name
        /\ Mon (mkWhen 2023 5 12 0 0 0 0 0 0 0) = x + 1
        /\ mkWhen 2023 5 12 0 0 0 0 0 0 0
           = mkWhen 2023 (x + 1) 12 0 0 0 0 0 0 0
        /\ mkWhen 2023 5 12 0 0 0 0 0 0 0
           = setMon (mkWhen 2023 0 12 0 0 0 0 0 0 0) (x + 1)).
Proof.
  split; [evaluate|]. split; [evaluate|].
  apply (month_name_stores_sorted_index (mkWhen 2023 0 12 0 0 0 0 0 0 0)
           (bytesReader.NewReader "Jan 12")
           (mkWhen 2023 5 12 0 0 0 0 0 0 0) (bytesReader.mk "Jan 12" 2 (-1))).
  vm_compute. reflexivity.
Defined.

(** ** The reader on concrete streams *)

(** C1, as stated: the line of the scenario separates date and time by a
    space and carries no zone, while the default argument of the time
    specifier is the RFC 3339-like template, with a T and a zone.  The first
    [Read] returns no record with the fields of the scenario. *)
Lemma scenario_line_not_parsed :
  ~ (exists e,
       session "2023-05-01 10:22:31 sshd[1234]: Accepted password"
               "%t %n[%p]: %m" EmptyString 1 = COk [Ret (e, None)]
       /\ Process e = "sshd" /\ Pid e = 1234 /\ Message e = "Accepted password"
       /\ time.Equal (When e) (time.Date 2023 5 1 10 22 31 0 time.UTC) = true).
Proof.
  intros (e & Hrun & _).
  vm_compute in Hrun. discriminate Hrun.
Qed.

(** C1, amended: on the line written the way the default template reads it
    (date and time joined by T, zone Z) the reader returns the record of the
    scenario, its time the instant 1682936551 s after the epoch, in UTC; on
    the line of the scenario it skips the line and reports the end of the
    input. *)
Theorem default_time_record :
  session "2023-05-01T10:22:31Z sshd[1234]: Accepted password"
          "%t %n[%p]: %m" EmptyString 1
    = COk [Ret (scenarioEntry "2023-05-01T10:22:31Z sshd[1234]: Accepted password", None)]
  /\ time.Date 2023 5 1 10 22 31 0 time.UTC = time.mkTime 1682936551 0 time.UTC
  /\ session "2023-05-01 10:22:31 sshd[1234]: Accepted password"
             "%t %n[%p]: %m" EmptyString 1
       = COk [Ret (Entry0, Some EOF)].
Proof.
  split; [vm_compute; reflexivity|].
  split; vm_compute; reflexivity.
Qed.

(** A line whose extractor chain returns [ErrPattern] is skipped: the loop
    goes on with the next token, and with the entry as the chain left it. *)
Lemma readLoop_skips_mismatch (parse : parsefunc) (keep : option filterfunc)
    (line : string) (rest : list string) (final : error) (e e1 : Entry) (r1 : Cursor) :
  len line <> 0 ->
  parse e (bytesReader.NewReader line) = Ret (Some ErrPattern, e1, r1) ->
  readLoop parse keep (line :: rest) final e = readLoop parse keep rest final e1.
Proof.
  intros Hlen Hparse. simpl.
  destruct (Z.eqb_spec (len line) 0) as [H0|_]; [contradiction|].
  rewrite Hparse. reflexivity.
Qed.

(** C2. With the pattern [%n[%p]: %m]:
    - on the line [sshd[]: hi], which has no digit where the pid is read,
      the integer scanner returns nil and the line comes back as a record,
      its pid 0;
    - the line [sshd[12] ends inside the pid: the integer scanner returns
      [io.EOF], [Read] returns it and keeps it, and the well-formed line
      that follows is never read (the second [Read] returns [io.EOF] too),
      although that line alone is accepted. *)
Theorem int_scanner_defeats_skipping :
  session "sshd[]: hi" "%n[%p]: %m" EmptyString 1
    = COk [Ret (setLine (setMessage (setProcess Entry0 "sshd") "hi") "sshd[]: hi", None)]
  /\ session ("sshd[12" ++ nl ++ "cron[7]: ok" ++ nl) "%n[%p]: %m" EmptyString 2
    = COk [Ret (setProcess Entry0 "sshd", Some EOF); Ret (Entry0, Some EOF)]
  /\ session ("cron[7]: ok" ++ nl) "%n[%p]: %m" EmptyString 1
    = COk [Ret (setLine (setMessage (setPid (setProcess Entry0 "cron") 7) "ok")
                        "cron[7]: ok", None)]
  /\ parseInt 0 0 (bytesReader.NewReader "]: hi") isDigit
    = Ret (None, 0, bytesReader.mk "]: hi" 0 (-1))
  /\ parseInt 0 0 (bytesReader.NewReader "12") isDigit
    = Ret (Some EOF, 0, bytesReader.mk "12" 2 (-1)).
Proof.
  evaluate.
Qed.

(** C3. The group [@(a|b)] on the input [c]: each alternative alone
    returns the mismatch error, the alternation returns nil, with the cursor
    at the position it began at, and the reader returns the line as a
    record. *)
Theorem alt_all_mismatch_returns_nil :
  runOn (parsePattern "a") Entry0 "c"
    = COk (Ret (Some ErrPattern, Entry0, bytesReader.mk "c" 1 0))
  /\ runOn (parsePattern "b") Entry0 "c"
    = COk (Ret (Some ErrPattern, Entry0, bytesReader.mk "c" 1 0))
  /\ runOn (parsePattern "@(a|b)") Entry0 "c"
    = COk (Ret (None, Entry0, bytesReader.mk "c" 0 (-1)))
  /\ session "c" "@(a|b)" EmptyString 1 = COk [Ret (setLine Entry0 "c", None)].
Proof.
  evaluate.
Qed.

(** C4. The pattern [%p %w ok] on the lines [12 a no] and [7 b ok]: the
    first line is discarded for mismatch after its word was stored, the
    second is accepted, and the record returned for it holds the word [a]
    of the discarded line before its own word [b].  The second line alone
    gives the one word [b]. *)
Theorem discarded_line_words_leak :
  session ("12 a no" ++ nl ++ "7 b ok" ++ nl) "%p %w ok" EmptyString 1
    = COk [Ret (setLine (setWords (setPid Entry0 7) ["a"; "b"]) "7 b ok", None)]
  /\ session ("12 a no" ++ nl) "%p %w ok" EmptyString 1
    = COk [Ret (setWords (setPid Entry0 12) ["a"], Some EOF)]
  /\ session ("7 b ok" ++ nl) "%p %w ok" EmptyString 1
    = COk [Ret (setLine (setWords (setPid Entry0 7) ["b"]) "7 b ok", None)].
Proof.
  evaluate.
Qed.

(** ** Resolving the time accumulator *)

Lemma when_Time_unix (w : when) :
  Unix w <> 0 -> when_Time w = time.Unix (Unix w) 0.
Proof.
  intros H. unfold when_Time.
  destruct (Z.eqb_spec (Unix w) 0) as [H0|_]; [contradiction | reflexivity].
Qed.

Lemma when_Time_defaults (w : when) :
  Unix w = 0 -> YearDay w <= 0 ->
  when_Time w =
    time.Date (if Year w =? 0 then 1 else Year w)
              (if Mon w =? 0 then 1 else Mon w)
              (if Day w =? 0 then 1 else Day w)
              (Hour w) (Min w) (Sec w) (Frac w)
              (if Zone w =? 0 then time.UTC else time.FixedZone EmptyString (Zone w)).
Proof.
  intros HU HY. unfold when_Time. rewrite HU. simpl.
  destruct (Z.ltb_spec 0 (YearDay w)) as [H|_]; [lia|].
  destruct (Z.eqb_spec (Year w) 0) as [->|_];
  destruct (Z.eqb_spec (Mon w) 0) as [->|_];
  destruct (Z.eqb_spec (Day w) 0) as [->|_];
  destruct (Z.eqb_spec (Zone w) 0) as [->|_]; reflexivity.
Qed.

(** C6. The time template [%s] on the input [1690000000]: the digits run
    to the end of the input, the integer scanner returns [io.EOF] before it
    stores anything, the Unix component stays unset and the reader returns
    [io.EOF] with no record.  (At the top level [%s] is no specifier.)  With
    a rune after the digits the component is stored and the time is the
    instant [time.Unix(1690000000, 0)]. *)
Theorem unix_template_at_end_of_input :
  runOn (parseTimePattern "%s") when0 "1690000000"
    = COk (Ret (Some EOF, when0, bytesReader.mk "1690000000" 10 (-1)))
  /\ session "1690000000" "%t(%s)" EmptyString 1 = COk [Ret (Entry0, Some EOF)]
  /\ session "1690000000" "%s" EmptyString 1 = CErr ErrSyntax
  /\ runOn (parseTimePattern "%s") when0 "1690000000 "
    = COk (Ret (None, setUnix when0 1690000000, bytesReader.mk "1690000000 " 10 (-1)))
  /\ when_Time (setUnix when0 1690000000) = time.Unix 1690000000 0.
Proof.
  evaluate.
Qed.

(** C7. The zone scanner on [-05:30] stores -16200, the minutes added to
    the negated hours, where the sign applied to the total is -19800; on
    [+05:00] it stores 18300, the hours counted again as minutes.  On
    [+05:30] it stores 19800 and on [Z] it stores 0. *)
Theorem zone_minutes_escape_sign :
  parseZone when0 (bytesReader.NewReader "-05:30")
    = Ret (None, setZone when0 (-16200), bytesReader.mk "-05:30" 6 5)
  /\ - (5 * 3600 + 30 * 60) = -19800
  /\ parseZone when0 (bytesReader.NewReader "+05:00")
    = Ret (None, setZone when0 18300, bytesReader.mk "+05:00" 6 5)
  /\ parseZone when0 (bytesReader.NewReader "+05:30")
    = Ret (None, setZone when0 19800, bytesReader.mk "+05:30" 6 5)
  /\ parseZone when0 (bytesReader.NewReader "Z")
    = Ret (None, when0, bytesReader.mk "Z" 1 0).
Proof.
  evaluate.
Qed.

(** C8. An accumulator with year 2023 and day of the year 32: the time
    returned is February 2, day 33 of 2023.  For every day of the year from
    1 to 364 the time returned falls on the day after. *)
Theorem year_day_one_late :
  when_Time (setYearDay (setYear when0 2023) 32) = time.Date 2023 2 2 0 0 0 0 time.UTC
  /\ time.YearDay (when_Time (setYearDay (setYear when0 2023) 32)) = 33
  /\ forallb (fun d => time.YearDay (when_Time (setYearDay (setYear when0 2023) d)) =? d + 1)
             yearDays = true
  /\ session "2023-032 x" "%t(%y-%j) %m" EmptyString 1
    = COk [Ret (setLine (setWhen (setMessage Entry0 "x") (time.Date 2023 2 2 0 0 0 0 time.UTC))
                        "2023-032 x", None)].
Proof.
  evaluate.
Qed.

(** C9. The IPv4 scanner on [1..2.3 ], whose second group is empty,
    succeeds with the address 1.0.2.3, and on three dots alone with
    0.0.0.0; on [1.2.3] at the end of the input it returns [io.EOF], not
    the mismatch error.  An octet of 256 and a missing fourth group before
    a space are mismatches. *)
Theorem ipv4_empty_group_accepted :
  parseIPv4 host0 (bytesReader.NewReader "1..2.3 ")
    = Ret (None, setAddr host0 "1.0.2.3", bytesReader.mk "1..2.3 " 6 (-1))
  /\ parseIPv4 host0 (bytesReader.NewReader "... ")
    = Ret (None, setAddr host0 "0.0.0.0", bytesReader.mk "... " 3 (-1))
  /\ parseIPv4 host0 (bytesReader.NewReader "1.2.3")
    = Ret (Some EOF, host0, bytesReader.mk "1.2.3" 5 (-1))
  /\ parseIPv4 host0 (bytesReader.NewReader "1.2.3.256 ")
    = Ret (Some ErrPattern, host0, bytesReader.mk "1.2.3.256 " 9 (-1))
  /\ parseIPv4 host0 (bytesReader.NewReader "1.2.3 ")
    = Ret (Some ErrPattern, host0, bytesReader.mk "1.2.3 " 5 (-1)).
Proof.
  evaluate.
Qed.

(** * Further properties *)

(** ** The stream reader *)

(** X1. Once [Read] has returned an error it returns that error again on
    every later call, with an empty record, and the reader does not move:
    no further line is read. *)
Theorem Read_error_is_sticky (r : Reader) (e : Entry) (x : Err) (r1 : Reader) :
  Read r = Ret (e, Some x, r1) ->
  Read r1 = Ret (Entry0, Some x, r1).
Proof.
  intros H. unfold Read in H.
  destruct (err r) as [y|] eqn:Herr.
  - injection H as _ <- <-. unfold Read. rewrite Herr. reflexivity.
  - destruct (readLoop (parse r) (keep r) (tokens (inner r)) (scanErr (inner r)) Entry0)
      as [[[e0 err0] rest]| |]; simpl in H; try discriminate.
    injection H as _ -> <-. reflexivity.
Qed.

Lemma Read_error_is_sticky_witness :
  Read (mkReader (mkScanner ["7 ok"] None) (Some EOF) None parsePID)
  = Ret (Entry0, Some EOF, mkReader (mkScanner ["7 ok"] None) (Some EOF) None parsePID).
Proof.
  apply (Read_error_is_sticky (mkReader (mkScanner ["12"; "7 ok"] None) None None parsePID)
           Entry0 EOF).
  reflexivity.
Defined.

Lemma readLoop_accepts (parse : parsefunc) (keep : option filterfunc) (final : error) :
  forall toks e0 e rest,
    readLoop parse keep toks final e0 = Ret (e, None, rest) ->
    exists skipped, toks = (skipped ++ Line e :: rest)%list /\ len (Line e) <> 0.
Proof.
  induction toks as [|line more IH]; intros e0 e rest H; simpl in H.
  - discriminate.
  - destruct (Z.eqb_spec (len line) 0) as [Hz|Hne].
    + destruct (IH e0 e rest H) as [skipped [Heq Hlen]].
      exists (line :: skipped). split; [simpl; f_equal; exact Heq | exact Hlen].
    + destruct (parse e0 (bytesReader.NewReader line)) as [[[err1 e1] r1]| |];
        simpl in H; try discriminate.
      destruct err1 as [x|].
      * destruct (isErrPattern x); [|discriminate].
        destruct (IH e1 e rest H) as [skipped [Heq Hlen]].
        exists (line :: skipped). split; [simpl; f_equal; exact Heq | exact Hlen].
      * destruct (accepts keep e1).
        -- injection H as <- <-. exists []. split; [reflexivity | exact Hne].
        -- destruct (IH e1 e rest H) as [skipped [Heq Hlen]].
           exists (line :: skipped). split; [simpl; f_equal; exact Heq | exact Hlen].
Qed.

(** X2. When [Read] returns a record, the record's [Line] is a line of the
    stream, not empty, the lines before it were passed over, the lines after
    it are all that is left to read, and no error is kept. *)
Theorem Read_record_line (r : Reader) (e : Entry) (r1 : Reader) :
  Read r = Ret (e, None, r1) ->
  len (Line e) <> 0
  /\ (exists skipped,
        tokens (inner r) = (skipped ++ Line e :: tokens (inner r1))%list)
  /\ err r1 = None.
Proof.
  intros H. unfold Read in H.
  destruct (err r) as [y|]; [discriminate|].
  destruct (readLoop (parse r) (keep r) (tokens (inner r)) (scanErr (inner r)) Entry0)
    as [[[e0 err0] rest]| |] eqn:Hloop; simpl in H; try discriminate.
  injection H as -> -> <-. simpl.
  destruct (readLoop_accepts _ _ _ _ _ _ _ Hloop) as [skipped [Heq Hlen]].
  split; [exact Hlen|]. split; [exists skipped; exact Heq | reflexivity].
Qed.

Lemma Read_record_line_witness :
  len "7 " <> 0
  /\ (exists skipped,
        [EmptyString; "x"; "7 "; "8 "] = (skipped ++ "7 " :: ["8 "])%list)
  /\ (None : error) = None.
Proof.
  apply (Read_record_line
           (mkReader (mkScanner [EmptyString; "x"; "7 "; "8 "] None) None None
                     (mergeParse [parseLiteral "7"; parseBlank]))
           (setLine Entry0 "7 ")
           (mkReader (mkScanner ["8 "] None) None None
                     (mergeParse [parseLiteral "7"; parseBlank]))).
  reflexivity.
Defined.

(** ** Chains of steps *)



(** ** Looking ahead *)

(** X6. [peek] never moves the cursor: it returns the rune at the cursor,
    or 0 at the end of the input, and leaves the position where it was. *)
Theorem peek_keeps_position (r : Cursor) :
  0 <= i r ->
  snd (peek r) = bytesReader.mk (s r) (i r) (-1)
  /\ (len (s r) <= i r -> fst (peek r) = 0)
  /\ (i r < len (s r) -> fst (peek r) = fst (utf8.DecodeRune (s r) (i r))).
Proof.
  intros Hpos. unfold peek.
  destruct (Z.leb_spec (len (s r)) (i r)) as [Hend|Hin].
  - rewrite (ReadRune_at_end r Hend). unfold UnreadRune. simpl.
    destruct (i r <=? 0); simpl; (split; [reflexivity|]); (split; [reflexivity | lia]).
  - destruct (byteAt_some (s r) (i r) (conj Hpos Hin)) as [b Hb].
    pose proof (DecodeRune_size (s r) (i r) b Hb) as Hsz.
    unfold ReadRune.
    destruct (Z.leb_spec (len (s r)) (i r)) as [Hle|_]; [lia|].
    destruct (utf8.DecodeRune (s r) (i r)) as [c size]. simpl in Hsz.
    unfold UnreadRune. simpl.
    destruct (Z.leb_spec (i r + size) 0) as [Hle|_]; [lia|].
    destruct (Z.ltb_spec (i r) 0) as [Hlt|_]; [lia|]. simpl.
    split; [reflexivity|]. split; [lia | reflexivity].
Qed.

Lemma peek_keeps_position_witness :
  snd (peek (bytesReader.mk "[::1]" 1 0)) = bytesReader.mk "[::1]" 1 (-1)
  /\ (len "[::1]" <= 1 -> fst (peek (bytesReader.mk "[::1]" 1 0)) = 0)
  /\ (1 < len "[::1]" ->
      fst (peek (bytesReader.mk "[::1]" 1 0)) = fst (utf8.DecodeRune "[::1]" 1)).
Proof.
  apply (peek_keeps_position (bytesReader.mk "[::1]" 1 0)). simpl. lia.
Defined.

(** ** Draining a stream *)

Lemma readLoop_returns (parse : parsefunc) (keep : option filterfunc) (final : error) :
  returnsOnLines parse ->
  forall toks e0, exists res, readLoop parse keep toks final e0 = Ret res.
Proof.
  intros Hparse. induction toks as [|line more IH]; intros e0; simpl.
  - eexists. reflexivity.
  - destruct (len line =? 0); [apply IH|].
    destruct (Hparse e0 line) as [[[err1 e1] r1] Hp]. rewrite Hp. simpl.
    destruct err1 as [x|].
    + destruct (isErrPattern x); [apply IH | eexists; reflexivity].
    + destruct (accepts keep e1); [eexists; reflexivity | apply IH].
Qed.

Lemma Read_keeps_parse (r : Reader) (e : Entry) (x : error) (r1 : Reader) :
  Read r = Ret (e, x, r1) -> parse r1 = parse r.
Proof.
  intros H. unfold Read in H. destruct (err r).
  - injection H as _ _ <-. reflexivity.
  - destruct (readLoop (parse r) (keep r) (tokens (inner r)) (scanErr (inner r)) Entry0)
      as [[[e0 err0] rest]| |]; simpl in H; try discriminate.
    injection H as _ _ <-. reflexivity.
Qed.

Lemma Read_error_kept (r : Reader) (e : Entry) (x : Err) (r1 : Reader) :
  Read r = Ret (e, Some x, r1) -> err r1 = Some x.
Proof.
  intros H. unfold Read in H.
  destruct (err r) as [y|] eqn:Herr.
  - injection H as _ <- <-. exact Herr.
  - destruct (readLoop (parse r) (keep r) (tokens (inner r)) (scanErr (inner r)) Entry0)
      as [[[e0 err0] rest]| |]; simpl in H; try discriminate.
    injection H as _ -> <-. reflexivity.
Qed.

Lemma Read_returns (r : Reader) :
  returnsOnLines (parse r) -> exists res, Read r = Ret res.
Proof.
  intros Hparse. unfold Read. destruct (err r); [eexists; reflexivity|].
  destruct (readLoop_returns (parse r) (keep r) (scanErr (inner r)) Hparse
              (tokens (inner r)) Entry0) as [[[e0 err0] rest] Hloop].
  rewrite Hloop. simpl. eexists. reflexivity.
Qed.

Lemma readAllLoop_drains (fuel : nat) :
  forall r es,
    returnsOnLines (parse r) ->
    (List.length (tokens (inner r)) < fuel)%nat ->
    exists new x r1,
      readAllLoop fuel r es = Ret ((es ++ new)%list, Some x, r1)
      /\ (List.length new <= List.length (tokens (inner r)))%nat
      /\ Forall (fromStream (tokens (inner r))) new
      /\ err r1 = Some x.
Proof.
  induction fuel as [|f IH]; intros r es Hparse Hfuel; [lia|].
  simpl. destruct (Read_returns r Hparse) as [[[e err1] r1] Hread].
  rewrite Hread. simpl.
  destruct err1 as [x|]; simpl.
  - exists [], x, r1. rewrite app_nil_r.
    split; [reflexivity|]. split; [simpl; lia|]. split; [constructor|].
    exact (Read_error_kept r e x r1 Hread).
  - destruct (Read_record_line r e r1 Hread) as [Hlen [[skipped Htok] _]].
    assert (Hparse1 : returnsOnLines (parse r1))
      by (rewrite (Read_keeps_parse r e None r1 Hread); exact Hparse).
    assert (Hfuel1 : (List.length (tokens (inner r1)) < f)%nat).
    { rewrite Htok in Hfuel. rewrite length_app in Hfuel. simpl in Hfuel. lia. }
    destruct (IH r1 (append_ es e) Hparse1 Hfuel1) as (new & x & r2 & Hrun & Hcount & Hall & Herr).
    exists (e :: new), x, r2. unfold append_ in Hrun. rewrite <- app_assoc in Hrun.
    split; [exact Hrun|].
    split; [rewrite Htok, length_app; simpl; lia|].
    split; [|exact Herr].
    constructor.
    + split; [rewrite Htok; apply in_or_app; right; left; reflexivity | exact Hlen].
    + eapply Forall_impl; [|exact Hall].
      intros e' [Hin Hl]. split; [|exact Hl].
      rewrite Htok. apply in_or_app. right. right. exact Hin.
Qed.

(** X3. Over an extractor that returns on every line, [ReadAll] returns:
    its error is never nil (the end of the stream is [io.EOF]) and is the
    error the reader keeps; it returns no more records than the stream has
    lines, and each record's [Line] is a line of the stream, not empty. *)
Theorem ReadAll_drains (r : Reader) :
  returnsOnLines (parse r) ->
  exists es x r1,
    ReadAll r = Ret (es, Some x, r1)
    /\ (List.length es <= List.length (tokens (inner r)))%nat
    /\ Forall (fromStream (tokens (inner r))) es
    /\ err r1 = Some x.
Proof.
  intros Hparse. unfold ReadAll.
  destruct (readAllLoop_drains (S (List.length (tokens (inner r)))) r [] Hparse)
    as (new & x & r1 & Hrun & Hcount & Hall & Herr); [lia|].
  exists new, x, r1. simpl in Hrun.
  split; [exact Hrun|]. split; [exact Hcount|]. split; [exact Hall | exact Herr].
Qed.

Lemma parsePID_returnsOnLines : returnsOnLines parsePID.
Proof.
  intros e line. unfold parsePID, intField.
  destruct (parseInt_returns (Pid e) 0 (bytesReader.NewReader line) isDigit)
    as [[[err1 v] r1] Hp]; [simpl; lia|].
  rewrite Hp. simpl. eexists. reflexivity.
Defined.

Lemma ReadAll_drains_witness :
  exists es x r1,
    ReadAll (mkReader (mkScanner ["7 "; EmptyString; "8"] None) None None parsePID)
      = Ret (es, Some x, r1)
    /\ (List.length es <= 3)%nat
    /\ Forall (fromStream ["7 "; EmptyString; "8"]) es
    /\ err r1 = Some x.
Proof.
  apply (ReadAll_drains
           (mkReader (mkScanner ["7 "; EmptyString; "8"] None) None None parsePID)).
  exact parsePID_returnsOnLines.
Defined.

(** ** The filter *)

Lemma accepts_parseFilter (filter : string) (e : Entry) :
  accepts (parseFilter filter) e = true.
Proof.
  unfold parseFilter. destruct (strings.isEmpty filter); reflexivity.
Qed.

Lemma readLoop_keep_ext (parse : parsefunc) (k1 k2 : option filterfunc) (final : error) :
  (forall e, accepts k1 e = accepts k2 e) ->
  forall toks e0, readLoop parse k1 toks final e0 = readLoop parse k2 toks final e0.
Proof.
  intros Hext. induction toks as [|line more IH]; intros e0; simpl; [reflexivity|].
  destruct (len line =? 0); [apply IH|].
  destruct (parse e0 (bytesReader.NewReader line)) as [[[err1 e1] r1]| |]; simpl;
    try reflexivity.
  destruct err1 as [x|].
  - destruct (isErrPattern x); [apply IH | reflexivity].
  - rewrite Hext. destruct (accepts k2 e1); [reflexivity | apply IH].
Qed.

Lemma reads_keep_ext (fn : parsefunc) (k1 k2 : option filterfunc) :
  (forall e, accepts k1 e = accepts k2 e) ->
  forall n sc err0, reads n (mkReader sc err0 k1 fn) = reads n (mkReader sc err0 k2 fn).
Proof.
  intros Hext. induction n as [|n IH]; intros sc err0; simpl; [reflexivity|].
  unfold Read. simpl. destruct err0 as [x|]; simpl.
  - f_equal. apply IH.
  - rewrite (readLoop_keep_ext fn k1 k2 (scanErr sc) Hext).
    destruct (readLoop fn k2 (tokens sc) (scanErr sc) Entry0) as [[[e0 err1] rest]| |];
      simpl; try reflexivity.
    f_equal. apply IH.
Qed.

(** X4. The filter expression has no effect: a reader opened with any
    filter returns, call after call, what the reader opened with the empty
    filter returns (a filter that is not empty compiles to no filter at
    all, and every record is kept). *)
Theorem filter_has_no_effect (input pattern filter : string) (n : nat) :
  session input pattern filter n = session input pattern EmptyString n.
Proof.
  unfold session, NewReader.
  destruct (parsePattern pattern) as [fn|x| |]; try reflexivity.
  f_equal. apply reads_keep_ext.
  intros e. rewrite !accepts_parseFilter. reflexivity.
Qed.

(** ** Cursors inside a known input

    The input is [pre ++ x]: [pre] has been read and [x] is ahead. *)

Lemma rune_range (c : ascii) : 0 <= rune c < 256.
Proof.
  unfold rune. pose proof (N_ascii_bounded c) as H. lia.
Qed.

Lemma byte_of_rune (c : ascii) : byte_of (rune c) = c.
Proof.
  unfold byte_of. pose proof (rune_range c) as H.
  rewrite Z.mod_small by lia. unfold rune. rewrite N2Z.id.
  apply ascii_N_embedding.
Qed.

Lemma len_cons (c : ascii) (x : string) : len (String c x) = 1 + len x.
Proof. unfold len. simpl String.length. lia. Qed.

Lemma len_app (a b : string) : len (a ++ b) = len a + len b.
Proof.
  induction a as [|c a IH]; [reflexivity|].
  simpl append. rewrite !len_cons, IH. lia.
Qed.

Lemma len_nonneg (a : string) : 0 <= len a.
Proof. unfold len. lia. Qed.

Lemma append_nil_r (a : string) : a ++ EmptyString = a.
Proof. induction a as [|c a IH]; simpl; [reflexivity | rewrite IH; reflexivity]. Qed.

Lemma append_assoc (a b c : string) : (a ++ b) ++ c = a ++ b ++ c.
Proof. induction a as [|x a IH]; simpl; [reflexivity | rewrite IH; reflexivity]. Qed.

Lemma get_app_here (pre : string) (c : ascii) (x : string) :
  String.get (String.length pre) (pre ++ String c x) = Some c.
Proof. induction pre as [|d pre IH]; simpl; [reflexivity | exact IH]. Qed.

Lemma byteAt_app_here (pre : string) (c : ascii) (x : string) :
  byteAt (pre ++ String c x) (len pre) = Some (rune c).
Proof.
  unfold byteAt, len. destruct (Z.ltb_spec (Z.of_nat (String.length pre)) 0); [lia|].
  rewrite Nat2Z.id, get_app_here. reflexivity.
Qed.

(** Reading a one-byte rune. *)
Lemma ReadRune_ascii (pre : string) (c : ascii) (x : string) (p : Z) :
  isASCII (rune c) = true ->
  ReadRune (bytesReader.mk (pre ++ String c x) (len pre) p)
  = (rune c, 1, None, bytesReader.mk (pre ++ String c x) (len pre + 1) (len pre)).
Proof.
  intros Hc. unfold ReadRune. simpl.
  rewrite len_app, len_cons. pose proof (len_nonneg x) as Hx.
  destruct (Z.leb_spec (len pre + (1 + len x)) (len pre)) as [H|_]; [lia|].
  unfold utf8.DecodeRune. rewrite byteAt_app_here.
  unfold isASCII in Hc. rewrite Hc. reflexivity.
Qed.

Lemma ReadRune_end (pre : string) (p : Z) :
  ReadRune (bytesReader.mk pre (len pre) p)
  = (0, 0, Some EOF, bytesReader.mk pre (len pre) (-1)).
Proof. apply ReadRune_at_end. simpl. lia. Qed.

Lemma WriteRune_ascii (buf : string) (c : ascii) :
  isASCII (rune c) = true -> WriteRune buf (rune c) = buf ++ String c EmptyString.
Proof.
  intros Hc. unfold WriteRune, utf8.EncodeRune. unfold isASCII in Hc.
  pose proof (rune_range c) as Hr.
  destruct (Z.leb_spec 0 (rune c)) as [_|H]; [|lia].
  rewrite Hc. simpl. rewrite byte_of_rune. reflexivity.
Qed.

Lemma shift_pre (pre : string) (c : ascii) (x : string) :
  pre ++ String c x = (pre ++ String c EmptyString) ++ x.
Proof. rewrite append_assoc. reflexivity. Qed.

Lemma len_shift (pre : string) (c : ascii) :
  len (pre ++ String c EmptyString) = len pre + 1.
Proof. rewrite len_app, len_cons. unfold len. simpl. lia. Qed.

Lemma parseStringLoop_run (accept : Z -> bool) (rest : string) :
  stopsAt accept rest = true ->
  forall run pre p fuel k buf,
    allb (fun b => isASCII b && accept b) run = true ->
    (String.length run < fuel)%nat ->
    parseStringLoop fuel k 0 (bytesReader.mk (pre ++ run ++ rest) (len pre) p) accept buf
    = Ret (buf ++ run, afterStop (pre ++ run ++ rest) (len pre + len run) rest).
Proof.
  intros Hstop. induction run as [|c run IH]; intros pre p fuel k buf Hrun Hfuel.
  - destruct fuel as [|f]; [simpl in Hfuel; lia|].
    simpl append. rewrite append_nil_r. unfold len at 3. simpl String.length.
    rewrite Z.add_0_r. simpl parseStringLoop.
    destruct rest as [|d rest]; simpl in Hstop.
    + rewrite append_nil_r, ReadRune_end. rewrite Hstop. reflexivity.
    + apply andb_prop in Hstop. destruct Hstop as [Hd Hacc].
      rewrite (ReadRune_ascii pre d rest p Hd). rewrite Hacc. reflexivity.
  - destruct fuel as [|f]; [simpl in Hfuel; lia|].
    simpl in Hrun. apply andb_prop in Hrun. destruct Hrun as [Hc Hrun].
    apply andb_prop in Hc. destruct Hc as [Hascii Hacc].
    simpl append. simpl parseStringLoop.
    rewrite (ReadRune_ascii pre c (run ++ rest) p Hascii). rewrite Hacc. simpl.
    rewrite (WriteRune_ascii buf c Hascii).
    rewrite (shift_pre pre c (run ++ rest)), <- (len_shift pre c).
    rewrite (IH (pre ++ String c EmptyString) (len pre) f (k + 1)
                (buf ++ String c EmptyString) Hrun) by (simpl in Hfuel; lia).
    rewrite append_assoc. simpl append.
    rewrite len_shift, len_cons. f_equal. f_equal.
    replace (len pre + 1 + len run) with (len pre + (1 + len run)) by lia.
    reflexivity.
Qed.

Lemma Len_inside (pre x : string) (p : Z) :
  Len (bytesReader.mk (pre ++ x) (len pre) p) = len x.
Proof.
  unfold Len. simpl. rewrite len_app. pose proof (len_nonneg x) as Hx.
  destruct (Z.leb_spec (len pre + len x) (len pre)); lia.
Qed.

Lemma UnreadRune_afterStop (input : string) (at_ : Z) (rest : string) :
  0 <= at_ ->
  snd (UnreadRune (afterStop input at_ rest)) = bytesReader.mk input at_ (-1).
Proof.
  intros Hat. destruct rest as [|d rest]; unfold afterStop, UnreadRune; simpl.
  - destruct (at_ <=? 0); reflexivity.
  - destruct (Z.leb_spec (at_ + 1) 0) as [H|_]; [lia|].
    destruct (Z.ltb_spec at_ 0) as [H|_]; [lia | reflexivity].
Qed.

(** X7. The string scanner without a length, on a run of one-byte runes it
    accepts that ends at a one-byte rune it does not accept or at the end of
    the input (when rune 0 is not accepted): it returns the whole run and no
    more, and leaves the cursor on the rune that ended it. *)
Theorem parseString_takes_run (accept : Z -> bool) (pre run rest : string) (p : Z) :
  allb (fun b => isASCII b && accept b) run = true ->
  stopsAt accept rest = true ->
  parseString (bytesReader.mk (pre ++ run ++ rest) (len pre) p) 0 accept
  = Ret (run, None, bytesReader.mk (pre ++ run ++ rest) (len pre + len run) (-1)).
Proof.
  intros Hrun Hstop. unfold parseString.
  rewrite (parseStringLoop_run accept rest Hstop run pre p).
  - simpl. rewrite UnreadRune_afterStop.
    + reflexivity.
    + pose proof (len_nonneg pre). pose proof (len_nonneg run). lia.
  - exact Hrun.
  - unfold fuelFor. rewrite Len_inside, len_app.
    pose proof (len_nonneg rest). unfold len in *. lia.
Qed.

Lemma parseString_takes_run_witness :
  parseString (bytesReader.mk "<sshd[12]" 1 0) 0 isAlpha
  = Ret ("sshd", None, bytesReader.mk "<sshd[12]" 5 (-1)).
Proof.
  apply (parseString_takes_run isAlpha "<" "sshd" "[12]" 0); reflexivity.
Defined.

(** X8. The message specifier takes the rest of the line: on a line whose
    remaining bytes are one-byte runes other than NUL, the message of the
    record is those bytes, the other fields of the record are as they were,
    and the cursor ends at the end of the line. *)
Theorem parseMessage_rest_of_line (e : Entry) (pre msg : string) (p : Z) :
  allb (fun b => isASCII b && negb (isEOL b)) msg = true ->
  parseMessage e (bytesReader.mk (pre ++ msg) (len pre) p)
  = Ret (None, setMessage e msg, bytesReader.mk (pre ++ msg) (len pre + len msg) (-1))
  /\ Message (setMessage e msg) = msg
  /\ setMessage e msg
     = mkEntry (Line e) (Pid e) (Process e) (User e) (Group e) (Level e) msg (Words e)
               (Host e) (When e).
Proof.
  intros Hmsg. split; [|split; reflexivity]. unfold parseMessage, stringField.
  pose proof (parseString_takes_run (fun r => negb (isEOL r)) pre msg EmptyString p Hmsg
                eq_refl) as H.
  rewrite append_nil_r in H. rewrite H. reflexivity.
Qed.

Lemma parseMessage_rest_of_line_witness :
  parseMessage (mkEntry "l" 12 "sshd" "u" "g" "INFO" "old" ["w"] "h" zeroTime)
               (bytesReader.mk "sshd: Accepted password" 6 5)
  = Ret (None,
         mkEntry "l" 12 "sshd" "u" "g" "INFO" "Accepted password" ["w"] "h" zeroTime,
         bytesReader.mk "sshd: Accepted password" 23 (-1)).
Proof.
  exact (proj1 (parseMessage_rest_of_line
                  (mkEntry "l" 12 "sshd" "u" "g" "INFO" "old" ["w"] "h" zeroTime)
                  "sshd: " "Accepted password" 5 eq_refl)).
Defined.

(** X9. The process, user and group specifiers and the host name scanner
    take the run of letters, digits, dashes and underscores at the cursor,
    up to the first other one-byte rune or the end of the line, store it,
    also when it is empty, and leave the cursor behind it. *)
Theorem name_fields_take_alpha_run (e : Entry) (h : host) (pre run rest : string) (p : Z) :
  allb isAlpha run = true ->
  stopsAt isAlpha rest = true ->
  let r := bytesReader.mk (pre ++ run ++ rest) (len pre) p in
  let r1 := bytesReader.mk (pre ++ run ++ rest) (len pre + len run) (-1) in
  (parseProcess e r = Ret (None, setProcess e run, r1)
   /\ parseUser e r = Ret (None, setUser e run, r1)
   /\ parseGroup e r = Ret (None, setGroup e run, r1)
   /\ parseHostname h r = Ret (None, setName h run, r1))
  /\ (setProcess e run
      = mkEntry (Line e) (Pid e) run (User e) (Group e) (Level e) (Message e) (Words e)
                (Host e) (When e)
     /\ setUser e run
        = mkEntry (Line e) (Pid e) (Process e) run (Group e) (Level e) (Message e)
                  (Words e) (Host e) (When e)
     /\ setGroup e run
        = mkEntry (Line e) (Pid e) (Process e) (User e) run (Level e) (Message e)
                  (Words e) (Host e) (When e)
     /\ setName h run = mkHost run (Addr h) (Mask h) (Port h)).
Proof.
  intros Hrun Hstop r r1.
  split; [|split; [|split; [|split]]; reflexivity].
  assert (Hascii : allb (fun b => isASCII b && isAlpha b) run = true).
  { clear - Hrun. induction run as [|c run IH]; [reflexivity|].
    simpl in *. apply andb_prop in Hrun. destruct Hrun as [Hc Hrun].
    rewrite Hc, (IH Hrun), !andb_true_r.
    unfold isASCII, utf8.RuneSelf. unfold isAlpha, isDigit, isLetter in Hc.
    change (rune "0") with 48 in Hc. change (rune "9") with 57 in Hc.
    change (rune "a") with 97 in Hc. change (rune "z") with 122 in Hc.
    change (rune "A") with 65 in Hc. change (rune "Z") with 90 in Hc.
    change (rune "-") with 45 in Hc. change (rune "_") with 95 in Hc.
    apply Z.ltb_lt. lia. }
  pose proof (parseString_takes_run isAlpha pre run rest p Hascii Hstop) as H.
  unfold parseProcess, parseUser, parseGroup, parseHostname, stringField.
  fold r in H. rewrite H. simpl.
  split; [reflexivity|]. split; [reflexivity|]. split; reflexivity.
Qed.

Lemma name_fields_take_alpha_run_witness :
  parseProcess (mkEntry "l" 12 "p" "u" "g" "INFO" "m" ["w"] "h" zeroTime)
               (bytesReader.mk "<sshd[12]" 1 0)
    = Ret (None, mkEntry "l" 12 "sshd" "u" "g" "INFO" "m" ["w"] "h" zeroTime,
           bytesReader.mk "<sshd[12]" 5 (-1))
  /\ parseUser (mkEntry "l" 12 "p" "u" "g" "INFO" "m" ["w"] "h" zeroTime)
               (bytesReader.mk "<sshd[12]" 1 0)
    = Ret (None, mkEntry "l" 12 "p" "sshd" "g" "INFO" "m" ["w"] "h" zeroTime,
           bytesReader.mk "<sshd[12]" 5 (-1))
  /\ parseGroup (mkEntry "l" 12 "p" "u" "g" "INFO" "m" ["w"] "h" zeroTime)
                (bytesReader.mk "<sshd[12]" 1 0)
    = Ret (None, mkEntry "l" 12 "p" "u" "sshd" "INFO" "m" ["w"] "h" zeroTime,
           bytesReader.mk "<sshd[12]" 5 (-1))
  /\ parseHostname (mkHost "n" "a" 24 22) (bytesReader.mk "<sshd[12]" 1 0)
    = Ret (None, mkHost "sshd" "a" 24 22, bytesReader.mk "<sshd[12]" 5 (-1)).
Proof.
  exact (proj1 (name_fields_take_alpha_run
                  (mkEntry "l" 12 "p" "u" "g" "INFO" "m" ["w"] "h" zeroTime)
                  (mkHost "n" "a" 24 22) "<" "sshd" "[12]" 0 eq_refl eq_refl)).
Defined.

Lemma parseStringLoop_hangs (accept : Z -> bool) :
  accept 0 = true ->
  forall run pre p fuel k buf,
    allb (fun b => isASCII b && accept b) run = true ->
    (String.length run < fuel)%nat ->
    parseStringLoop fuel k 0 (bytesReader.mk (pre ++ run) (len pre) p) accept buf = Loop.
Proof.
  intros Hzero. induction run as [|c run IH]; intros pre p fuel k buf Hrun Hfuel.
  - destruct fuel as [|f]; [simpl in Hfuel; lia|].
    rewrite append_nil_r. simpl parseStringLoop.
    rewrite ReadRune_end, Hzero. reflexivity.
  - destruct fuel as [|f]; [simpl in Hfuel; lia|].
    simpl in Hrun. apply andb_prop in Hrun. destruct Hrun as [Hc Hrun].
    apply andb_prop in Hc. destruct Hc as [Hascii Hacc].
    simpl parseStringLoop.
    rewrite (ReadRune_ascii pre c run p Hascii). rewrite Hacc. simpl.
    rewrite (WriteRune_ascii buf c Hascii).
    rewrite (shift_pre pre c run), <- (len_shift pre c).
    apply IH; [exact Hrun | simpl in Hfuel; lia].
Qed.

(** X10. The discard specifier never returns when the rune that follows it
    in the pattern (other than NUL) does not occur in the rest of the line:
    at the end of the input its scanner is handed rune 0 for ever, takes it
    as one more rune to discard and goes on. *)
Theorem parseDiscard_hangs_without_delimiter (next : Z) (e : Entry) (pre run : string) (p : Z) :
  next <> 0 ->
  allb (fun b => isASCII b && negb (b =? next)) run = true ->
  parseDiscard next e (bytesReader.mk (pre ++ run) (len pre) p) = Loop.
Proof.
  intros Hnext Hrun. unfold parseDiscard, parseString.
  rewrite (parseStringLoop_hangs (fun c => negb (c =? next))).
  - reflexivity.
  - destruct (Z.eqb_spec 0 next) as [H|_]; [congruence | reflexivity].
  - exact Hrun.
  - unfold fuelFor. rewrite Len_inside. unfold len. lia.
Qed.

Lemma parseDiscard_hangs_without_delimiter_witness :
  parseDiscard (rune "]") Entry0 (bytesReader.mk "sshd[12" 5 4) = Loop.
Proof.
  apply (parseDiscard_hangs_without_delimiter (rune "]") Entry0 "sshd[" "12" 4).
  - discriminate.
  - reflexivity.
Defined.

(** X11. The discard specifier stops in front of the first occurrence of
    the rune that follows it in the pattern: the one-byte runes before it
    are passed over, nothing is stored, and the delimiter is left to be
    read. *)
Theorem parseDiscard_stops_at_delimiter (e : Entry) (pre run : string) (d : ascii)
    (rest : string) (p : Z) :
  isASCII (rune d) = true ->
  allb (fun b => isASCII b && negb (b =? rune d)) run = true ->
  parseDiscard (rune d) e (bytesReader.mk (pre ++ run ++ String d rest) (len pre) p)
  = Ret (None, e, bytesReader.mk (pre ++ run ++ String d rest) (len pre + len run) (-1)).
Proof.
  intros Hd Hrun. unfold parseDiscard.
  rewrite (parseString_takes_run (fun c => negb (c =? rune d)) pre run (String d rest) p Hrun).
  - reflexivity.
  - simpl. rewrite Hd, Z.eqb_refl. reflexivity.
Qed.

Lemma parseDiscard_stops_at_delimiter_witness :
  parseDiscard (rune "]") Entry0 (bytesReader.mk "sshd[12]: hi" 5 4)
  = Ret (None, Entry0, bytesReader.mk "sshd[12]: hi" 7 (-1)).
Proof.
  apply (parseDiscard_stops_at_delimiter Entry0 "sshd[" "12" "]" ": hi" 4); reflexivity.
Defined.

(** ** The integer scanner on digits *)

Lemma isDigit_range (b : Z) : isDigit b = true -> 48 <= b <= 57.
Proof.
  unfold isDigit. change (rune "0") with 48. change (rune "9") with 57.
  intros H. apply andb_prop in H. destruct H as [H1 H2].
  apply Z.leb_le in H1. apply Z.leb_le in H2. lia.
Qed.

Lemma isDigit_ascii (b : Z) : isDigit b = true -> isASCII b = true.
Proof.
  intros H. apply isDigit_range in H. unfold isASCII, utf8.RuneSelf.
  apply Z.ltb_lt. lia.
Qed.

Lemma allb_impl (p q : Z -> bool) (str : string) :
  (forall b, p b = true -> q b = true) -> allb p str = true -> allb q str = true.
Proof.
  intros Hpq. induction str as [|c str IH]; simpl; [reflexivity|].
  intros H. apply andb_prop in H. destruct H as [Hc Hs].
  rewrite (Hpq _ Hc), (IH Hs). reflexivity.
Qed.

Lemma decimalFrom_ge (str : string) :
  forall acc, allb isDigit str = true -> 0 <= acc -> acc <= decimalFrom acc str.
Proof.
  induction str as [|c str IH]; intros acc Hd Hacc; simpl; [lia|].
  simpl in Hd. apply andb_prop in Hd. destruct Hd as [Hc Hs].
  apply isDigit_range in Hc. change (rune "0") with 48.
  specialize (IH (acc * 10 + (rune c - 48)) Hs). lia.
Qed.

Lemma parseUintLoop_digits (str : string) :
  forall acc, allb isDigit str = true -> 0 <= acc ->
    decimalFrom acc str <= strconv.maxUint64 ->
    strconv.parseUintLoop str acc = (decimalFrom acc str, None).
Proof.
  induction str as [|c str IH]; intros acc Hd Hacc Hmax; simpl; [reflexivity|].
  simpl in Hd. apply andb_prop in Hd. destruct Hd as [Hc Hs].
  rewrite Hc. pose proof (isDigit_range _ Hc) as Hr.
  simpl in Hmax. change (rune "0") with 48 in *.
  pose proof (decimalFrom_ge str (acc * 10 + (rune c - 48)) Hs) as Hge.
  destruct (Z.ltb_spec strconv.maxUint64 (acc * 10 + (rune c - 48))) as [H|_]; [lia|].
  apply IH; [exact Hs | lia | exact Hmax].
Qed.

Lemma ParseInt_digits (str : string) :
  strings.isEmpty str = false -> allb isDigit str = true ->
  decimal str <= strconv.maxInt64 ->
  strconv.ParseInt str = (decimal str, None).
Proof.
  intros Hne Hd Hmax. unfold strconv.ParseInt. rewrite Hne.
  rewrite (parseUintLoop_digits str 0 Hd) by (unfold decimal in Hmax;
    unfold strconv.maxInt64, strconv.maxUint64 in *; lia).
  fold (decimal str).
  destruct (Z.ltb_spec strconv.maxInt64 (decimal str)) as [H|_]; [lia | reflexivity].
Qed.

Lemma TrimLeft0_digits (str : string) :
  allb isDigit str = true ->
  allb isDigit (strings.TrimLeft0 str) = true
  /\ decimal (strings.TrimLeft0 str) = decimal str
  /\ (strings.isEmpty (strings.TrimLeft0 str) = true <-> decimal str = 0).
Proof.
  unfold decimal. induction str as [|c str IH]; intros Hd.
  - simpl. split; [reflexivity|]. split; [reflexivity|]. split; reflexivity.
  - pose proof Hd as Hd0. simpl in Hd. apply andb_prop in Hd. destruct Hd as [Hc Hs].
    simpl strings.TrimLeft0. change (rune "0") with 48.
    destruct (Z.eqb_spec (rune c) 48) as [H0|Hn0].
    + destruct (IH Hs) as [H1 [H2 H3]].
      split; [exact H1|].
      simpl decimalFrom. change (rune "0") with 48. rewrite H0. simpl.
      split; [exact H2 | exact H3].
    + split; [exact Hd0|]. split; [reflexivity|].
      simpl. change (rune "0") with 48.
      pose proof (isDigit_range _ Hc) as Hr.
      pose proof (decimalFrom_ge str (rune c - 48) Hs) as Hge.
      split; [discriminate | lia].
Qed.

(** What [parseInt] does with the digits its loop collected. *)
Lemma parseInt_converts (v : Z) (run : string) :
  allb isDigit run = true -> decimal run <= strconv.maxInt64 ->
  (let part := strings.TrimLeft0 run in
   if strings.isEmpty part then (None, v)
   else let '(x, err) := strconv.ParseInt part in
        if isNil err then (None, x) else (err, v))
  = (None : error, if decimal run =? 0 then v else decimal run).
Proof.
  intros Hd Hmax. destruct (TrimLeft0_digits run Hd) as [H1 [H2 H3]]. simpl.
  destruct (strings.isEmpty (strings.TrimLeft0 run)) eqn:He.
  - rewrite (proj1 H3 eq_refl). reflexivity.
  - rewrite (ParseInt_digits _ He H1) by (rewrite H2; exact Hmax).
    simpl. rewrite H2.
    destruct (Z.eqb_spec (decimal run) 0) as [H0|_]; [|reflexivity].
    apply H3 in H0. congruence.
Qed.

Lemma parseUintLoop_range (str : string) :
  forall acc, allb isDigit str = true -> 0 <= acc <= strconv.maxUint64 ->
    strconv.maxUint64 < decimalFrom acc str ->
    strconv.parseUintLoop str acc = (strconv.maxUint64, Some ErrNumRange).
Proof.
  induction str as [|c str IH]; intros acc Hd Hacc Hmax; simpl in *; [lia|].
  apply andb_prop in Hd. destruct Hd as [Hc Hs].
  rewrite Hc. pose proof (isDigit_range _ Hc) as Hr.
  change (rune "0") with 48 in *.
  destruct (Z.ltb_spec strconv.maxUint64 (acc * 10 + (rune c - 48))) as [_|H];
    [reflexivity|].
  apply IH; [exact Hs | lia | exact Hmax].
Qed.

Lemma ParseInt_range (str : string) :
  strings.isEmpty str = false -> allb isDigit str = true ->
  strconv.maxInt64 < decimal str ->
  strconv.ParseInt str = (strconv.maxInt64, Some ErrNumRange).
Proof.
  intros Hne Hd Hmax. unfold strconv.ParseInt. rewrite Hne.
  destruct (Z.le_gt_cases (decimal str) strconv.maxUint64) as [Hle|Hgt].
  - rewrite (parseUintLoop_digits str 0 Hd) by (unfold decimal in Hle; lia).
    fold (decimal str).
    destruct (Z.ltb_spec strconv.maxInt64 (decimal str)) as [_|H]; [reflexivity | lia].
  - rewrite (parseUintLoop_range str 0 Hd)
      by (unfold decimal in Hgt; unfold strconv.maxUint64 in *; lia).
    reflexivity.
Qed.

(** Beyond 2^63 - 1 the conversion fails and nothing is stored. *)
Lemma parseInt_converts_range (v : Z) (run : string) :
  allb isDigit run = true -> strconv.maxInt64 < decimal run ->
  (let part := strings.TrimLeft0 run in
   if strings.isEmpty part then (None, v)
   else let '(x, err) := strconv.ParseInt part in
        if isNil err then (None, x) else (err, v))
  = (Some ErrNumRange, v).
Proof.
  intros Hd Hmax. destruct (TrimLeft0_digits run Hd) as [H1 [H2 H3]]. simpl.
  destruct (strings.isEmpty (strings.TrimLeft0 run)) eqn:He.
  - rewrite (proj1 H3 eq_refl) in Hmax. unfold strconv.maxInt64 in Hmax. lia.
  - rewrite (ParseInt_range _ He H1) by (rewrite H2; exact Hmax). reflexivity.
Qed.

Lemma parseIntLoop_run (accept : Z -> bool) :
  forall run pre rest p fuel k buf,
    allb (fun b => isASCII b && accept b) run = true ->
    stopsAt accept rest = true \/ rest = EmptyString ->
    (String.length run < fuel)%nat ->
    parseIntLoop fuel k 0 (bytesReader.mk (pre ++ run ++ rest) (len pre) p) accept buf
    = Ret (match rest with
           | EmptyString => inl EOF
           | String _ _ => inr (buf ++ run)
           end, bytesReader.mk (pre ++ run ++ rest) (len pre + len run) (-1)).
Proof.
  induction run as [|c run IH]; intros pre rest p fuel k buf Hrun Hstop Hfuel.
  - destruct fuel as [|f]; [simpl in Hfuel; lia|].
    simpl append. rewrite append_nil_r. unfold len at 3. simpl String.length.
    rewrite Z.add_0_r. simpl parseIntLoop.
    destruct rest as [|d rest].
    + rewrite append_nil_r, ReadRune_end. reflexivity.
    + destruct Hstop as [Hstop|Hstop]; [|discriminate].
      simpl in Hstop. apply andb_prop in Hstop. destruct Hstop as [Hd Hacc].
      rewrite (ReadRune_ascii pre d rest p Hd). rewrite Hacc. simpl.
      unfold UnreadRune. simpl. pose proof (len_nonneg pre) as Hp.
      destruct (Z.leb_spec (len pre + 1) 0) as [H|_]; [lia|].
      destruct (Z.ltb_spec (len pre) 0) as [H|_]; [lia | reflexivity].
  - destruct fuel as [|f]; [simpl in Hfuel; lia|].
    simpl in Hrun. apply andb_prop in Hrun. destruct Hrun as [Hc Hrun].
    apply andb_prop in Hc. destruct Hc as [Hascii Hacc].
    simpl append. simpl parseIntLoop.
    rewrite (ReadRune_ascii pre c (run ++ rest) p Hascii). rewrite Hacc. simpl.
    rewrite (WriteRune_ascii buf c Hascii).
    rewrite (shift_pre pre c (run ++ rest)), <- (len_shift pre c).
    rewrite (IH (pre ++ String c EmptyString) rest (len pre) f (k + 1)
                (buf ++ String c EmptyString) Hrun Hstop) by (simpl in Hfuel; lia).
    rewrite append_assoc. simpl append.
    rewrite len_shift, len_cons. f_equal. f_equal.
    replace (len pre + 1 + len run) with (len pre + (1 + len run)) by lia.
    reflexivity.
Qed.

Lemma parseInt_of_loop (v n : Z) (str : Cursor) (accept : Z -> bool)
    (res : Err + string) (str1 : Cursor) :
  parseIntLoop (fuelFor str) 0 n str accept EmptyString = Ret (res, str1) ->
  parseInt v n str accept =
  match res with
  | inl e => Ret (Some e, v, str1)
  | inr buf =>
      let '(err, x) :=
        (let part := strings.TrimLeft0 buf in
         if strings.isEmpty part then (None, v)
         else let '(x, err) := strconv.ParseInt part in
              if isNil err then (None, x) else (err, v)) in
      Ret (err, x, str1)
  end.
Proof.
  intros H. unfold parseInt. rewrite H. simpl.
  destruct res as [e|buf]; [reflexivity|].
  destruct (strings.isEmpty (strings.TrimLeft0 buf)); [reflexivity|].
  destruct (strconv.ParseInt (strings.TrimLeft0 buf)) as [x err0].
  destruct (isNil err0); reflexivity.
Qed.

Lemma digits_ascii (run : string) :
  allb isDigit run = true -> allb (fun b => isASCII b && isDigit b) run = true.
Proof.
  apply allb_impl. intros b Hb. rewrite Hb, (isDigit_ascii b Hb). reflexivity.
Qed.

(** X12. The integer scanner without a width, on a run of digits that ends
    at a one-byte rune that is no digit, leaves the cursor on the rune that
    ended the digits.  When the number the digits write is at most
    2^63 - 1 it returns nil and stores that number; when the number is 0,
    and when there is no digit at all, it returns nil just the same and the
    field keeps the value it had.  When the number is larger than 2^63 - 1
    it returns the range error of [strconv] and the field keeps the value it
    had. *)
Theorem parseInt_variable_width (v : Z) (pre run : string) (d : ascii) (rest : string) (p : Z) :
  allb isDigit run = true ->
  (isASCII (rune d) && negb (isDigit (rune d))) = true ->
  parseInt v 0 (bytesReader.mk (pre ++ run ++ String d rest) (len pre) p) isDigit
  = if decimal run <=? strconv.maxInt64
    then Ret (None, if decimal run =? 0 then v else decimal run,
              bytesReader.mk (pre ++ run ++ String d rest) (len pre + len run) (-1))
    else Ret (Some ErrNumRange, v,
              bytesReader.mk (pre ++ run ++ String d rest) (len pre + len run) (-1)).
Proof.
  intros Hrun Hd.
  rewrite (parseInt_of_loop v 0 _ isDigit (inr run)
             (bytesReader.mk (pre ++ run ++ String d rest) (len pre + len run) (-1))).
  - destruct (Z.leb_spec (decimal run) strconv.maxInt64) as [Hmax|Hmax].
    + rewrite (parseInt_converts v run Hrun Hmax). reflexivity.
    + rewrite (parseInt_converts_range v run Hrun Hmax). reflexivity.
  - rewrite (parseIntLoop_run isDigit run pre (String d rest) p).
    + reflexivity.
    + exact (digits_ascii run Hrun).
    + left. exact Hd.
    + unfold fuelFor. rewrite Len_inside, len_app.
      pose proof (len_nonneg (String d rest)). unfold len in *. lia.
Qed.

Lemma parseInt_variable_width_witness :
  parseInt 7 0 (bytesReader.mk "sshd[0042]" 5 4) isDigit
    = Ret (None, 42, bytesReader.mk "sshd[0042]" 9 (-1))
  /\ parseInt 7 0 (bytesReader.mk "sshd[000]" 5 4) isDigit
    = Ret (None, 7, bytesReader.mk "sshd[000]" 8 (-1))
  /\ parseInt 7 0 (bytesReader.mk "sshd[]" 5 4) isDigit
    = Ret (None, 7, bytesReader.mk "sshd[]" 5 (-1))
  /\ parseInt 7 0 (bytesReader.mk "sshd[9223372036854775807]" 5 4) isDigit
    = Ret (None, 9223372036854775807, bytesReader.mk "sshd[9223372036854775807]" 24 (-1))
  /\ parseInt 7 0 (bytesReader.mk "sshd[9223372036854775808]" 5 4) isDigit
    = Ret (Some ErrNumRange, 7, bytesReader.mk "sshd[9223372036854775808]" 24 (-1))
  /\ parseInt 7 0 (bytesReader.mk "sshd[12345678901234567890123]" 5 4) isDigit
    = Ret (Some ErrNumRange, 7, bytesReader.mk "sshd[12345678901234567890123]" 28 (-1)).
Proof.
  split; [|split; [|split; [|split; [|split]]]].
  - apply (parseInt_variable_width 7 "sshd[" "0042" "]" EmptyString 4); reflexivity.
  - apply (parseInt_variable_width 7 "sshd[" "000" "]" EmptyString 4); reflexivity.
  - apply (parseInt_variable_width 7 "sshd[" EmptyString "]" EmptyString 4); reflexivity.
  - apply (parseInt_variable_width 7 "sshd[" "9223372036854775807" "]" EmptyString 4);
      reflexivity.
  - apply (parseInt_variable_width 7 "sshd[" "9223372036854775808" "]" EmptyString 4);
      reflexivity.
  - apply (parseInt_variable_width 7 "sshd[" "12345678901234567890123" "]" EmptyString 4);
      reflexivity.
Defined.

(** X13. The integer scanner without a width, on digits that run to the
    end of the input: it returns [io.EOF], not nil and not the mismatch
    error, and stores nothing, whatever the digits. *)
Theorem parseInt_digits_to_end (v : Z) (pre run : string) (p : Z) :
  allb isDigit run = true ->
  parseInt v 0 (bytesReader.mk (pre ++ run) (len pre) p) isDigit
  = Ret (Some EOF, v, bytesReader.mk (pre ++ run) (len pre + len run) (-1)).
Proof.
  intros Hrun.
  pose proof (parseIntLoop_run isDigit run pre EmptyString p
                (fuelFor (bytesReader.mk (pre ++ run) (len pre) p)) 0 EmptyString
                (digits_ascii run Hrun) (or_intror eq_refl)) as Hloop.
  rewrite append_nil_r in Hloop.
  rewrite (parseInt_of_loop v 0 _ isDigit (inl EOF)
             (bytesReader.mk (pre ++ run) (len pre + len run) (-1))).
  - reflexivity.
  - apply Hloop. unfold fuelFor. rewrite Len_inside. unfold len. lia.
Qed.

Lemma parseInt_digits_to_end_witness :
  parseInt 0 0 (bytesReader.mk "192.168.1.10:22" 13 12) isDigit
  = Ret (Some EOF, 0, bytesReader.mk "192.168.1.10:22" 15 (-1)).
Proof.
  apply (parseInt_digits_to_end 0 "192.168.1.10:" "22" 12). reflexivity.
Defined.

(** The value [prevRune] holds after a run was read. *)
Lemma parseIntLoop_fixed (accept : Z -> bool) (n : Z) :
  0 < n ->
  forall run pre rest p fuel k buf,
    allb (fun b => isASCII b && accept b) run = true ->
    k + len run = n ->
    (String.length run <= fuel)%nat ->
    exists q,
      parseIntLoop fuel k n (bytesReader.mk (pre ++ run ++ rest) (len pre) p) accept buf
      = Ret (inr (buf ++ run), bytesReader.mk (pre ++ run ++ rest) (len pre + len run) q).
Proof.
  intros Hn. induction run as [|c run IH]; intros pre rest p fuel k buf Hrun Hk Hfuel.
  - exists p. unfold len in Hk at 1. simpl in Hk.
    assert (Hcond : (n <=? 0) || (k <? n) = false).
    { destruct (Z.leb_spec n 0); destruct (Z.ltb_spec k n); simpl; try reflexivity; lia. }
    destruct fuel; simpl parseIntLoop; rewrite Hcond, append_nil_r;
      unfold len at 2; simpl; rewrite Z.add_0_r; reflexivity.
  - destruct fuel as [|f]; [simpl in Hfuel; lia|].
    simpl in Hrun. apply andb_prop in Hrun. destruct Hrun as [Hc Hrun].
    apply andb_prop in Hc. destruct Hc as [Hascii Hacc].
    rewrite len_cons in Hk. pose proof (len_nonneg run) as Hlr.
    assert (Hcond : (n <=? 0) || (k <? n) = true).
    { destruct (Z.leb_spec n 0); destruct (Z.ltb_spec k n); simpl; try reflexivity; lia. }
    simpl append. simpl parseIntLoop. rewrite Hcond.
    rewrite (ReadRune_ascii pre c (run ++ rest) p Hascii). rewrite Hacc. simpl.
    rewrite (WriteRune_ascii buf c Hascii).
    rewrite (shift_pre pre c (run ++ rest)), <- (len_shift pre c).
    destruct (IH (pre ++ String c EmptyString) rest (len pre) f (k + 1)
                 (buf ++ String c EmptyString) Hrun) as [q Hq];
      [lia | simpl in Hfuel; lia |].
    exists q. rewrite Hq. rewrite append_assoc. simpl append.
    rewrite len_shift, len_cons. f_equal. f_equal.
    replace (len pre + 1 + len run) with (len pre + (1 + len run)) by lia.
    reflexivity.
Qed.

(** X14. The integer scanner with a width, on that many digits: it reads
    exactly them, whatever follows, and stores the number they write; when
    they are all zeros it returns nil and the field keeps the value it
    had. *)
Theorem parseInt_fixed_width (v n : Z) (pre run rest : string) (p : Z) :
  0 < n -> len run = n ->
  allb isDigit run = true ->
  (decimal run <=? strconv.maxInt64) = true ->
  exists q,
    parseInt v n (bytesReader.mk (pre ++ run ++ rest) (len pre) p) isDigit
    = Ret (None, if decimal run =? 0 then v else decimal run,
           bytesReader.mk (pre ++ run ++ rest) (len pre + n) q).
Proof.
  intros Hn Hlen Hrun Hmax. apply Z.leb_le in Hmax.
  destruct (parseIntLoop_fixed isDigit n Hn run pre rest p
              (fuelFor (bytesReader.mk (pre ++ run ++ rest) (len pre) p)) 0 EmptyString
              (digits_ascii run Hrun)) as [q Hq].
  - lia.
  - unfold fuelFor. rewrite Len_inside, len_app.
    pose proof (len_nonneg rest). unfold len in *. lia.
  - exists q.
    rewrite (parseInt_of_loop v n _ isDigit _ _ Hq).
    simpl append. rewrite (parseInt_converts v run Hrun Hmax). rewrite Hlen. reflexivity.
Qed.

Lemma parseInt_fixed_width_witness :
  (exists q, parseInt 1 2 (bytesReader.mk "2023-05-01" 5 4) isDigit
             = Ret (None, 5, bytesReader.mk "2023-05-01" 7 q))
  /\ (exists q, parseInt 1 2 (bytesReader.mk "2023-00-01" 5 4) isDigit
                = Ret (None, 1, bytesReader.mk "2023-00-01" 7 q)).
Proof.
  split.
  - apply (parseInt_fixed_width 1 2 "2023-" "05" "-01" 4); try reflexivity.
  - apply (parseInt_fixed_width 1 2 "2023-" "00" "-01" 4); try reflexivity.
Defined.

Lemma parseIntLoop_short (accept : Z -> bool) (n : Z) :
  forall run pre rest p fuel k buf,
    allb (fun b => isASCII b && accept b) run = true ->
    0 <= k -> k + len run < n ->
    stopsAt accept rest = true \/ rest = EmptyString ->
    (String.length run < fuel)%nat ->
    parseIntLoop fuel k n (bytesReader.mk (pre ++ run ++ rest) (len pre) p) accept buf
    = Ret (match rest with
           | EmptyString => inl EOF
           | String _ _ => inl ErrPattern
           end, afterStop (pre ++ run ++ rest) (len pre + len run) rest).
Proof.
  induction run as [|c run IH]; intros pre rest p fuel k buf Hrun Hk0 Hk Hstop Hfuel.
  - destruct fuel as [|f]; [simpl in Hfuel; lia|].
    unfold len in Hk at 1. simpl in Hk.
    assert (Hcond : (n <=? 0) || (k <? n) = true).
    { destruct (Z.leb_spec n 0); destruct (Z.ltb_spec k n); simpl; try reflexivity; lia. }
    assert (Hn0 : (n =? 0) = false) by (apply Z.eqb_neq; lia).
    simpl append. unfold len at 3. simpl String.length.
    rewrite Z.add_0_r. simpl parseIntLoop. rewrite Hcond.
    destruct rest as [|d rest].
    + rewrite append_nil_r, ReadRune_end. reflexivity.
    + destruct Hstop as [Hstop|Hstop]; [|discriminate].
      simpl in Hstop. apply andb_prop in Hstop. destruct Hstop as [Hd Hacc].
      rewrite (ReadRune_ascii pre d rest p Hd). rewrite Hacc. simpl.
      rewrite Hn0. reflexivity.
  - destruct fuel as [|f]; [simpl in Hfuel; lia|].
    simpl in Hrun. apply andb_prop in Hrun. destruct Hrun as [Hc Hrun].
    apply andb_prop in Hc. destruct Hc as [Hascii Hacc].
    rewrite len_cons in Hk. pose proof (len_nonneg run) as Hlr.
    assert (Hcond : (n <=? 0) || (k <? n) = true).
    { destruct (Z.leb_spec n 0); destruct (Z.ltb_spec k n); simpl; try reflexivity; lia. }
    simpl append. simpl parseIntLoop. rewrite Hcond.
    rewrite (ReadRune_ascii pre c (run ++ rest) p Hascii). rewrite Hacc. simpl.
    rewrite (WriteRune_ascii buf c Hascii).
    rewrite (shift_pre pre c (run ++ rest)), <- (len_shift pre c).
    rewrite (IH (pre ++ String c EmptyString) rest (len pre) f (k + 1)
                (buf ++ String c EmptyString) Hrun) by (try lia; try exact Hstop;
                                                          simpl in Hfuel; lia).
    rewrite len_shift, len_cons. f_equal. f_equal.
    replace (len pre + 1 + len run) with (len pre + (1 + len run)) by lia.
    reflexivity.
Qed.

(** X15. The integer scanner with a width, on fewer digits than the width:
    when a one-byte rune that is no digit follows them it returns the
    mismatch error, with that rune consumed; when the input ends it returns
    [io.EOF].  Either way nothing is stored. *)
Theorem parseInt_fixed_width_short (v n : Z) (pre run rest : string) (p : Z) :
  len run < n ->
  allb isDigit run = true ->
  stopsAt isDigit rest = true ->
  parseInt v n (bytesReader.mk (pre ++ run ++ rest) (len pre) p) isDigit
  = Ret (Some (match rest with
               | EmptyString => EOF
               | String _ _ => ErrPattern
               end), v, afterStop (pre ++ run ++ rest) (len pre + len run) rest).
Proof.
  intros Hlen Hrun Hstop.
  rewrite (parseInt_of_loop v n _ isDigit
             (match rest with EmptyString => inl EOF | String _ _ => inl ErrPattern end)
             (afterStop (pre ++ run ++ rest) (len pre + len run) rest)).
  - destruct rest; reflexivity.
  - apply parseIntLoop_short.
    + exact (digits_ascii run Hrun).
    + lia.
    + lia.
    + left. exact Hstop.
    + unfold fuelFor. rewrite Len_inside, len_app.
      pose proof (len_nonneg rest). unfold len in *. lia.
Qed.

Lemma parseInt_fixed_width_short_witness :
  parseInt 0 4 (bytesReader.mk "on 202-05" 3 2) isDigit
    = Ret (Some ErrPattern, 0, bytesReader.mk "on 202-05" 7 6)
  /\ parseInt 0 4 (bytesReader.mk "on 202" 3 2) isDigit
    = Ret (Some EOF, 0, bytesReader.mk "on 202" 6 (-1)).
Proof.
  split.
  - apply (parseInt_fixed_width_short 0 4 "on " "202" "-05" 2); reflexivity.
  - apply (parseInt_fixed_width_short 0 4 "on " "202" EmptyString 2); reflexivity.
Defined.

(** ** Literals *)

Lemma literalLoop_match :
  forall lit done pre rest q p fuel,
    allb isASCII lit = true ->
    (String.length lit <= fuel)%nat ->
    exists p1,
      literalLoop fuel (bytesReader.mk (done ++ lit) (len done) q)
                  (bytesReader.mk (pre ++ lit ++ rest) (len pre) p)
      = Ret (None, bytesReader.mk (pre ++ lit ++ rest) (len pre + len lit) p1).
Proof.
  induction lit as [|c lit IH]; intros done pre rest q p fuel Hlit Hfuel.
  - exists p. rewrite append_nil_r.
    assert (Hlen : Len (bytesReader.mk done (len done) q) = 0).
    { pose proof (Len_inside done EmptyString q) as H. rewrite append_nil_r in H. exact H. }
    destruct fuel; cbn [literalLoop]; rewrite Hlen; simpl;
      unfold len at 2; simpl; rewrite Z.add_0_r; reflexivity.
  - destruct fuel as [|f]; [simpl in Hfuel; lia|].
    simpl in Hlit. apply andb_prop in Hlit. destruct Hlit as [Hc Hlit].
    destruct (IH (done ++ String c EmptyString) (pre ++ String c EmptyString) rest
                 (len done) (len pre) f Hlit) as [p1 Hp1]; [simpl in Hfuel; lia|].
    exists p1.
    cbn [literalLoop]. rewrite Len_inside, len_cons.
    pose proof (len_nonneg lit) as Hl.
    destruct (Z.ltb_spec 0 (1 + len lit)) as [_|H]; [|lia].
    rewrite (ReadRune_ascii done c lit q Hc).
    simpl append. rewrite (ReadRune_ascii pre c (lit ++ rest) p Hc).
    rewrite Z.eqb_refl. simpl negb. cbv iota.
    rewrite (shift_pre done c lit), <- (len_shift done c).
    rewrite (shift_pre pre c (lit ++ rest)), <- (len_shift pre c).
    rewrite Hp1. rewrite len_shift. f_equal. f_equal. f_equal. lia.
Qed.

(** X16. A literal of one-byte runes that stands at the cursor is matched:
    the matcher returns nil, changes nothing in the accumulator and moves
    the cursor behind the literal, by its length exactly. *)
Theorem matchLiteral_matches {S : Type} (lit : string) (s0 : S) (pre rest : string) (p : Z) :
  allb isASCII lit = true ->
  exists p1,
    matchLiteral lit s0 (bytesReader.mk (pre ++ lit ++ rest) (len pre) p)
    = Ret (None, s0, bytesReader.mk (pre ++ lit ++ rest) (len pre + len lit) p1).
Proof.
  intros Hlit. unfold matchLiteral, bytesReader.NewReader.
  destruct (literalLoop_match lit EmptyString pre rest (-1) p
              (fuelFor (bytesReader.mk lit 0 (-1))) Hlit) as [p1 Hp1].
  - unfold fuelFor. pose proof (Len_inside EmptyString lit (-1)) as H.
    simpl in H. change (len EmptyString) with 0 in H. rewrite H. unfold len. lia.
  - exists p1. cbn [append] in Hp1. change (len EmptyString) with 0 in Hp1.
    rewrite Hp1. reflexivity.
Qed.

Lemma matchLiteral_matches_witness :
  exists p1,
    parseLiteral "]: " Entry0 (bytesReader.mk "sshd[12]: hi" 7 (-1))
    = Ret (None, Entry0, bytesReader.mk "sshd[12]: hi" 10 p1).
Proof.
  apply (matchLiteral_matches "]: " Entry0 "sshd[12" "hi" (-1)). reflexivity.
Defined.

Lemma literalLoop_mismatch :
  forall common done c tail pre other q p fuel,
    allb isASCII common = true ->
    isASCII (rune c) = true ->
    match other with
    | EmptyString => rune c <> 0
    | String d _ => isASCII (rune d) = true /\ d <> c
    end ->
    (String.length common < fuel)%nat ->
    literalLoop fuel (bytesReader.mk (done ++ common ++ String c tail) (len done) q)
                (bytesReader.mk (pre ++ common ++ other) (len pre) p)
    = Ret (Some ErrPattern,
           afterStop (pre ++ common ++ other) (len pre + len common) other).
Proof.
  induction common as [|x common IH];
    intros done c tail pre other q p fuel Hcommon Hc Hother Hfuel.
  - destruct fuel as [|f]; [simpl in Hfuel; lia|].
    simpl append. unfold len at 4. simpl String.length. rewrite Z.add_0_r.
    cbn [literalLoop]. rewrite Len_inside, len_cons.
    pose proof (len_nonneg tail) as Hl.
    destruct (Z.ltb_spec 0 (1 + len tail)) as [_|H]; [|lia].
    rewrite (ReadRune_ascii done c tail q Hc).
    destruct other as [|d other].
    + rewrite append_nil_r, ReadRune_end.
      destruct (Z.eqb_spec (rune c) 0) as [H|_]; [contradiction | reflexivity].
    + destruct Hother as [Hd Hdc].
      rewrite (ReadRune_ascii pre d other p Hd).
      destruct (Z.eqb_spec (rune c) (rune d)) as [H|_]; [|reflexivity].
      exfalso. apply Hdc. rewrite <- (byte_of_rune d), <- H. apply byte_of_rune.
  - destruct fuel as [|f]; [simpl in Hfuel; lia|].
    simpl in Hcommon. apply andb_prop in Hcommon. destruct Hcommon as [Hx Hcommon].
    simpl append. cbn [literalLoop]. rewrite Len_inside, len_cons.
    pose proof (len_nonneg (common ++ String c tail)) as Hl.
    destruct (Z.ltb_spec 0 (1 + len (common ++ String c tail))) as [_|H]; [|lia].
    rewrite (ReadRune_ascii done x (common ++ String c tail) q Hx).
    rewrite (ReadRune_ascii pre x (common ++ other) p Hx).
    rewrite Z.eqb_refl. simpl.
    rewrite (shift_pre done x (common ++ String c tail)), <- (len_shift done x).
    rewrite (shift_pre pre x (common ++ other)), <- (len_shift pre x).
    rewrite (IH (done ++ String x EmptyString) c tail (pre ++ String x EmptyString)
                other (len done) (len pre) f Hcommon Hc Hother)
      by (simpl in Hfuel; lia).
    rewrite len_shift, len_cons. f_equal. f_equal.
    replace (len pre + 1 + len common) with (len pre + (1 + len common)) by lia.
    reflexivity.
Qed.

(** X17. A literal of one-byte runes is refused at the first rune where the
    input differs from it, or where the input ends (the literal holding no
    NUL there): the matcher returns the mismatch error, with the differing
    rune consumed. *)
Theorem matchLiteral_mismatch {S : Type} (common : string) (c : ascii) (tail : string)
    (s0 : S) (pre other : string) (p : Z) :
  allb isASCII common = true ->
  isASCII (rune c) = true ->
  match other with
  | EmptyString => rune c <> 0
  | String d _ => isASCII (rune d) = true /\ d <> c
  end ->
  matchLiteral (common ++ String c tail) s0
               (bytesReader.mk (pre ++ common ++ other) (len pre) p)
  = Ret (Some ErrPattern, s0,
         afterStop (pre ++ common ++ other) (len pre + len common) other).
Proof.
  intros Hcommon Hc Hother. unfold matchLiteral, bytesReader.NewReader.
  pose proof (literalLoop_mismatch common EmptyString c tail pre other (-1) p
                (fuelFor (bytesReader.mk (common ++ String c tail) 0 (-1)))
                Hcommon Hc Hother) as H.
  cbn [append] in H. change (len EmptyString) with 0 in H. rewrite H; [reflexivity|].
  unfold fuelFor. pose proof (Len_inside EmptyString (common ++ String c tail) (-1)) as HL.
  simpl in HL. change (len EmptyString) with 0 in HL. rewrite HL, len_app, len_cons.
  pose proof (len_nonneg tail). unfold len in *. lia.
Qed.

Lemma matchLiteral_mismatch_witness :
  parseLiteral "2023-05-01T" Entry0 (bytesReader.mk "2023-05-01 10:22" 0 (-1))
    = Ret (Some ErrPattern, Entry0, bytesReader.mk "2023-05-01 10:22" 11 10)
  /\ parseLiteral " ok" Entry0 (bytesReader.mk "7 b o" 3 2)
    = Ret (Some ErrPattern, Entry0, bytesReader.mk "7 b o" 5 (-1)).
Proof.
  split.
  - apply (matchLiteral_mismatch "2023-05-01" "T" EmptyString Entry0 EmptyString " 10:22" (-1)).
    + reflexivity.
    + reflexivity.
    + split; [reflexivity | discriminate].
  - apply (matchLiteral_mismatch " o" "k" EmptyString Entry0 "7 b" EmptyString 2).
    + reflexivity.
    + reflexivity.
    + discriminate.
Defined.

(** ** Host scanners *)

Lemma WriteRune_dot (buf : string) : WriteRune buf (rune ".") = buf ++ ".".
Proof. reflexivity. Qed.

Ltac ipv4_step H :=
  match type of H with
  | context [parseInt 0 0 ?r isDigit] =>
      let err1 := fresh "err" in
      let j := fresh "j" in
      let r1 := fresh "r" in
      let Hj := fresh "Hj" in
      destruct (parseInt 0 0 r isDigit) as [[[err1 j] r1]| |];
      cbn [bind] in H; try discriminate H;
      destruct err1; try discriminate H;
      destruct ((j <? 0) || (255 <? j)) eqn:Hj; try discriminate H;
      apply orb_false_elim in Hj
  end.

Ltac ipv4_dot H :=
  match type of H with
  | context [peek ?r] =>
      let k := fresh "k" in
      let r1 := fresh "r" in
      destruct (peek r) as [k r1];
      destruct (negb (k =? rune ".")); try discriminate H
  end.

(** X18. When the IPv4 scanner succeeds, the address it stores is four
    decimal numbers from 0 to 255 joined by dots, written without leading
    zeros, and the other components of the host are untouched. *)
Theorem parseIPv4_address_shape (h : host) (r : Cursor) (h1 : host) (r1 : Cursor) :
  parseIPv4 h r = Ret (None, h1, r1) ->
  exists a b c d,
    (0 <= a <= 255 /\ 0 <= b <= 255 /\ 0 <= c <= 255 /\ 0 <= d <= 255)
    /\ Addr h1 = strconv.Itoa a ++ "." ++ strconv.Itoa b ++ "."
                 ++ strconv.Itoa c ++ "." ++ strconv.Itoa d
    /\ Name h1 = Name h /\ Mask h1 = Mask h /\ Port h1 = Port h.
Proof.
  intros H. unfold parseIPv4 in H.
  destruct (peek r) as [quote r0].
  set (rs := if quote =? rune "[" then skipRune r0 else r0) in H. clearbody rs.
  change (Z.to_nat ip4len) with 4%nat in H.
  cbn [parseIPv4Loop] in H.
  change (ip4len - 1) with 3 in H.
  change (0 <? 3) with true in H. cbv iota in H.
  ipv4_step H. ipv4_dot H.
  change (0 + 1 <? 3) with true in H. cbv iota in H.
  ipv4_step H. ipv4_dot H.
  change (0 + 1 + 1 <? 3) with true in H. cbv iota in H.
  ipv4_step H. ipv4_dot H.
  change (0 + 1 + 1 + 1 <? 3) with false in H. cbv iota in H.
  ipv4_step H.
  cbn [bind] in H. unfold closeBracket in H.
  match type of H with context [peek ?x] => destruct (peek x) as [kk rr] end.
  assert (Haddr : forall buf, Addr (setAddr h buf) = buf) by reflexivity.
  exists j, j0, j1, j2.
  repeat match goal with Hb : _ = false /\ _ = false |- _ =>
    let H1 := fresh in let H2 := fresh in
    destruct Hb as [H1 H2]; apply Z.ltb_ge in H1; apply Z.ltb_ge in H2 end.
  split; [lia|].
  rewrite !WriteRune_dot in H.
  destruct (quote =? rune "[").
  - destruct (negb (kk =? rune "]")); [discriminate H|].
    injection H as <- _. simpl. rewrite !append_assoc. simpl.
    split; [reflexivity|]. split; [reflexivity|]. split; reflexivity.
  - injection H as <- _. simpl. rewrite !append_assoc. simpl.
    split; [reflexivity|]. split; [reflexivity|]. split; reflexivity.
Qed.

Lemma parseIPv4_address_shape_witness :
  exists a b c d,
    (0 <= a <= 255 /\ 0 <= b <= 255 /\ 0 <= c <= 255 /\ 0 <= d <= 255)
    /\ Addr (setAddr host0 "192.168.1.10")
       = strconv.Itoa a ++ "." ++ strconv.Itoa b ++ "."
         ++ strconv.Itoa c ++ "." ++ strconv.Itoa d
    /\ Name (setAddr host0 "192.168.1.10") = Name host0
    /\ Mask (setAddr host0 "192.168.1.10") = Mask host0
    /\ Port (setAddr host0 "192.168.1.10") = Port host0.
Proof.
  apply (parseIPv4_address_shape host0 (bytesReader.NewReader "[192.168.001.10]:22")
           (setAddr host0 "192.168.1.10")
           (bytesReader.mk "[192.168.001.10]:22" 16 15)).
  vm_compute. reflexivity.
Defined.

(** X19. When the port scanner succeeds the port is from 0 to 65535, and
    when the mask scanner succeeds the mask is from 0 to 32; neither
    touches another component of the host. *)
Theorem port_and_mask_in_range (h : host) (r : Cursor) (h1 : host) (r1 : Cursor) :
  (parsePort h r = Ret (None, h1, r1) ->
     0 <= Port h1 <= 65535
     /\ Name h1 = Name h /\ Addr h1 = Addr h /\ Mask h1 = Mask h)
  /\ (parseMask h r = Ret (None, h1, r1) ->
     0 <= Mask h1 <= 32
     /\ Name h1 = Name h /\ Addr h1 = Addr h /\ Port h1 = Port h).
Proof.
  split; intros H.
  - unfold parsePort, intField in H.
    destruct (parseInt (Port h) 0 r isDigit) as [[[err1 v] r2]| |];
      cbn [bind] in H; try discriminate H.
    destruct err1; cbn [isNil negb] in H; [discriminate H|].
    cbn [Port setPort] in H.
    destruct ((v <? 0) || (65535 <? v)) eqn:Hv; [discriminate H|].
    injection H as <- _. apply orb_false_elim in Hv. destruct Hv as [H1 H2].
    apply Z.ltb_ge in H1. apply Z.ltb_ge in H2. simpl.
    split; [lia|]. split; [reflexivity|]. split; reflexivity.
  - unfold parseMask, intField in H.
    destruct (parseInt (Mask h) 0 r isDigit) as [[[err1 v] r2]| |];
      cbn [bind] in H; try discriminate H.
    destruct err1; cbn [isNil negb] in H; [discriminate H|].
    cbn [Mask setMask] in H.
    destruct ((v <? 0) || (32 <? v)) eqn:Hv; [discriminate H|].
    injection H as <- _. apply orb_false_elim in Hv. destruct Hv as [H1 H2].
    apply Z.ltb_ge in H1. apply Z.ltb_ge in H2. simpl.
    split; [lia|]. split; [reflexivity|]. split; reflexivity.
Qed.

Lemma port_and_mask_in_range_witness :
  (0 <= Port (setPort host0 22) <= 65535
   /\ Name (setPort host0 22) = Name host0
   /\ Addr (setPort host0 22) = Addr host0
   /\ Mask (setPort host0 22) = Mask host0)
  /\ (0 <= Mask (setMask host0 24) <= 32
   /\ Name (setMask host0 24) = Name host0
   /\ Addr (setMask host0 24) = Addr host0
   /\ Port (setMask host0 24) = Port host0).
Proof.
  split.
  - apply (proj1 (port_and_mask_in_range host0 (bytesReader.NewReader "22 ")
                    (setPort host0 22) (bytesReader.mk "22 " 2 (-1)))).
    vm_compute. reflexivity.
  - apply (proj2 (port_and_mask_in_range host0 (bytesReader.NewReader "24 ")
                    (setMask host0 24) (bytesReader.mk "24 " 2 (-1)))).
    vm_compute. reflexivity.
Defined.

(** ** Tables and lists of names *)

Lemma In_insert (x y : string) (l : list string) :
  In y (sort.insert x l) -> y = x \/ In y l.
Proof.
  induction l as [|z l IH]; simpl.
  - intros [H|[]]. left. symmetry. exact H.
  - destruct (strings.ltb z x); simpl.
    + intros [H|H]; [right; left; exact H|].
      destruct (IH H) as [H1|H1]; [left; exact H1 | right; right; exact H1].
    + intros [H|[H|H]]; [left; symmetry; exact H | right; left; exact H
                        | right; right; exact H].
Qed.

Lemma In_Strings (y : string) (l : list string) :
  In y (sort.Strings l) -> In y l.
Proof.
  induction l as [|x l IH]; simpl; [tauto|].
  intros H. destruct (In_insert x y _ H) as [->|H1]; [left; reflexivity|].
  right. apply IH. exact H1.
Qed.

Lemma insert_nonempty (x : string) (l : list string) : sort.insert x l <> [].
Proof. destruct l as [|y l]; simpl; [|destruct (strings.ltb y x)]; discriminate. Qed.

Lemma Strings_nil (l : list string) : sort.Strings l = [] -> l = [].
Proof.
  destruct l as [|x l]; [reflexivity|]. simpl. intros H.
  exfalso. exact (insert_nonempty _ _ H).
Qed.

Lemma Split_nonempty (str : string) (sep : ascii) : strings.Split str sep <> [].
Proof.
  unfold strings.Split. generalize EmptyString as cur.
  induction str as [|c str IH]; intros cur; simpl; [discriminate|].
  destruct (Ascii.eqb c sep); [discriminate | apply IH].
Qed.

(** A lookup that did not fail names an entry of the table. *)
Lemma found_In (a : list string) (x : Z) (str : string) :
  0 <= x -> notFound a x str = false -> In str a.
Proof.
  intros Hx H. unfold notFound in H. apply orb_false_elim in H. destruct H as [Hlen Heq].
  apply Z.leb_gt in Hlen. apply negb_false_iff in Heq. apply String.eqb_eq in Heq.
  rewrite <- Heq. unfold sort.at_. apply nth_In. lia.
Qed.

Lemma SearchStrings_nonneg (a : list string) (str : string) :
  0 <= sort.SearchStrings a str.
Proof. unfold sort.SearchStrings, sort.Search. apply searchLoop_nonneg. lia. Qed.

(** X20. With a list of levels that is not empty, the level specifier lets
    a line through only when the run of letters it read is one of the
    listed levels, blanks in the list not counting; the run is stored as the
    level either way. *)
Theorem parseLevel_accepts_listed (level : string) (fn : parsefunc) (e : Entry)
    (r : Cursor) (e1 : Entry) (r1 : Cursor) :
  parseLevel level = COk fn ->
  strings.isEmpty (strings.MapDrop isBlank level) = false ->
  fn e r = Ret (None, e1, r1) ->
  In (Level e1) (strings.Split (strings.MapDrop isBlank level) ",")
  /\ exists p, parseString r 0 isLetter = Ret (Level e1, p, r1).
Proof.
  intros Hc Hne Hrun. unfold parseLevel in Hc. injection Hc as <-.
  rewrite Hne in Hrun. cbn [negb] in Hrun.
  destruct (parseString r 0 isLetter) as [[[str p] r2]| |]; cbn [bind] in Hrun;
    try discriminate Hrun.
  set (levels := sort.Strings (strings.Split (strings.MapDrop isBlank level) ",")) in *.
  cbn [Level setLevel] in Hrun.
  destruct (notFound levels (sort.SearchStrings levels str) str) eqn:Hnf.
  - destruct (0 <? Z.of_nat (List.length levels)) eqn:Hl; cbn [andb] in Hrun;
      [discriminate Hrun|].
    exfalso. apply Z.ltb_ge in Hl.
    assert (Hnil : levels = []) by (destruct levels; [reflexivity | simpl in Hl; lia]).
    unfold levels in Hnil. apply Strings_nil in Hnil.
    exact (Split_nonempty _ _ Hnil).
  - rewrite andb_false_r in Hrun. injection Hrun as <- <-. cbn [Level setLevel].
    split.
    + apply In_Strings. apply (found_In levels _ str (SearchStrings_nonneg levels str) Hnf).
    + exists p. reflexivity.
Qed.

Lemma parseLevel_accepts_listed_witness :
  In (Level (setLevel Entry0 "INFO")) (strings.Split (strings.MapDrop isBlank "INFO, WARNING") ",")
  /\ exists p, parseString (bytesReader.NewReader "INFO]") 0 isLetter
               = Ret (Level (setLevel Entry0 "INFO"), p, bytesReader.mk "INFO]" 4 (-1)).
Proof.
  apply (parseLevel_accepts_listed "INFO, WARNING"
           (match parseLevel "INFO, WARNING" with COk f => f | _ => parseBlank end)
           Entry0 (bytesReader.NewReader "INFO]") (setLevel Entry0 "INFO")
           (bytesReader.mk "INFO]" 4 (-1))).
  - reflexivity.
  - vm_compute. reflexivity.
  - vm_compute. reflexivity.
Defined.

(** X21. The day-name specifier checks and stores nothing: when it
    succeeds the three letters read are, in lower case, one of mon, tue,
    wed, thu, fri, sat, sun, and the time accumulator is as it was. *)
Theorem parseDayStr_checks_only (w : when) (r : Cursor) (w1 : when) (r1 : Cursor) :
  parseDayStr w r = Ret (None, w1, r1) ->
  w1 = w
  /\ exists name,
       parseString r 3 isLetter = Ret (name, None, r1)
       /\ In (strings.ToLower name) days_decl.
Proof.
  intros H. unfold parseDayStr in H.
  destruct (parseString r 3 isLetter) as [[[name err0] r2]| |]; cbn [bind] in H;
    try discriminate H.
  destruct err0; cbn [isNil negb] in H; [discriminate H|].
  destruct (notFound days (sort.SearchStrings days (strings.ToLower name))
                     (strings.ToLower name)) eqn:Hnf; [discriminate H|].
  injection H as <- <-. split; [reflexivity|].
  exists name. split; [reflexivity|].
  apply In_Strings. fold days.
  exact (found_In days _ _ (SearchStrings_nonneg days _) Hnf).
Qed.

Lemma parseDayStr_checks_only_witness :
  when0 = when0
  /\ exists name,
       parseString (bytesReader.NewReader "Tue, 2") 3 isLetter
         = Ret (name, None, bytesReader.mk "Tue, 2" 2 (-1))
       /\ In (strings.ToLower name) days_decl.
Proof.
  apply (parseDayStr_checks_only when0 (bytesReader.NewReader "Tue, 2") when0
           (bytesReader.mk "Tue, 2" 2 (-1))).
  vm_compute. reflexivity.
Defined.

(** ** Alternation, one alternative at a time *)

(** X22. What an alternation does with its first alternative, run from the
    position the alternation starts at: when it returns nil the alternation
    returns what it returned, and no other alternative runs; when it returns
    an error the alternation goes on as the alternation of the remaining
    alternatives, from the starting position again, on the entry as the
    failed alternative left it: the cursor is rewound, the entry is not. *)
Theorem altFn_first_alternative (pf : parsefunc) (rest : list parsefunc) (e : Entry)
    (r : Cursor) (err1 : error) (e1 : Entry) (r1 : Cursor) :
  0 <= i r ->
  pf e (bytesReader.mk (s r) (i r) (-1)) = Ret (err1, e1, r1) ->
  altFn (pf :: rest) e r =
  if isNil err1 then Ret (err1, e1, r1)
  else altFn rest e1 (bytesReader.mk (s r1) (i r) (-1)).
Proof.
  intros Hpos Hpf. unfold altFn, SeekCurrent0.
  destruct (Z.ltb_spec (i r) 0) as [H|_]; [lia|].
  cbn [isNil negb altLoop]. rewrite Hpf. cbn [bind].
  destruct err1 as [x|]; cbn [isNil]; [|reflexivity].
  rewrite (SeekStart_ok r1 (i r) Hpos). cbn [isNil negb bytesReader.i bytesReader.s].
  destruct (Z.ltb_spec (i r) 0) as [H|_]; [lia|]. reflexivity.
Qed.

Lemma altFn_first_alternative_witness :
  altFn [mergeParse [parseProcess; parseLiteral "!"]; parseUser] Entry0
        (bytesReader.NewReader "ab?")
  = altFn [parseUser] (setProcess Entry0 "ab") (bytesReader.mk "ab?" 0 (-1)).
Proof.
  apply (altFn_first_alternative (mergeParse [parseProcess; parseLiteral "!"]) [parseUser]
           Entry0 (bytesReader.NewReader "ab?") (Some ErrPattern)
           (setProcess Entry0 "ab") (bytesReader.mk "ab?" 3 2)).
  - simpl. lia.
  - vm_compute. reflexivity.
Defined.

(** ** The output compiler *)

(** Text that holds no specifier: one-byte runes other than the percent
    sign. *)
Lemma printLoop_plain (Format : time.Time -> string) :
  forall tail pre p fuel buf pfs,
    allb (fun b => isASCII b && negb (b =? rune "%")) tail = true ->
    (String.length tail <= fuel)%nat ->
    printLoop Format fuel (bytesReader.mk (pre ++ tail) (len pre) p) buf pfs
    = COk (mergePrint pfs).
Proof.
  induction tail as [|c tail IH]; intros pre p fuel buf pfs Htail Hfuel.
  - destruct fuel; cbn [printLoop]; rewrite Len_inside; reflexivity.
  - destruct fuel as [|f]; [simpl in Hfuel; lia|].
    simpl in Htail. apply andb_prop in Htail. destruct Htail as [Hc Htail].
    apply andb_prop in Hc. destruct Hc as [Hascii Hpct].
    apply negb_true_iff in Hpct.
    cbn [printLoop]. rewrite Len_inside, len_cons.
    pose proof (len_nonneg tail) as Hl.
    destruct (Z.ltb_spec 0 (1 + len tail)) as [_|H]; [|lia].
    rewrite (ReadRune_ascii pre c tail p Hascii). rewrite Hpct.
    rewrite (shift_pre pre c tail), <- (len_shift pre c).
    apply IH; [exact Htail | simpl in Hfuel; lia].
Qed.

Ltac eval_closed_tests :=
  repeat match goal with
         | |- context [rune ?a =? rune ?b] =>
             let v := eval vm_compute in (rune a =? rune b) in
             change (rune a =? rune b) with v
         end.

Ltac after_specifier c tail Htail :=
  unfold parsePrint; cbn [strings.isEmpty append];
  unfold bytesReader.NewReader, fuelFor;
  let HL := fresh "HL" in
  pose proof (Len_inside EmptyString (String "%" (String c tail)) (-1)) as HL;
  cbn [append] in HL; change (len EmptyString) with 0 in HL; rewrite HL;
  rewrite !len_cons;
  let Hl := fresh "Hl" in
  pose proof (len_nonneg tail) as Hl;
  replace (Z.to_nat (1 + (1 + len tail))) with (S (S (String.length tail)))
    by (unfold len; lia);
  let f := fresh "f" in
  let Hf := fresh "Hf" in
  remember (S (S (String.length tail))) as f eqn:Hf;
  cbn [printLoop]; rewrite HL, !len_cons;
  destruct (Z.ltb_spec 0 (1 + (1 + len tail))) as [_|?]; [|lia];
  let H1 := fresh "H1" in
  pose proof (ReadRune_ascii EmptyString "%" (String c tail) (-1) eq_refl) as H1;
  cbn [append] in H1; change (len EmptyString) with 0 in H1; rewrite H1;
  let H2 := fresh "H2" in
  pose proof (ReadRune_ascii "%" c tail 0 eq_refl) as H2;
  cbn [append] in H2; change (len "%") with 1 in H2; change (0 + 1) with 1;
  rewrite H2;
  eval_closed_tests; change (0 <? len EmptyString) with false;
  cbv beta iota zeta;
  change (String "%" (String c tail)) with ((String "%" (String c EmptyString)) ++ tail);
  change (1 + 1) with (len (String "%" (String c EmptyString)));
  apply printLoop_plain; [exact Htail | lia].

(** X23. Text after the last specifier of an output pattern is never
    written: a pattern made of one specifier and text compiles to the chain
    of that specifier alone, and a pattern of text alone to the empty chain
    (the text collected is handed over only when a specifier is met). *)
Theorem parsePrint_drops_trailing_text (Format : time.Time -> string) (tail : string) :
  plain tail = true ->
  parsePrint Format ("%t" ++ tail) = COk (mergePrint [printTime Format])
  /\ parsePrint Format ("%n" ++ tail) = COk (mergePrint [printProcess])
  /\ parsePrint Format ("%p" ++ tail) = COk (mergePrint [printPID])
  /\ parsePrint Format ("%u" ++ tail) = COk (mergePrint [printUser])
  /\ parsePrint Format ("%g" ++ tail) = COk (mergePrint [printGroup])
  /\ parsePrint Format ("%h" ++ tail) = COk (mergePrint [printHost])
  /\ parsePrint Format ("%l" ++ tail) = COk (mergePrint [printLevel])
  /\ parsePrint Format ("%m" ++ tail) = COk (mergePrint [printMessage])
  /\ parsePrint Format ("%#" ++ tail) = COk (mergePrint [printLine])
  /\ (tail <> EmptyString -> parsePrint Format tail = COk (mergePrint [])).
Proof.
  intros Htail.
  split; [after_specifier "t"%char tail Htail|].
  split; [after_specifier "n"%char tail Htail|].
  split; [after_specifier "p"%char tail Htail|].
  split; [after_specifier "u"%char tail Htail|].
  split; [after_specifier "g"%char tail Htail|].
  split; [after_specifier "h"%char tail Htail|].
  split; [after_specifier "l"%char tail Htail|].
  split; [after_specifier "m"%char tail Htail|].
  split; [after_specifier "#"%char tail Htail|].
  intros Hne. unfold parsePrint.
  destruct tail as [|c tail]; [congruence|]. cbn [strings.isEmpty].
  unfold bytesReader.NewReader.
  change (bytesReader.mk (String c tail) 0 (-1))
    with (bytesReader.mk (EmptyString ++ String c tail) (len EmptyString) (-1)).
  apply printLoop_plain; [exact Htail|].
  unfold fuelFor. rewrite Len_inside. unfold len. lia.
Qed.

Lemma parsePrint_drops_trailing_text_witness :
  parsePrint (fun _ => EmptyString) "%m [done]" = COk (mergePrint [printMessage])
  /\ parsePrint (fun _ => EmptyString) "no specifier here" = COk (mergePrint []).
Proof.
  pose proof (parsePrint_drops_trailing_text (fun _ => EmptyString) " [done]" eq_refl) as H1.
  pose proof (parsePrint_drops_trailing_text (fun _ => EmptyString) "no specifier here"
                eq_refl) as H2.
  split.
  - exact (proj1 (proj2 (proj2 (proj2 (proj2 (proj2 (proj2 (proj2 H1)))))))).
  - apply (proj2 (proj2 (proj2 (proj2 (proj2 (proj2 (proj2 (proj2 (proj2 H2))))))))).
    discriminate.
Defined.

Lemma printString_adds (str w : string) :
  exists t, printString str w = w ++ t /\ t <> EmptyString.
Proof.
  unfold printString. destruct str as [|c str]; simpl.
  - exists empty. split; [reflexivity | discriminate].
  - exists (String c str). split; [reflexivity | discriminate].
Qed.

(** X24. No formatter writes nothing: each specifier of an output pattern
    adds at least one byte to the line, whatever the record (a field that is
    empty, a pid that is not positive, the zero time and a word that the
    record does not have are written as N/A), and leaves what was written
    before it. *)
Theorem formatters_never_write_nothing (Format : time.Time -> string) (e : Entry)
    (w : string) :
  Forall (fun p : printfunc => exists t, p e w = w ++ t /\ t <> EmptyString)
         [printTime Format; printProcess; printPID; printUser; printGroup;
          printHost; printLevel; printMessage; printLine]
  /\ (forall j, exists t, printWord j e w = w ++ t /\ t <> EmptyString)
  /\ (forall lit, exists t, printLiteral lit e w = w ++ t /\ t <> EmptyString).
Proof.
  split; [|split].
  - repeat (constructor; [apply printString_adds|]). constructor.
  - intros j. apply printString_adds.
  - intros lit. apply printString_adds.
Qed.

Lemma digit_is_no_letter (b : Z) :
  isDigit b = true ->
  (b =? rune "%") = false /\ (b =? rune "t") = false /\ (b =? rune "n") = false
  /\ (b =? rune "p") = false /\ (b =? rune "u") = false /\ (b =? rune "g") = false
  /\ (b =? rune "h") = false /\ (b =? rune "l") = false /\ (b =? rune "m") = false
  /\ (b =? rune "#") = false.
Proof.
  intros H. apply isDigit_range in H.
  change (rune "%") with 37. change (rune "t") with 116. change (rune "n") with 110.
  change (rune "p") with 112. change (rune "u") with 117. change (rune "g") with 103.
  change (rune "h") with 104. change (rune "l") with 108. change (rune "m") with 109.
  change (rune "#") with 35.
  repeat split; apply Z.eqb_neq; lia.
Qed.

(** X25. An output pattern that ends in a word specifier, a percent sign
    and digits, is refused: the integer scanner meets the end of the pattern
    behind the digits and its [io.EOF] is returned as the error of the
    compilation. *)
Theorem parsePrint_word_at_end (Format : time.Time -> string) (c : ascii) (run : string) :
  allb isDigit (String c run) = true ->
  parsePrint Format (String "%" (String c run)) = CErr EOF.
Proof.
  intros Hrun. pose proof Hrun as Hall.
  simpl in Hrun. apply andb_prop in Hrun. destruct Hrun as [Hc Hrun].
  pose proof (isDigit_ascii _ Hc) as Hascii.
  destruct (digit_is_no_letter _ Hc) as (N0 & N1 & N2 & N3 & N4 & N5 & N6 & N7 & N8 & N9).
  unfold parsePrint. cbn [strings.isEmpty].
  unfold bytesReader.NewReader, fuelFor.
  pose proof (Len_inside EmptyString (String "%" (String c run)) (-1)) as HL.
  cbn [append] in HL. change (len EmptyString) with 0 in HL. rewrite HL.
  rewrite !len_cons. pose proof (len_nonneg run) as Hl.
  remember (Z.to_nat (1 + (1 + len run))) as f eqn:Hf.
  cbn [printLoop]. rewrite HL, !len_cons.
  destruct (Z.ltb_spec 0 (1 + (1 + len run))) as [_|?]; [|lia].
  pose proof (ReadRune_ascii EmptyString "%" (String c run) (-1) eq_refl) as H1.
  cbn [append] in H1. change (len EmptyString) with 0 in H1. rewrite H1.
  pose proof (ReadRune_ascii "%" c run 0 Hascii) as H2.
  cbn [append] in H2. change (len "%") with 1 in H2. change (0 + 1) with 1.
  rewrite Z.eqb_refl. rewrite H2.
  rewrite N0, N1, N2, N3, N4, N5, N6, N7, N8, N9, Hc. cbn [negb].
  unfold UnreadRune. cbn [bytesReader.i bytesReader.prevRune bytesReader.s snd].
  change (1 + 1 <=? 0) with false. change (1 <? 0) with false. cbv iota.
  pose proof (parseInt_digits_to_end 0 "%" (String c run) (-1) Hall) as HP.
  cbn [append] in HP. change (len "%") with 1 in HP.
  cbn [snd]. rewrite HP. reflexivity.
Qed.

Lemma parsePrint_word_at_end_witness :
  parsePrint (fun _ => EmptyString) "%12" = CErr EOF.
Proof.
  apply (parsePrint_word_at_end (fun _ => EmptyString) "1" "2"). reflexivity.
Defined.

(** ** Blanks *)

(** X26. The blank specifier passes over the spaces and tabs at the cursor,
    none included, stores nothing and leaves the cursor on the first rune
    that is neither. *)
Theorem parseBlank_skips_blanks (e : Entry) (pre run rest : string) (p : Z) :
  allb isBlank run = true ->
  stopsAt isBlank rest = true ->
  parseBlank e (bytesReader.mk (pre ++ run ++ rest) (len pre) p)
  = Ret (None, e, bytesReader.mk (pre ++ run ++ rest) (len pre + len run) (-1)).
Proof.
  intros Hrun Hstop. unfold parseBlank.
  rewrite (parseString_takes_run isBlank pre run rest p); [reflexivity | | exact Hstop].
  revert Hrun. apply allb_impl. intros b Hb. rewrite Hb, andb_true_r.
  unfold isBlank in Hb. change (rune " ") with 32 in Hb. change (rune "009") with 9 in Hb.
  unfold isASCII, utf8.RuneSelf. apply Z.ltb_lt.
  apply orb_prop in Hb. destruct Hb as [H|H]; apply Z.eqb_eq in H; lia.
Qed.

Lemma parseBlank_skips_blanks_witness :
  parseBlank Entry0 (bytesReader.mk "[ok]   done" 4 3)
  = Ret (None, Entry0, bytesReader.mk "[ok]   done" 7 (-1)).
Proof.
  apply (parseBlank_skips_blanks Entry0 "[ok]" "   " "done" 3); reflexivity.
Defined.

(** ** The zone of a resolved time *)

Lemma rem_zero_mod (y k : Z) :
  k = 4 \/ k = 100 \/ k = 400 -> (Z.rem y k =? 0) = (y mod k =? 0).
Proof.
  intros Hk.
  destruct (Z.eqb_spec (Z.rem y k) 0) as [H|H];
    destruct (Z.eqb_spec (y mod k) 0) as [H'|H']; try reflexivity; exfalso;
    destruct Hk as [->|[->| ->]]; Z.to_euclidean_division_equations; lia.
Qed.

Lemma isLeap_leapYear (y : Z) : time.isLeap y = leapYear y.
Proof.
  unfold time.isLeap, leapYear.
  rewrite !rem_zero_mod by lia. reflexivity.
Qed.

Lemma daysSinceEpoch_civil (y : Z) :
  time.absoluteZeroYear <= y ->
  time.daysSinceEpoch y
  = 365 * (y - 1) + (y - 1) / 4 - (y - 1) / 100 + (y - 1) / 400 + 146097 * 730692556.
Proof.
  intros Hy. unfold time.daysSinceEpoch, time.absoluteZeroYear, time.daysPer400Years,
    time.daysPer100Years, time.daysPer4Years in *. cbv zeta.
  Z.to_euclidean_division_equations. lia.
Qed.

Lemma norm_id (hi lo base : Z) : 0 <= lo < base -> time.norm hi lo base = (hi, lo).
Proof.
  intros H. unfold time.norm.
  destruct (Z.ltb_spec lo 0) as [H0|_]; [lia|].
  destruct (Z.leb_spec base lo) as [H0|_]; [lia | reflexivity].
Qed.

Lemma daysBefore_month (m : Z) (leap : bool) :
  1 <= m <= 12 ->
  (let d := nth (Z.to_nat (m - 1 + 1 - 1)) time.daysBefore 0 in
   if leap && (3 <=? m - 1 + 1) then d + 1 else d) = daysBeforeMonth m leap.
Proof.
  intros Hm. replace (m - 1 + 1 - 1) with (m - 1) by lia.
  replace (m - 1 + 1) with m by lia.
  assert (H : m = 1 \/ m = 2 \/ m = 3 \/ m = 4 \/ m = 5 \/ m = 6 \/ m = 7 \/ m = 8
              \/ m = 9 \/ m = 10 \/ m = 11 \/ m = 12) by lia.
  unfold daysBeforeMonth.
  repeat (destruct H as [->|H]; [destruct leap; reflexivity|]).
  subst m. destruct leap; reflexivity.
Qed.

Lemma Date_civil (y m d hh mm ss ns : Z) (l : time.Location) :
  time.absoluteZeroYear <= y -> 1 <= m <= 12 ->
  0 <= hh < 24 -> 0 <= mm < 60 -> 0 <= ss < 60 -> 0 <= ns < 1000000000 ->
  time.unixSec (time.Date y m d hh mm ss ns l)
    = civilDays y m d * 86400 + hh * 3600 + mm * 60 + ss - time.offsetOf l
  /\ time.nsec (time.Date y m d hh mm ss ns l) = ns.
Proof.
  intros Hy Hm Hh Hmi Hs Hn. unfold time.Date.
  rewrite (norm_id y (m - 1) 12) by lia.
  rewrite (norm_id ss ns 1000000000 Hn), (norm_id mm ss 60 Hs), (norm_id hh mm 60 Hmi),
          (norm_id d hh 24 Hh).
  cbn [time.unixSec time.nsec]. split; [|reflexivity].
  pose proof (daysBefore_month m (time.isLeap y) Hm) as Hb. cbv zeta in Hb.
  destruct (time.isLeap y && (3 <=? m - 1 + 1)) eqn:Hl;
    rewrite (daysSinceEpoch_civil y Hy); unfold civilDays;
    rewrite <- (isLeap_leapYear y), <- Hb;
    unfold time.secondsPerDay, time.secondsPerHour, time.secondsPerMinute,
      time.absoluteToInternal, time.internalToUnix, time.unixToInternal,
      time.absoluteZeroYear, time.internalYear, time.daysPer400Years, time.secondsPerDay;
    change ((-292277022399 - 1) / 400) with (-730692556);
    change (1969 / 4) with 492; change (1969 / 100) with 19; change (1969 / 400) with 4;
    lia.
Qed.

(** The zone captured moves the instant, not the calendar fields: the
    instant is that of the same fields without a zone, less the offset. *)
Lemma when_Time_zone_shift (w : when) :
  Unix w = 0 -> YearDay w <= 0 ->
  time.unixSec (when_Time w) = time.unixSec (when_Time (setZone w 0)) - Zone w
  /\ time.nsec (when_Time w) = time.nsec (when_Time (setZone w 0)).
Proof.
  intros HU HY. rewrite (when_Time_defaults w HU HY).
  rewrite (when_Time_defaults (setZone w 0)) by (simpl; assumption).
  cbn [Year Mon Day Hour Min Sec Frac Zone setZone].
  change (0 =? 0) with true. cbv iota.
  unfold time.Date.
  destruct (time.norm _ _ 12) as [y m].
  destruct (time.norm (Sec w) (Frac w) 1000000000) as [s1 ns].
  destruct (time.norm (Min w) s1 60) as [m1 s2].
  destruct (time.norm (Hour w) m1 60) as [h1 m2].
  destruct (time.norm _ h1 24) as [d1 h2].
  cbn [time.unixSec time.nsec].
  destruct (Z.eqb_spec (Zone w) 0) as [Hz|Hz]; cbn [time.offsetOf];
    split; try reflexivity; lia.
Qed.

(** X27. Without a Unix component and a day of the year, and with the
    month and the clock fields in their ordinary ranges, the resolved time
    is the instant its calendar fields denote in UTC less the zone offset
    captured: counted in seconds from 1 January 1970 UTC it is 86400 times
    the days from that date to the day of the fields, plus the seconds of
    the clock fields, minus the offset; a year, month or day of 0 counts as
    1, and the nanoseconds are those of the fields. *)
Theorem when_Time_subtracts_zone (w : when) :
  Unix w = 0 -> YearDay w <= 0 ->
  0 <= Year w -> 0 <= Mon w <= 12 ->
  0 <= Hour w < 24 -> 0 <= Min w < 60 -> 0 <= Sec w < 60 -> 0 <= Frac w < 1000000000 ->
  time.unixSec (when_Time w)
    = civilDays (if Year w =? 0 then 1 else Year w)
                (if Mon w =? 0 then 1 else Mon w)
                (if Day w =? 0 then 1 else Day w) * 86400
      + Hour w * 3600 + Min w * 60 + Sec w - Zone w
  /\ time.nsec (when_Time w) = Frac w.
Proof.
  intros HU HY Hy Hm Hh Hmi Hs Hn. rewrite (when_Time_defaults w HU HY).
  assert (Hoff : time.offsetOf (if Zone w =? 0 then time.UTC
                                else time.FixedZone EmptyString (Zone w)) = Zone w).
  { destruct (Z.eqb_spec (Zone w) 0) as [H|_]; [rewrite H|]; reflexivity. }
  destruct (Date_civil (if Year w =? 0 then 1 else Year w)
              (if Mon w =? 0 then 1 else Mon w) (if Day w =? 0 then 1 else Day w)
              (Hour w) (Min w) (Sec w) (Frac w)
              (if Zone w =? 0 then time.UTC else time.FixedZone EmptyString (Zone w)))
    as [Hsec Hns]; try assumption.
  - unfold time.absoluteZeroYear. destruct (Year w =? 0); lia.
  - destruct (Z.eqb_spec (Mon w) 0); lia.
  - rewrite Hoff in Hsec. split; [exact Hsec | exact Hns].
Qed.

Lemma when_Time_subtracts_zone_witness :
  (time.unixSec (when_Time (mkWhen 2023 5 1 10 22 31 0 7200 0 0)) = 1682936551 - 7200
   /\ time.nsec (when_Time (mkWhen 2023 5 1 10 22 31 0 7200 0 0)) = 0)
  /\ (time.unixSec (when_Time (mkWhen 0 0 0 0 0 0 5 0 0 0)) = -62135596800
     /\ time.nsec (when_Time (mkWhen 0 0 0 0 0 0 5 0 0 0)) = 5)
  /\ (time.unixSec (when_Time (mkWhen 2024 3 1 23 59 59 999 (-3600) 0 0))
       = 1709337599 + 3600
     /\ time.nsec (when_Time (mkWhen 2024 3 1 23 59 59 999 (-3600) 0 0)) = 999).
Proof.
  split; [|split].
  - apply (when_Time_subtracts_zone (mkWhen 2023 5 1 10 22 31 0 7200 0 0));
      simpl; try reflexivity; lia.
  - apply (when_Time_subtracts_zone (mkWhen 0 0 0 0 0 0 5 0 0 0));
      simpl; try reflexivity; lia.
  - apply (when_Time_subtracts_zone (mkWhen 2024 3 1 23 59 59 999 (-3600) 0 0));
      simpl; try reflexivity; lia.
Defined.

(** ** Words *)

Lemma runesLoop_ascii :
  forall run pre p fuel,
    allb isASCII run = true ->
    (String.length run <= fuel)%nat ->
    strings.runesLoop fuel (bytesReader.mk (pre ++ run) (len pre) p) = bytesOf run.
Proof.
  induction run as [|c run IH]; intros pre p fuel Hrun Hfuel.
  - destruct fuel; cbn [strings.runesLoop]; rewrite Len_inside; reflexivity.
  - destruct fuel as [|f]; [simpl in Hfuel; lia|].
    simpl in Hrun. apply andb_prop in Hrun. destruct Hrun as [Hc Hrun].
    cbn [strings.runesLoop]. rewrite Len_inside, len_cons.
    pose proof (len_nonneg run) as Hl.
    destruct (Z.ltb_spec 0 (1 + len run)) as [_|H]; [|lia].
    rewrite (ReadRune_ascii pre c run p Hc).
    rewrite (shift_pre pre c run), <- (len_shift pre c).
    rewrite IH; [reflexivity | exact Hrun | simpl in Hfuel; lia].
Qed.

Lemma runes_ascii (run : string) :
  allb isASCII run = true -> strings.runes run = bytesOf run.
Proof.
  intros Hrun. unfold strings.runes, bytesReader.NewReader.
  change (bytesReader.mk run 0 (-1))
    with (bytesReader.mk (EmptyString ++ run) (len EmptyString) (-1)).
  apply runesLoop_ascii; [exact Hrun|].
  unfold fuelFor. rewrite Len_inside. unfold len. lia.
Qed.

Lemma ofRunes_bytesOf (run : string) :
  allb isASCII run = true ->
  forall buf, fold_left WriteRune (bytesOf run) buf = buf ++ run.
Proof.
  induction run as [|c run IH]; intros Hrun buf; simpl.
  - rewrite append_nil_r. reflexivity.
  - simpl in Hrun. apply andb_prop in Hrun. destruct Hrun as [Hc Hrun].
    unfold bytesOf in IH. rewrite (WriteRune_ascii buf c Hc), (IH Hrun).
    rewrite append_assoc. reflexivity.
Qed.

Lemma dropSpace_id (l : list Z) :
  Forall (fun c => strings.IsSpace c = false) l -> strings.dropSpace l = l.
Proof.
  intros H. destruct H as [|c l Hc Hl]; [reflexivity|].
  cbn [strings.dropSpace]. rewrite Hc. reflexivity.
Qed.

Lemma wordByte_facts (b : Z) :
  wordByte b = true ->
  isASCII b = true /\ (isBlank b || isEOL b) = false /\ strings.IsSpace b = false.
Proof.
  unfold wordByte. intros H.
  apply andb_prop in H. destruct H as [H H3].
  apply andb_prop in H. destruct H as [H1 H2].
  apply negb_true_iff in H2. apply negb_true_iff in H3.
  split; [exact H1|]. split; [exact H2 | exact H3].
Qed.

Lemma bytesOf_no_space (run : string) :
  allb wordByte run = true ->
  Forall (fun c => strings.IsSpace c = false) (bytesOf run).
Proof.
  induction run as [|c run IH]; intros H; [constructor|].
  simpl in H. apply andb_prop in H. destruct H as [Hc H].
  unfold bytesOf. simpl. constructor.
  - exact (proj2 (proj2 (wordByte_facts _ Hc))).
  - apply IH. exact H.
Qed.

Lemma TrimSpace_word (run : string) :
  allb wordByte run = true -> strings.TrimSpace run = run.
Proof.
  intros Hrun.
  assert (Hascii : allb isASCII run = true).
  { revert Hrun. apply allb_impl. intros b Hb. exact (proj1 (wordByte_facts b Hb)). }
  unfold strings.TrimSpace. rewrite (runes_ascii run Hascii).
  pose proof (bytesOf_no_space run Hrun) as Hns.
  rewrite (dropSpace_id _ Hns).
  rewrite (dropSpace_id (rev (bytesOf run))) by (apply Forall_rev; exact Hns).
  rewrite rev_involutive. unfold strings.ofRunes.
  rewrite (ofRunes_bytesOf run Hascii). reflexivity.
Qed.

Lemma parseWordLoop_run :
  forall run pre rest p fuel buf quote,
    allb (fun b => isASCII b && negb (isBlank b || isEOL b)) run = true ->
    stopsAt (fun z => negb (isBlank z || isEOL z)) rest = true ->
    (String.length run < fuel)%nat ->
    parseWordLoop fuel false quote (bytesReader.mk (pre ++ run ++ rest) (len pre) p) buf
    = Ret (inr (buf ++ run), afterStop (pre ++ run ++ rest) (len pre + len run) rest).
Proof.
  induction run as [|c run IH]; intros pre rest p fuel buf quote Hrun Hstop Hfuel.
  - destruct fuel as [|f]; [simpl in Hfuel; lia|].
    cbn [append]. rewrite append_nil_r. unfold len at 3. simpl String.length.
    rewrite Z.add_0_r. cbn [parseWordLoop].
    destruct rest as [|d rest]; cbn [stopsAt] in Hstop.
    + rewrite append_nil_r, ReadRune_end. reflexivity.
    + apply andb_prop in Hstop. destruct Hstop as [Hd Hacc].
      rewrite (ReadRune_ascii pre d rest p Hd).
      apply negb_true_iff in Hacc. apply negb_false_iff in Hacc.
      rewrite Hacc. reflexivity.
  - destruct fuel as [|f]; [simpl in Hfuel; lia|].
    simpl in Hrun. apply andb_prop in Hrun. destruct Hrun as [Hc Hrun].
    apply andb_prop in Hc. destruct Hc as [Hascii Hdelim].
    apply negb_true_iff in Hdelim.
    cbn [append parseWordLoop].
    rewrite (ReadRune_ascii pre c (run ++ rest) p Hascii). rewrite Hdelim.
    rewrite (WriteRune_ascii buf c Hascii).
    rewrite (shift_pre pre c (run ++ rest)), <- (len_shift pre c).
    rewrite (IH (pre ++ String c EmptyString) rest (len pre) f
                (buf ++ String c EmptyString) quote Hrun Hstop) by (simpl in Hfuel; lia).
    rewrite append_assoc. cbn [append].
    rewrite len_shift, len_cons. f_equal. f_equal.
    replace (len pre + 1 + len run) with (len pre + (1 + len run)) by lia.
    reflexivity.
Qed.

Lemma peek_inside (pre x : string) (p : Z) :
  isASCII (firstRune x) = true ->
  peek (bytesReader.mk (pre ++ x) (len pre) p)
  = (firstRune x, bytesReader.mk (pre ++ x) (len pre) (-1)).
Proof.
  intros Hx. unfold peek. pose proof (len_nonneg pre) as Hp.
  destruct x as [|c x]; cbn [firstRune] in *.
  - rewrite append_nil_r, ReadRune_end. unfold UnreadRune. simpl.
    destruct (len pre <=? 0); reflexivity.
  - rewrite (ReadRune_ascii pre c x p Hx). unfold UnreadRune. simpl.
    destruct (Z.leb_spec (len pre + 1) 0) as [H|_]; [lia|].
    destruct (Z.ltb_spec (len pre) 0) as [H|_]; [lia | reflexivity].
Qed.

(** X28. The word specifier on a word that is not quoted: the one-byte
    runes up to the next space, tab or NUL, or to the end of the line, are
    read, and the cursor is left on the rune that ended them.  What they
    spell, trimmed of the white space it starts and ends with (a carriage
    return, line feed, vertical tab or form feed, which do not end the
    word), is appended to the words of the record as one word; when nothing
    is left, the run being empty or white space only, nothing is appended.
    A run without any white space is appended as it is. *)
Theorem parseWord_takes_word (e : Entry) (pre run rest : string) (p : Z) :
  allb (fun b => isASCII b && negb (isBlank b || isEOL b)) run = true ->
  stopsAt (fun z => negb (isBlank z || isEOL z)) rest = true ->
  isQuote (firstRune (run ++ rest)) = false ->
  let word := strings.TrimSpace run in
  let words := if strings.isEmpty word then Words e else (Words e ++ [word])%list in
  parseWord EmptyString e (bytesReader.mk (pre ++ run ++ rest) (len pre) p)
  = Ret (None,
         mkEntry (Line e) (Pid e) (Process e) (User e) (Group e) (Level e) (Message e)
                 words (Host e) (When e),
         bytesReader.mk (pre ++ run ++ rest) (len pre + len run) (-1))
  /\ (allb wordByte run = true -> word = run).
Proof.
  intros Hrun Hstop Hq word words. split; [|exact (TrimSpace_word run)].
  unfold parseWord.
  assert (Hfirst : isASCII (firstRune (run ++ rest)) = true).
  { destruct run as [|c run]; cbn [append firstRune].
    - destruct rest as [|d rest]; [reflexivity|].
      cbn [stopsAt] in Hstop. apply andb_prop in Hstop. exact (proj1 Hstop).
    - simpl in Hrun. apply andb_prop in Hrun. destruct Hrun as [Hc _].
      apply andb_prop in Hc. exact (proj1 Hc). }
  rewrite (peek_inside pre (run ++ rest) p Hfirst). rewrite Hq.
  rewrite (parseWordLoop_run run pre rest (-1)) by
    (try exact Hrun; try exact Hstop; unfold fuelFor; rewrite Len_inside, len_app;
     pose proof (len_nonneg rest); unfold len in *; lia).
  cbn [bind negb]. rewrite UnreadRune_afterStop
    by (pose proof (len_nonneg pre); pose proof (len_nonneg run); lia).
  cbn [append]. subst words word.
  destruct (strings.isEmpty (strings.TrimSpace run)); [|reflexivity].
  destruct e; reflexivity.
Qed.

Lemma parseWord_takes_word_witness :
  parseWord EmptyString (mkEntry "l" 12 "p" "u" "g" "INFO" "m" ["a"] "h" zeroTime)
            (bytesReader.mk "12 b-1 ok" 3 2)
    = Ret (None, mkEntry "l" 12 "p" "u" "g" "INFO" "m" ["a"; "b-1"] "h" zeroTime,
           bytesReader.mk "12 b-1 ok" 6 (-1))
  /\ parseWord EmptyString (mkEntry "l" 12 "p" "u" "g" "INFO" "m" ["a"] "h" zeroTime)
       (bytesReader.mk ("12 " ++ String "013" "ab" ++ String "013" " c") 3 2)
    = Ret (None, mkEntry "l" 12 "p" "u" "g" "INFO" "m" ["a"; "ab"] "h" zeroTime,
           bytesReader.mk ("12 " ++ String "013" "ab" ++ String "013" " c") 7 (-1))
  /\ parseWord EmptyString (mkEntry "l" 12 "p" "u" "g" "INFO" "m" ["a"] "h" zeroTime)
       (bytesReader.mk ("12 " ++ String "013" (String "012" " c")) 3 2)
    = Ret (None, mkEntry "l" 12 "p" "u" "g" "INFO" "m" ["a"] "h" zeroTime,
           bytesReader.mk ("12 " ++ String "013" (String "012" " c")) 5 (-1))
  /\ parseWord EmptyString (mkEntry "l" 12 "p" "u" "g" "INFO" "m" ["a"] "h" zeroTime)
       (bytesReader.mk "12  c" 3 2)
    = Ret (None, mkEntry "l" 12 "p" "u" "g" "INFO" "m" ["a"] "h" zeroTime,
           bytesReader.mk "12  c" 3 (-1)).
Proof.
  split; [|split; [|split]].
  - exact (proj1 (parseWord_takes_word
                    (mkEntry "l" 12 "p" "u" "g" "INFO" "m" ["a"] "h" zeroTime)
                    "12 " "b-1" " ok" 2 eq_refl eq_refl eq_refl)).
  - exact (proj1 (parseWord_takes_word
                    (mkEntry "l" 12 "p" "u" "g" "INFO" "m" ["a"] "h" zeroTime) "12 "
                    (String "013" "ab" ++ String "013" EmptyString) " c" 2
                    eq_refl eq_refl eq_refl)).
  - exact (proj1 (parseWord_takes_word
                    (mkEntry "l" 12 "p" "u" "g" "INFO" "m" ["a"] "h" zeroTime) "12 "
                    (String "013" (String "012" EmptyString)) " c" 2
                    eq_refl eq_refl eq_refl)).
  - exact (proj1 (parseWord_takes_word
                    (mkEntry "l" 12 "p" "u" "g" "INFO" "m" ["a"] "h" zeroTime) "12 "
                    EmptyString " c" 2 eq_refl eq_refl eq_refl)).
Defined.

(** ** Unknown specifiers *)



